(** * Algorithmic trading system: indicator library, indicator calculator,
      strategies and the backtest engine.

    A shallow embedding of [trading_system/strategies/indicators.py],
    [trading_system/strategies/strategies.py], [trading_system/core/models.py]
    and [trading_system/backtesting/engine.py].

    Conventions of the embedding.
    - A Python [float] and a Python [Decimal] are both read as the rational
      number they denote ([Q]); equality of such values is [Qeq] ([==]).
      The concrete inputs used below are chosen so that what is stated about
      them does not depend on rounding: the amounts are small integers or
      decimals well inside the 28 significant digits of the default decimal
      context, equalities on floats are between values the float arithmetic
      computes exactly, and inequalities hold with a wide margin.
    - A Python exception is a value of [exn]; a function that can raise
      returns [res A].  Code that mutates the engine before it raises returns
      the mutated engine together with the exception.
    - Window lengths ([period] and the like) are natural numbers.
    - [numpy.std] is not part of the repository and is not rational; it is a
      parameter ([np_std]) of the definitions that reach it.
    - A general statement that an overflow or the loss of a tiny amount in a
      conversion would break carries a bound on the magnitudes involved
      ([float_safe], [float_safe_positive]); statements about lengths, signs
      and exceptions need none. *)

From Stdlib Require Import QArith Qround Qminmax Qabs Lqa ZArith Lia Sorted.
From stdpp Require Import gmap strings list fin_maps.

(** ** Python prelude *)

Inductive exn : Type :=
  | IndexError
  | ZeroDivisionError
  | ValueError
  | AttributeError
  | DecimalDivisionByZero.

Inductive res (A : Type) : Type :=
  | Ok (a : A)
  | Raise (e : exn).
Arguments Ok {A} a.
Arguments Raise {A} e.

#[global] Instance res_ret : MRet res := fun A a => Ok a.
#[global] Instance res_bind : MBind res := fun A B f m =>
  match m with
  | Ok a => f a
  | Raise e => Raise e
  end.

Definition is_Ok {A} (r : res A) : Prop :=
  match r with Ok _ => True | Raise _ => False end.

(** [x / y] on floats: raises on a zero divisor. *)
Definition py_div (x y : Q) : res Q :=
  if Qeq_bool y 0 then Raise ZeroDivisionError else Ok (x / y)%Q.

(** [l[i]] with Python's negative indices. *)
Definition py_index {A} (l : list A) (i : Z) : res A :=
  let n := Z.of_nat (length l) in
  let j := if (i <? 0)%Z then (n + i)%Z else i in
  if ((j <? 0)%Z || (n <=? j)%Z)%bool then Raise IndexError
  else match l !! Z.to_nat j with
       | Some x => Ok x
       | None => Raise IndexError
       end.

(** [l[-1] if l else None] *)
Definition last_or_None {A} (l : list A) : option A := last l.

(** [sum(l)]: a left fold from [0]. *)
Definition py_sum (l : list Q) : Q := fold_left Qplus l 0%Q.

(** [max(l)] and [min(l)] on a list: [ValueError] on an empty one. *)
Definition py_max (l : list Q) : res Q :=
  match l with
  | [] => Raise ValueError
  | x :: xs => Ok (fold_left (fun m y => if Qlt_le_dec m y then y else m) xs x)
  end.

Definition py_min (l : list Q) : res Q :=
  match l with
  | [] => Raise ValueError
  | x :: xs => Ok (fold_left (fun m y => if Qlt_le_dec y m then y else m) xs x)
  end.

(** [l[i:i+n]] for [0 <= i], [0 <= n]. *)
Definition slice {A} (l : list A) (i n : nat) : list A := take n (drop i l).

Definition Q_of_nat (n : nat) : Q := inject_Z (Z.of_nat n).

(** Lists of floats compared by value. *)
Definition Qlist_eq (l k : list Q) : Prop := Forall2 Qeq l k.

(** ** [indicators.py]: class [TechnicalIndicators] *)

Record MacdResult := {
  macd_line : list Q;
  signal_line : list Q;
  histogram : list Q
}.

Record BandsResult := {
  upper : list Q;
  middle : list Q;
  lower : list Q
}.

Record StochResult := {
  k_values : list Q;
  d_values : list Q
}.

Definition simple_moving_average (prices : list Q) (period : nat) : res (list Q) :=
  if (length prices <? period)%nat then Ok []
  else mapM (fun i => py_div (py_sum (slice prices i period)) (Q_of_nat period))
            (seq 0 (length prices - period + 1)).

(** The loop [for price in prices[period:]] of the EMA; [prev] is [ema[-1]]. *)
Fixpoint ema_loop (multiplier prev : Q) (prices : list Q) : list Q :=
  match prices with
  | [] => []
  | price :: rest =>
      let ema_val := (price * multiplier + prev * (1 - multiplier))%Q in
      ema_val :: ema_loop multiplier ema_val rest
  end.

Definition exponential_moving_average (prices : list Q) (period : nat) : res (list Q) :=
  if (length prices <? period)%nat then Ok []
  else
    multiplier ← py_div 2 (Q_of_nat period + 1)%Q;
    sma ← py_div (py_sum (take period prices)) (Q_of_nat period);
    Ok (sma :: ema_loop multiplier sma (drop period prices)).

(** [prices[i] - prices[i-1]] for [i] in [range(1, len(prices))]. *)
Fixpoint price_changes (prices : list Q) : list Q :=
  match prices with
  | a :: (b :: _) as rest => (b - a)%Q :: price_changes rest
  | _ => []
  end.

Definition gains_of (prices : list Q) : list Q :=
  map (fun change => Qmax change 0) (price_changes prices).

Definition losses_of (prices : list Q) : list Q :=
  map (fun change => Qmax (- change) 0) (price_changes prices).

(** One RSI value from the two running averages. *)
Definition rsi_value (avg_gain avg_loss : Q) : res Q :=
  if Qeq_bool avg_loss 0 then Ok 100%Q
  else
    rs ← py_div avg_gain avg_loss;
    q ← py_div 100 (1 + rs)%Q;
    Ok (100 - q)%Q.

(** The loop [for i in range(period, len(gains))] of the RSI, over the pairs
    [(gains[i], losses[i])]. *)
Fixpoint rsi_loop (period : nat) (avg_gain avg_loss : Q) (gl : list (Q * Q))
  : res (list Q) :=
  match gl with
  | [] => Ok []
  | (gain, loss) :: rest =>
      avg_gain' ← py_div (avg_gain * (Q_of_nat period - 1) + gain)%Q (Q_of_nat period);
      avg_loss' ← py_div (avg_loss * (Q_of_nat period - 1) + loss)%Q (Q_of_nat period);
      rsi ← rsi_value avg_gain' avg_loss';
      more ← rsi_loop period avg_gain' avg_loss' rest;
      Ok (rsi :: more)
  end.

Definition relative_strength_index (prices : list Q) (period : nat) : res (list Q) :=
  if (length prices <? period + 1)%nat then Ok []
  else
    let gains := gains_of prices in
    let losses := losses_of prices in
    avg_gain ← py_div (py_sum (take period gains)) (Q_of_nat period);
    avg_loss ← py_div (py_sum (take period losses)) (Q_of_nat period);
    first ← rsi_value avg_gain avg_loss;
    more ← rsi_loop period avg_gain avg_loss
              (drop period (zip gains losses));
    Ok (first :: more).

Definition macd (prices : list Q) (fast_period slow_period signal_period : nat)
  : res MacdResult :=
  if (length prices <? slow_period)%nat
  then Ok {| macd_line := []; signal_line := []; histogram := [] |}
  else
    fast_ema ← exponential_moving_average prices fast_period;
    slow_ema ← exponential_moving_average prices slow_period;
    let start_idx := (Z.of_nat slow_period - Z.of_nat fast_period)%Z in
    line ← mapM (fun i : nat =>
                   f ← py_index fast_ema (Z.of_nat i + start_idx)%Z;
                   s ← py_index slow_ema (Z.of_nat i);
                   Ok (f - s)%Q)
                (seq 0 (length slow_ema));
    sig ← exponential_moving_average line signal_period;
    let signal_start_idx := (Z.of_nat signal_period - 1)%Z in
    hist ← mapM (fun i : nat =>
                   m ← py_index line (Z.of_nat i + signal_start_idx)%Z;
                   s ← py_index sig (Z.of_nat i);
                   Ok (m - s)%Q)
                (seq 0 (length sig));
    Ok {| macd_line := line; signal_line := sig; histogram := hist |}.

Section WithNumpy.

(** [numpy.std], the population standard deviation of a window. *)
Variable np_std : list Q -> Q.

Definition bollinger_bands (prices : list Q) (period : nat) (std_dev : Q)
  : res BandsResult :=
  if (length prices <? period)%nat
  then Ok {| upper := []; middle := []; lower := [] |}
  else
    bands ← mapM (fun i =>
                    let window := slice prices i period in
                    sma ← py_div (py_sum window) (Q_of_nat period);
                    let std := np_std window in
                    Ok ((sma + std_dev * std)%Q, sma, (sma - std_dev * std)%Q))
                 (seq 0 (length prices - period + 1));
    Ok {| upper := map (fun b => fst (fst b)) bands;
          middle := map (fun b => snd (fst b)) bands;
          lower := map (fun b => snd b) bands |}.

End WithNumpy.

(** One [%K] value for the window that starts at [i]. *)
Definition stochastic_k (high_prices low_prices close_prices : list Q)
    (k_period i : nat) : res Q :=
  highest_high ← py_max (slice high_prices i k_period);
  lowest_low ← py_min (slice low_prices i k_period);
  current_close ← py_index close_prices (Z.of_nat i + Z.of_nat k_period - 1)%Z;
  if Qeq_bool (highest_high - lowest_low) 0 then Ok 50%Q
  else
    r ← py_div (current_close - lowest_low)%Q (highest_high - lowest_low)%Q;
    Ok (100 * r)%Q.

Definition stochastic_oscillator (high_prices low_prices close_prices : list Q)
    (k_period d_period : nat) : res StochResult :=
  if (length close_prices <? k_period)%nat
  then Ok {| k_values := []; d_values := [] |}
  else
    ks ← mapM (stochastic_k high_prices low_prices close_prices k_period)
              (seq 0 (length close_prices - k_period + 1));
    ds ← simple_moving_average ks d_period;
    Ok {| k_values := ks; d_values := ds |}.

Definition true_range (high_prices low_prices close_prices : list Q) (i : nat)
  : res Q :=
  h ← py_index high_prices (Z.of_nat i);
  l ← py_index low_prices (Z.of_nat i);
  c ← py_index close_prices (Z.of_nat i - 1)%Z;
  let tr1 := (h - l)%Q in
  let tr2 := Qabs (h - c) in
  let tr3 := Qabs (l - c) in
  Ok (Qmax (Qmax tr1 tr2) tr3).

Definition average_true_range (high_prices low_prices close_prices : list Q)
    (period : nat) : res (list Q) :=
  if (length close_prices <? period + 1)%nat then Ok []
  else
    true_ranges ← mapM (true_range high_prices low_prices close_prices)
                       (seq 1 (length close_prices - 1));
    exponential_moving_average true_ranges period.

(** The loop of the OBV over the pairs [(close_prices[i], volumes[i])],
    [i >= 1]; [prev] is [close_prices[i-1]] and [acc] is [obv[-1]]. *)
Fixpoint obv_loop (prev : Q) (acc : Z) (cv : list (Q * Z)) : list Z :=
  match cv with
  | [] => []
  | (c, v) :: rest =>
      let acc' := if Qlt_le_dec prev c then (acc + v)%Z
                  else if Qlt_le_dec c prev then (acc - v)%Z
                  else acc in
      acc' :: obv_loop c acc' rest
  end.

Definition on_balance_volume (close_prices : list Q) (volumes : list Z)
  : res (list Z) :=
  if negb (length close_prices =? length volumes)%nat then Raise ValueError
  else match zip close_prices volumes with
       | [] => Ok [0%Z]
       | (c0, _) :: rest => Ok (0%Z :: obv_loop c0 0%Z rest)
       end.

(** ** [models.py] *)

(** A [datetime]: the year and the position inside the year, ordered
    lexicographically. *)
Record datetime := { dt_year : Z; dt_rest : Z }.

Definition dt_leb (a b : datetime) : bool :=
  ((dt_year a <? dt_year b)%Z
   || ((dt_year a =? dt_year b)%Z && (dt_rest a <=? dt_rest b)%Z))%bool.

(** [d.replace(year=y)] *)
Definition replace_year (d : datetime) (y : Z) : datetime :=
  {| dt_year := y; dt_rest := dt_rest d |}.

#[global] Instance datetime_eq_dec : EqDecision datetime.
Proof. solve_decision. Defined.

Inductive SignalType := BUY | SELL | HOLD | NO_SIGNAL.

#[global] Instance SignalType_eq_dec : EqDecision SignalType.
Proof. solve_decision. Defined.

Inductive OrderSide := OrderSide_BUY | OrderSide_SELL.

Module OHLCV.
Record t := {
  timestamp : datetime;
  open : Q;
  high : Q;
  low : Q;
  close : Q;
  volume : Z
}.
End OHLCV.

(** Values stored in the free-form [metadata] dicts. *)
Inductive py_value :=
  | PInt (n : Z)
  | PFloat (x : Q)
  | PStr (s : string)
  | PFloats (l : list Q)
  | PTimes (l : list datetime).

Module Signal.
Record t := {
  symbol : string;
  signal_type : SignalType;
  timestamp : datetime;
  price : Q;
  confidence : Q;
  metadata : gmap string py_value
}.
End Signal.

Module IndicatorData.
Record t := {
  name : string;
  symbol : string;
  timestamp : datetime;
  value : gmap string (option Q);
  metadata : gmap string py_value
}.

(** [self.value.get(key)] *)
Definition value_get (self : t) (key : string) : option Q :=
  mjoin (value self !! key).

(** [self.metadata.get(key, [])], read as a list of floats. *)
Definition metadata_floats (self : t) (key : string) : list Q :=
  match metadata self !! key with
  | Some (PFloats l) => l
  | _ => []
  end.
End IndicatorData.

Module Trade.
Record t := {
  symbol : string;
  side : OrderSide;
  quantity : Q;
  price : Q;
  timestamp : datetime;
  commission : Q;
  pnl : option Q
}.
End Trade.

(** The two fields the engine reads and writes; [positions], [total_pnl] and
    [daily_pnl] stay at their defaults throughout (the engine keeps its
    positions in a map of its own). *)
Module Portfolio.
Record t := {
  total_value : Q;
  cash : Q
}.
End Portfolio.

(** ** [indicators.py]: class [IndicatorCalculator] *)

(** [sorted(l, key=lambda x: x.timestamp)]: a stable sort. *)
Fixpoint insert_by_timestamp (x : OHLCV.t) (l : list OHLCV.t) : list OHLCV.t :=
  match l with
  | [] => [x]
  | y :: ys =>
      if dt_leb (OHLCV.timestamp x) (OHLCV.timestamp y) then x :: y :: ys
      else y :: insert_by_timestamp x ys
  end.

Definition sorted_by_timestamp (l : list OHLCV.t) : list OHLCV.t :=
  foldr insert_by_timestamp [] l.

Module IndicatorCalculator.
Record t := {
  ohlcv_data : list OHLCV.t;
  close_prices : list Q;
  high_prices : list Q;
  low_prices : list Q;
  volumes : list Z;
  timestamps : list datetime
}.

Definition __init__ (ohlcv_data : list OHLCV.t) : t :=
  let data := sorted_by_timestamp ohlcv_data in
  {| ohlcv_data := data;
     close_prices := map OHLCV.close data;
     high_prices := map OHLCV.high data;
     low_prices := map OHLCV.low data;
     volumes := map OHLCV.volume data;
     timestamps := map OHLCV.timestamp data |}.
End IndicatorCalculator.

Definition calculate_sma (self : IndicatorCalculator.t) (period : nat)
  : res IndicatorData.t :=
  values ← simple_moving_average (IndicatorCalculator.close_prices self) period;
  let start_idx := (period - 1)%nat in
  ts ← py_index (IndicatorCalculator.timestamps self) (-1);
  Ok {| IndicatorData.name := "SMA";
        IndicatorData.symbol := "";
        IndicatorData.timestamp := ts;
        IndicatorData.value := {[ "sma" := last_or_None values ]};
        IndicatorData.metadata :=
          <[ "period" := PInt (Z.of_nat period) ]>
          (<[ "values" := PFloats values ]>
          {[ "timestamps" :=
               PTimes (drop start_idx (IndicatorCalculator.timestamps self)) ]}) |}.

Definition calculate_rsi (self : IndicatorCalculator.t) (period : nat)
  : res IndicatorData.t :=
  values ← relative_strength_index (IndicatorCalculator.close_prices self) period;
  let start_idx := period in
  ts ← py_index (IndicatorCalculator.timestamps self) (-1);
  Ok {| IndicatorData.name := "RSI";
        IndicatorData.symbol := "";
        IndicatorData.timestamp := ts;
        IndicatorData.value := {[ "rsi" := last_or_None values ]};
        IndicatorData.metadata :=
          <[ "period" := PInt (Z.of_nat period) ]>
          (<[ "values" := PFloats values ]>
          {[ "timestamps" :=
               PTimes (drop start_idx (IndicatorCalculator.timestamps self)) ]}) |}.

Definition calculate_macd (self : IndicatorCalculator.t)
    (fast_period slow_period signal_period : nat) : res IndicatorData.t :=
  macd_data ← macd (IndicatorCalculator.close_prices self)
                   fast_period slow_period signal_period;
  ts ← py_index (IndicatorCalculator.timestamps self) (-1);
  Ok {| IndicatorData.name := "MACD";
        IndicatorData.symbol := "";
        IndicatorData.timestamp := ts;
        IndicatorData.value :=
          <[ "macd" := last_or_None (macd_line macd_data) ]>
          (<[ "signal" := last_or_None (signal_line macd_data) ]>
          {[ "histogram" := last_or_None (histogram macd_data) ]});
        IndicatorData.metadata :=
          <[ "fast_period" := PInt (Z.of_nat fast_period) ]>
          (<[ "slow_period" := PInt (Z.of_nat slow_period) ]>
          (<[ "signal_period" := PInt (Z.of_nat signal_period) ]>
          (<[ "macd_line" := PFloats (macd_line macd_data) ]>
          (<[ "signal_line" := PFloats (signal_line macd_data) ]>
          {[ "histogram" := PFloats (histogram macd_data) ]})))) |}.

Definition calculate_stochastic (self : IndicatorCalculator.t)
    (k_period d_period : nat) : res IndicatorData.t :=
  stoch_data ← stochastic_oscillator
                 (IndicatorCalculator.high_prices self)
                 (IndicatorCalculator.low_prices self)
                 (IndicatorCalculator.close_prices self) k_period d_period;
  ts ← py_index (IndicatorCalculator.timestamps self) (-1);
  Ok {| IndicatorData.name := "Stochastic";
        IndicatorData.symbol := "";
        IndicatorData.timestamp := ts;
        IndicatorData.value :=
          <[ "k" := last_or_None (k_values stoch_data) ]>
          {[ "d" := last_or_None (d_values stoch_data) ]};
        IndicatorData.metadata :=
          <[ "k_period" := PInt (Z.of_nat k_period) ]>
          (<[ "d_period" := PInt (Z.of_nat d_period) ]>
          (<[ "k_values" := PFloats (k_values stoch_data) ]>
          {[ "d_values" := PFloats (d_values stoch_data) ]})) |}.

Section CalculatorWithNumpy.

Variable np_std : list Q -> Q.

Definition calculate_bollinger_bands (self : IndicatorCalculator.t)
    (period : nat) (std_dev : Q) : res IndicatorData.t :=
  bb_data ← bollinger_bands np_std (IndicatorCalculator.close_prices self)
                            period std_dev;
  ts ← py_index (IndicatorCalculator.timestamps self) (-1);
  Ok {| IndicatorData.name := "BollingerBands";
        IndicatorData.symbol := "";
        IndicatorData.timestamp := ts;
        IndicatorData.value :=
          <[ "upper" := last_or_None (upper bb_data) ]>
          (<[ "middle" := last_or_None (middle bb_data) ]>
          {[ "lower" := last_or_None (lower bb_data) ]});
        IndicatorData.metadata :=
          <[ "period" := PInt (Z.of_nat period) ]>
          (<[ "std_dev" := PFloat std_dev ]>
          (<[ "upper_band" := PFloats (upper bb_data) ]>
          (<[ "middle_band" := PFloats (middle bb_data) ]>
          {[ "lower_band" := PFloats (lower bb_data) ]}))) |}.

End CalculatorWithNumpy.

(** ** [strategies.py] *)

Definition Qlt_bool (x y : Q) : bool := negb (Qle_bool y x).

(** The data provider collaborator:
    [get_historical_data(symbol, start_date, end_date)]. *)
Definition DataProvider : Type := string -> datetime -> datetime -> list OHLCV.t.

Module StrategyConfig.
Record t := {
  name : string;
  symbol : string;
  parameters : gmap string py_value
}.

(** [self.parameters.get(key, default)] read as a window length. *)
Definition get_nat (self : t) (key : string) (default : nat) : nat :=
  match parameters self !! key with
  | Some (PInt n) => Z.to_nat n
  | _ => default
  end.

(** [self.parameters.get(key, default)] read as a number. *)
Definition get_num (self : t) (key : string) (default : Q) : Q :=
  match parameters self !! key with
  | Some (PInt n) => inject_Z n
  | Some (PFloat x) => x
  | _ => default
  end.
End StrategyConfig.

(** The attributes every [TradingStrategy] object carries. *)
Module StrategySelf.
Record t := {
  config : StrategyConfig.t;
  data_provider : DataProvider;
  indicator_calculator : option IndicatorCalculator.t
}.

(** [TradingStrategy.__init__]: no calculator yet. *)
Definition __init__ (config : StrategyConfig.t) (data_provider : DataProvider) : t :=
  {| config := config;
     data_provider := data_provider;
     indicator_calculator := None |}.
End StrategySelf.

(** The abstract base class: an object with its two overridable methods.
    [initialize] receives the value of [datetime.now()]. *)
Module TradingStrategy.
Record t := {
  self : StrategySelf.t;
  initialize : datetime -> StrategySelf.t -> res StrategySelf.t;
  generate_signals : StrategySelf.t -> list OHLCV.t -> res (list Signal.t)
}.
End TradingStrategy.

Definition update_indicators (self : StrategySelf.t) (ohlcv_data : list OHLCV.t)
  : StrategySelf.t :=
  {| StrategySelf.config := StrategySelf.config self;
     StrategySelf.data_provider := StrategySelf.data_provider self;
     StrategySelf.indicator_calculator :=
       Some (IndicatorCalculator.__init__ ohlcv_data) |}.

(** The four [initialize] methods differ only in the number of years of
    history they pull. *)
Definition initialize_years (years : Z) (now : datetime) (self : StrategySelf.t)
  : res StrategySelf.t :=
  let end_date := now in
  let start_date := replace_year end_date (dt_year end_date - years)%Z in
  let historical_data :=
    StrategySelf.data_provider self
      (StrategyConfig.symbol (StrategySelf.config self)) start_date end_date in
  Ok (update_indicators self historical_data).

Definition is_empty {A} (l : list A) : bool :=
  match l with [] => true | _ => false end.

(** The crossover test shared by the SMA and the MACD strategies. *)
Definition crossover (prev_a prev_b cur_a cur_b : Q) : SignalType :=
  if (Qle_bool prev_a prev_b && Qlt_bool cur_b cur_a)%bool then BUY
  else if (Qle_bool prev_b prev_a && Qlt_bool cur_a cur_b)%bool then SELL
  else NO_SIGNAL.

Definition SimpleMovingAverageStrategy_generate_signals
    (self : StrategySelf.t) (current_data : list OHLCV.t) : res (list Signal.t) :=
  match StrategySelf.indicator_calculator self with
  | None => Ok []
  | Some calc =>
      let config := StrategySelf.config self in
      last_bar ← py_index current_data (-1);
      let current_price := OHLCV.close last_bar in
      let short_period := StrategyConfig.get_nat config "short_period" 5 in
      let long_period := StrategyConfig.get_nat config "long_period" 20 in
      short_sma_indicator ← calculate_sma calc short_period;
      long_sma_indicator ← calculate_sma calc long_period;
      let short_sma_values :=
        IndicatorData.metadata_floats short_sma_indicator "values" in
      let long_sma_values :=
        IndicatorData.metadata_floats long_sma_indicator "values" in
      if (is_empty short_sma_values || is_empty long_sma_values)%bool then Ok []
      else
        short_sma ← py_index short_sma_values (-1);
        long_sma ← py_index long_sma_values (-1);
        signal_type ←
          (if ((2 <=? length short_sma_values)%nat
               && (2 <=? length long_sma_values)%nat)%bool
           then
             prev_short_sma ← py_index short_sma_values (-2);
             prev_long_sma ← py_index long_sma_values (-2);
             Ok (crossover prev_short_sma prev_long_sma short_sma long_sma)
           else Ok NO_SIGNAL);
        if bool_decide (signal_type ≠ NO_SIGNAL) then
          Ok [ {| Signal.symbol := StrategyConfig.symbol config;
                  Signal.signal_type := signal_type;
                  Signal.timestamp := OHLCV.timestamp last_bar;
                  Signal.price := current_price;
                  Signal.confidence := (7 # 10)%Q;
                  Signal.metadata :=
                    <[ "short_sma" := PFloat short_sma ]>
                    (<[ "long_sma" := PFloat long_sma ]>
                    {[ "strategy" := PStr "SMA Crossover" ]}) |} ]
        else Ok []
  end.

Definition RSIStrategy_generate_signals
    (self : StrategySelf.t) (current_data : list OHLCV.t) : res (list Signal.t) :=
  match StrategySelf.indicator_calculator self with
  | None => Ok []
  | Some calc =>
      let config := StrategySelf.config self in
      last_bar ← py_index current_data (-1);
      let current_price := OHLCV.close last_bar in
      let rsi_period := StrategyConfig.get_nat config "rsi_period" 14 in
      let oversold_level := StrategyConfig.get_num config "oversold" 30 in
      let overbought_level := StrategyConfig.get_num config "overbought" 70 in
      rsi_indicator ← calculate_rsi calc rsi_period;
      let rsi_values := IndicatorData.metadata_floats rsi_indicator "values" in
      if is_empty rsi_values then Ok []
      else
        current_rsi ← py_index rsi_values (-1);
        let signal_type :=
          if Qle_bool current_rsi oversold_level then BUY
          else if Qle_bool overbought_level current_rsi then SELL
          else NO_SIGNAL in
        if bool_decide (signal_type ≠ NO_SIGNAL) then
          Ok [ {| Signal.symbol := StrategyConfig.symbol config;
                  Signal.signal_type := signal_type;
                  Signal.timestamp := OHLCV.timestamp last_bar;
                  Signal.price := current_price;
                  Signal.confidence := (Qabs (50 - current_rsi) / 50)%Q;
                  Signal.metadata :=
                    <[ "rsi" := PFloat current_rsi ]>
                    (<[ "rsi_period" := PInt (Z.of_nat rsi_period) ]>
                    (<[ "oversold" := PFloat oversold_level ]>
                    (<[ "overbought" := PFloat overbought_level ]>
                    {[ "strategy" := PStr "RSI" ]}))) |} ]
        else Ok []
  end.

Definition MACDStrategy_generate_signals
    (self : StrategySelf.t) (current_data : list OHLCV.t) : res (list Signal.t) :=
  match StrategySelf.indicator_calculator self with
  | None => Ok []
  | Some calc =>
      let config := StrategySelf.config self in
      last_bar ← py_index current_data (-1);
      let current_price := OHLCV.close last_bar in
      macd_indicator ← calculate_macd calc 12 26 9;
      let macd_line := IndicatorData.metadata_floats macd_indicator "macd_line" in
      let signal_line := IndicatorData.metadata_floats macd_indicator "signal_line" in
      if (is_empty macd_line || is_empty signal_line
          || (length macd_line <? 2)%nat || (length signal_line <? 2)%nat)%bool
      then Ok []
      else
        current_macd ← py_index macd_line (-1);
        current_signal ← py_index signal_line (-1);
        prev_macd ← py_index macd_line (-2);
        prev_signal ← py_index signal_line (-2);
        let signal_type := crossover prev_macd prev_signal current_macd current_signal in
        if bool_decide (signal_type ≠ NO_SIGNAL) then
          hist ← py_index (IndicatorData.metadata_floats macd_indicator "histogram") (-1);
          Ok [ {| Signal.symbol := StrategyConfig.symbol config;
                  Signal.signal_type := signal_type;
                  Signal.timestamp := OHLCV.timestamp last_bar;
                  Signal.price := current_price;
                  Signal.confidence := (8 # 10)%Q;
                  Signal.metadata :=
                    <[ "macd" := PFloat current_macd ]>
                    (<[ "signal" := PFloat current_signal ]>
                    (<[ "histogram" := PFloat hist ]>
                    {[ "strategy" := PStr "MACD Crossover" ]})) |} ]
        else Ok []
  end.

(** Truthiness of an optional float, as [all([...])] tests it: [None] and
    [0.0] are both false. *)
Definition truthy (v : option Q) : bool :=
  match v with
  | Some x => negb (Qeq_bool x 0)
  | None => false
  end.

(** The scoring block of the multi-indicator strategy: the weighted votes
    [(buy_signals, sell_signals, total_signals)]. *)
Definition multi_votes (rsi macd signal_line bb_upper bb_lower sma_20 current_price : Q)
  : Q * Q * Q :=
  let buy_signals := 0%Q in
  let sell_signals := 0%Q in
  let total_signals := 0%Q in
  (* RSI signals *)
  let '(buy_signals, sell_signals) :=
    if Qle_bool rsi 30 then ((buy_signals + 1)%Q, sell_signals)
    else if Qle_bool 70 rsi then (buy_signals, (sell_signals + 1)%Q)
    else (buy_signals, sell_signals) in
  let total_signals := (total_signals + 1)%Q in
  (* MACD signals *)
  let '(buy_signals, sell_signals) :=
    if Qlt_bool signal_line macd then ((buy_signals + 1)%Q, sell_signals)
    else (buy_signals, (sell_signals + 1)%Q) in
  let total_signals := (total_signals + 1)%Q in
  (* Bollinger Band signals *)
  let '(buy_signals, sell_signals) :=
    if Qle_bool current_price bb_lower then ((buy_signals + 1)%Q, sell_signals)
    else if Qle_bool bb_upper current_price then (buy_signals, (sell_signals + 1)%Q)
    else (buy_signals, sell_signals) in
  let total_signals := (total_signals + 1)%Q in
  (* SMA trend *)
  let '(buy_signals, sell_signals) :=
    if Qlt_bool sma_20 current_price then ((buy_signals + (1 # 2))%Q, sell_signals)
    else (buy_signals, (sell_signals + (1 # 2))%Q) in
  let total_signals := (total_signals + (1 # 2))%Q in
  (buy_signals, sell_signals, total_signals).

(** The decision taken from the votes: the signal type and its confidence. *)
Definition multi_decision (buy_signals sell_signals total_signals : Q)
  : SignalType * Q :=
  let buy_ratio := (buy_signals / total_signals)%Q in
  let sell_ratio := (sell_signals / total_signals)%Q in
  if Qle_bool (6 # 10) buy_ratio then (BUY, buy_ratio)
  else if Qle_bool (6 # 10) sell_ratio then (SELL, sell_ratio)
  else (NO_SIGNAL, 0%Q).

(** The three strategy classes that do not reach [numpy]. *)
Definition SimpleMovingAverageStrategy (config : StrategyConfig.t)
    (data_provider : DataProvider) : TradingStrategy.t :=
  {| TradingStrategy.self := StrategySelf.__init__ config data_provider;
     TradingStrategy.initialize := initialize_years 2;
     TradingStrategy.generate_signals :=
       SimpleMovingAverageStrategy_generate_signals |}.

Definition RSIStrategy (config : StrategyConfig.t)
    (data_provider : DataProvider) : TradingStrategy.t :=
  {| TradingStrategy.self := StrategySelf.__init__ config data_provider;
     TradingStrategy.initialize := initialize_years 1;
     TradingStrategy.generate_signals := RSIStrategy_generate_signals |}.

Definition MACDStrategy (config : StrategyConfig.t)
    (data_provider : DataProvider) : TradingStrategy.t :=
  {| TradingStrategy.self := StrategySelf.__init__ config data_provider;
     TradingStrategy.initialize := initialize_years 1;
     TradingStrategy.generate_signals := MACDStrategy_generate_signals |}.

Section StrategiesWithNumpy.

Variable np_std : list Q -> Q.

Definition MultiIndicatorStrategy_generate_signals
    (self : StrategySelf.t) (current_data : list OHLCV.t) : res (list Signal.t) :=
  match StrategySelf.indicator_calculator self with
  | None => Ok []
  | Some calc =>
      let config := StrategySelf.config self in
      last_bar ← py_index current_data (-1);
      let current_price := OHLCV.close last_bar in
      sma_indicator ← calculate_sma calc 20;
      rsi_indicator ← calculate_rsi calc 14;
      macd_indicator ← calculate_macd calc 12 26 9;
      bb_indicator ← calculate_bollinger_bands np_std calc 20 2;
      let sma_20 := IndicatorData.value_get sma_indicator "sma" in
      let rsi := IndicatorData.value_get rsi_indicator "rsi" in
      let macd := IndicatorData.value_get macd_indicator "macd" in
      let signal_line := IndicatorData.value_get macd_indicator "signal" in
      let bb_upper := IndicatorData.value_get bb_indicator "upper" in
      let bb_lower := IndicatorData.value_get bb_indicator "lower" in
      if negb (forallb truthy [sma_20; rsi; macd; signal_line; bb_upper; bb_lower])
      then Ok []
      else
        match sma_20, rsi, macd, signal_line, bb_upper, bb_lower with
        | Some sma_20, Some rsi, Some macd, Some signal_line,
          Some bb_upper, Some bb_lower =>
            let '(buy_signals, sell_signals, total_signals) :=
              multi_votes rsi macd signal_line bb_upper bb_lower sma_20
                          current_price in
            let '(signal_type, confidence) :=
              multi_decision buy_signals sell_signals total_signals in
            if bool_decide (signal_type ≠ NO_SIGNAL) then
              Ok [ {| Signal.symbol := StrategyConfig.symbol config;
                      Signal.signal_type := signal_type;
                      Signal.timestamp := OHLCV.timestamp last_bar;
                      Signal.price := current_price;
                      Signal.confidence := confidence;
                      Signal.metadata :=
                        <[ "rsi" := PFloat rsi ]>
                        (<[ "macd" := PFloat macd ]>
                        (<[ "signal_line" := PFloat signal_line ]>
                        (<[ "sma_20" := PFloat sma_20 ]>
                        (<[ "bb_upper" := PFloat bb_upper ]>
                        (<[ "bb_lower" := PFloat bb_lower ]>
                        (<[ "buy_signals" := PFloat buy_signals ]>
                        (<[ "sell_signals" := PFloat sell_signals ]>
                        {[ "strategy" := PStr "Multi-Indicator" ]}))))))) |} ]
            else Ok []
        | _, _, _, _, _, _ => Ok []
        end
  end.

Definition MultiIndicatorStrategy (config : StrategyConfig.t)
    (data_provider : DataProvider) : TradingStrategy.t :=
  {| TradingStrategy.self := StrategySelf.__init__ config data_provider;
     TradingStrategy.initialize := initialize_years 2;
     TradingStrategy.generate_signals := MultiIndicatorStrategy_generate_signals |}.

(** [StrategyFactory.create_strategy]: the registry of the four strategies. *)
Definition create_strategy (strategy_name : string) (config : StrategyConfig.t)
    (data_provider : DataProvider) : res TradingStrategy.t :=
  if bool_decide (strategy_name = "sma_crossover") then
    Ok (SimpleMovingAverageStrategy config data_provider)
  else if bool_decide (strategy_name = "rsi") then
    Ok (RSIStrategy config data_provider)
  else if bool_decide (strategy_name = "macd") then
    Ok (MACDStrategy config data_provider)
  else if bool_decide (strategy_name = "multi_indicator") then
    Ok (MultiIndicatorStrategy config data_provider)
  else Raise ValueError.

End StrategiesWithNumpy.

(** ** [engine.py] *)

Module BacktestConfig.
Record t := {
  start_date : datetime;
  end_date : datetime;
  initial_capital : Q;
  commission_per_trade : Q;
  slippage : Q;
  max_position_size : Q
}.

(** The dataclass defaults. *)
Definition with_defaults (start_date end_date : datetime) : t :=
  {| start_date := start_date;
     end_date := end_date;
     initial_capital := 100000;
     commission_per_trade := 1 # 1000;
     slippage := 5 # 10000;
     max_position_size := 1 # 10 |}.
End BacktestConfig.

(** The dataclass has the seven declared fields.  Python objects also take
    attributes set on the instance after construction; [instance_attrs] holds
    those (none on a freshly constructed position). *)
Module BacktestPosition.
Record t := {
  symbol : string;
  quantity : Q;
  entry_price : Q;
  entry_date : datetime;
  current_price : Q;
  market_value : Q;
  unrealized_pnl : Q;
  instance_attrs : gmap string Q
}.

(** [BacktestPosition(symbol=..., quantity=..., entry_price=...,
    entry_date=..., current_price=...)] *)
Definition __init__ (symbol : string) (quantity entry_price : Q)
    (entry_date : datetime) (current_price : Q) : t :=
  {| symbol := symbol;
     quantity := quantity;
     entry_price := entry_price;
     entry_date := entry_date;
     current_price := current_price;
     market_value := 0;
     unrealized_pnl := 0;
     instance_attrs := ∅ |}.

(** Reading an attribute that is not a declared field. *)
Definition getattr (self : t) (attr : string) : res Q :=
  match instance_attrs self !! attr with
  | Some v => Ok v
  | None => Raise AttributeError
  end.

Definition setattr (self : t) (attr : string) (v : Q) : t :=
  {| symbol := symbol self;
     quantity := quantity self;
     entry_price := entry_price self;
     entry_date := entry_date self;
     current_price := current_price self;
     market_value := market_value self;
     unrealized_pnl := unrealized_pnl self;
     instance_attrs := <[ attr := v ]> (instance_attrs self) |}.

Definition set_quantity (self : t) (q : Q) : t :=
  {| symbol := symbol self;
     quantity := q;
     entry_price := entry_price self;
     entry_date := entry_date self;
     current_price := current_price self;
     market_value := market_value self;
     unrealized_pnl := unrealized_pnl self;
     instance_attrs := instance_attrs self |}.

Definition set_entry_price (self : t) (p : Q) : t :=
  {| symbol := symbol self;
     quantity := quantity self;
     entry_price := p;
     entry_date := entry_date self;
     current_price := current_price self;
     market_value := market_value self;
     unrealized_pnl := unrealized_pnl self;
     instance_attrs := instance_attrs self |}.

(** The three assignments of the mark-to-market loop body. *)
Definition mark (close : Q) (self : t) : t :=
  let position_value := (quantity self * close)%Q in
  {| symbol := symbol self;
     quantity := quantity self;
     entry_price := entry_price self;
     entry_date := entry_date self;
     current_price := close;
     market_value := position_value;
     unrealized_pnl := (position_value - quantity self * entry_price self)%Q;
     instance_attrs := instance_attrs self |}.
End BacktestPosition.

(** One entry of [portfolio_history]. *)
Module PositionState.
Record t := {
  quantity : Q;
  market_value : Q;
  unrealized_pnl : Q
}.
End PositionState.

Module PortfolioState.
Record t := {
  timestamp : datetime;
  total_value : Q;
  cash : Q;
  positions : gmap string PositionState.t
}.
End PortfolioState.

(** The report; [annualized_return] and [sharpe_ratio] need a real power and
    a square root and are not part of this record. *)
Module BacktestResult.
Record t := {
  strategy_name : string;
  symbol : string;
  start_date : datetime;
  end_date : datetime;
  initial_capital : Q;
  final_capital : Q;
  total_return : Q;
  max_drawdown : Q;
  trades : list Trade.t;
  portfolio_values : list PortfolioState.t
}.
End BacktestResult.

Module BacktestEngine.
Record t := {
  config : BacktestConfig.t;
  data_provider : DataProvider;
  portfolio : Portfolio.t;
  positions : gmap string BacktestPosition.t;
  trades : list Trade.t;
  portfolio_history : list PortfolioState.t
}.

Definition __init__ (config : BacktestConfig.t) (data_provider : DataProvider) : t :=
  {| config := config;
     data_provider := data_provider;
     portfolio := {| Portfolio.total_value := BacktestConfig.initial_capital config;
                     Portfolio.cash := BacktestConfig.initial_capital config |};
     positions := ∅;
     trades := [];
     portfolio_history := [] |}.

Definition cash (self : t) : Q := Portfolio.cash (portfolio self).
Definition total_value (self : t) : Q := Portfolio.total_value (portfolio self).

Definition set_cash (self : t) (c : Q) : t :=
  {| config := config self;
     data_provider := data_provider self;
     portfolio := {| Portfolio.total_value := total_value self;
                     Portfolio.cash := c |};
     positions := positions self;
     trades := trades self;
     portfolio_history := portfolio_history self |}.

Definition set_total_value (self : t) (v : Q) : t :=
  {| config := config self;
     data_provider := data_provider self;
     portfolio := {| Portfolio.total_value := v;
                     Portfolio.cash := cash self |};
     positions := positions self;
     trades := trades self;
     portfolio_history := portfolio_history self |}.

Definition set_positions (self : t) (ps : gmap string BacktestPosition.t) : t :=
  {| config := config self;
     data_provider := data_provider self;
     portfolio := portfolio self;
     positions := ps;
     trades := trades self;
     portfolio_history := portfolio_history self |}.

Definition append_trade (self : t) (trade : Trade.t) : t :=
  {| config := config self;
     data_provider := data_provider self;
     portfolio := portfolio self;
     positions := positions self;
     trades := trades self ++ [trade];
     portfolio_history := portfolio_history self |}.

Definition append_history (self : t) (state : PortfolioState.t) : t :=
  {| config := config self;
     data_provider := data_provider self;
     portfolio := portfolio self;
     positions := positions self;
     trades := trades self;
     portfolio_history := portfolio_history self ++ [state] |}.
End BacktestEngine.

(** [x.quantize(Decimal('1'), rounding=ROUND_DOWN)]: truncation towards 0. *)
Definition quantize_down (x : Q) : Q :=
  inject_Z (Z.quot (Qnum x) (Z.pos (Qden x))).

(** The value of the open positions at [close], added up onto [start]. *)
Definition add_position_values (close : Q) (start : Q)
    (positions : gmap string BacktestPosition.t) : Q :=
  map_fold (fun _ position total_value =>
              (total_value + BacktestPosition.quantity position * close)%Q)
           start positions.

Definition _update_portfolio_values (self : BacktestEngine.t)
    (current_ohlcv : OHLCV.t) : BacktestEngine.t :=
  let close := OHLCV.close current_ohlcv in
  let total_value :=
    add_position_values close (BacktestEngine.cash self)
                        (BacktestEngine.positions self) in
  BacktestEngine.set_total_value
    (BacktestEngine.set_positions self
       (BacktestPosition.mark close <$> BacktestEngine.positions self))
    total_value.

(** The BUY branch, after sizing, slippage and commission. *)
Definition execute_buy (self : BacktestEngine.t) (signal : Signal.t)
    (timestamp : datetime) (quantity execution_price commission : Q)
  : BacktestEngine.t * option exn :=
  let cost := (execution_price * quantity + commission)%Q in
  if Qlt_bool (BacktestEngine.cash self) cost then (self, None)
  else
    let symbol := Signal.symbol signal in
    let updated : res (gmap string BacktestPosition.t) :=
      match BacktestEngine.positions self !! symbol with
      | Some position =>
          let total_quantity := (BacktestPosition.quantity position + quantity)%Q in
          let total_cost :=
            (BacktestPosition.quantity position * BacktestPosition.entry_price position
             + quantity * execution_price)%Q in
          if Qeq_bool total_quantity 0 then Raise DecimalDivisionByZero
          else
            Ok (<[ symbol :=
                     BacktestPosition.set_quantity
                       (BacktestPosition.set_entry_price position
                          (total_cost / total_quantity)%Q)
                       total_quantity ]> (BacktestEngine.positions self))
      | None =>
          Ok (<[ symbol :=
                   BacktestPosition.__init__ symbol quantity execution_price
                                             timestamp execution_price ]>
                (BacktestEngine.positions self))
      end in
    match updated with
    | Raise e => (self, Some e)
    | Ok positions =>
        let self := BacktestEngine.set_positions self positions in
        let self :=
          BacktestEngine.set_cash self (BacktestEngine.cash self - cost)%Q in
        let trade := {| Trade.symbol := symbol;
                        Trade.side := OrderSide_BUY;
                        Trade.quantity := quantity;
                        Trade.price := execution_price;
                        Trade.timestamp := timestamp;
                        Trade.commission := commission;
                        Trade.pnl := None |} in
        (BacktestEngine.append_trade self trade, None)
    end.

(** The SELL branch, after sizing, slippage and commission. *)
Definition execute_sell (self : BacktestEngine.t) (signal : Signal.t)
    (timestamp : datetime) (quantity execution_price commission : Q)
  : BacktestEngine.t * option exn :=
  let symbol := Signal.symbol signal in
  match BacktestEngine.positions self !! symbol with
  | None => (self, None)
  | Some position =>
      let sell_quantity := Qmin quantity (BacktestPosition.quantity position) in
      let proceeds := (execution_price * sell_quantity - commission)%Q in
      let self :=
        BacktestEngine.set_cash self (BacktestEngine.cash self + proceeds)%Q in
      (* Calculate realized P&L *)
      let cost_basis := (sell_quantity * BacktestPosition.entry_price position)%Q in
      let realized_pnl := (proceeds - cost_basis - commission)%Q in
      (* position.realized_pnl += realized_pnl *)
      match BacktestPosition.getattr position "realized_pnl" with
      | Raise e => (self, Some e)
      | Ok old =>
          let position :=
            BacktestPosition.setattr position "realized_pnl" (old + realized_pnl)%Q in
          (* Update position *)
          let position :=
            BacktestPosition.set_quantity position
              (BacktestPosition.quantity position - sell_quantity)%Q in
          let positions :=
            if Qle_bool (BacktestPosition.quantity position) 0
            then delete symbol (BacktestEngine.positions self)
            else <[ symbol := position ]> (BacktestEngine.positions self) in
          let self := BacktestEngine.set_positions self positions in
          let trade := {| Trade.symbol := symbol;
                          Trade.side := OrderSide_SELL;
                          Trade.quantity := sell_quantity;
                          Trade.price := execution_price;
                          Trade.timestamp := timestamp;
                          Trade.commission := commission;
                          Trade.pnl := Some realized_pnl |} in
          (BacktestEngine.append_trade self trade, None)
      end
  end.

(** The quantity a signal is sized to:
    [(total_value * max_position_size / price)] truncated to a whole number. *)
Definition sized_quantity (self : BacktestEngine.t) (signal : Signal.t) : Q :=
  let position_value :=
    (BacktestEngine.total_value self
     * BacktestConfig.max_position_size (BacktestEngine.config self))%Q in
  quantize_down (position_value / Signal.price signal)%Q.

Definition execution_price_of (self : BacktestEngine.t) (signal : Signal.t) : Q :=
  let slippage_decimal := BacktestConfig.slippage (BacktestEngine.config self) in
  let execution_price := (Signal.price signal * (1 + slippage_decimal))%Q in
  if bool_decide (Signal.signal_type signal = SELL)
  then (Signal.price signal * (1 - slippage_decimal))%Q
  else execution_price.

Definition _execute_signal (self : BacktestEngine.t) (signal : Signal.t)
    (timestamp : datetime) : BacktestEngine.t * option exn :=
  if negb (bool_decide (Signal.signal_type signal ∈ [BUY; SELL])) then (self, None)
  else if Qeq_bool (Signal.price signal) 0 then (self, Some DecimalDivisionByZero)
  else
    (* Calculate position size *)
    let quantity := sized_quantity self signal in
    if Qle_bool quantity 0 then (self, None)
    else
      (* Apply slippage and commission *)
      let execution_price := execution_price_of self signal in
      let commission :=
        (execution_price * quantity
         * BacktestConfig.commission_per_trade (BacktestEngine.config self))%Q in
      if bool_decide (Signal.signal_type signal = BUY)
      then execute_buy self signal timestamp quantity execution_price commission
      else execute_sell self signal timestamp quantity execution_price commission.

Definition _record_portfolio_state (self : BacktestEngine.t) (timestamp : datetime)
  : BacktestEngine.t :=
  let state :=
    {| PortfolioState.timestamp := timestamp;
       PortfolioState.total_value := BacktestEngine.total_value self;
       PortfolioState.cash := BacktestEngine.cash self;
       PortfolioState.positions :=
         (fun pos =>
            {| PositionState.quantity := BacktestPosition.quantity pos;
               PositionState.market_value := BacktestPosition.market_value pos;
               PositionState.unrealized_pnl := BacktestPosition.unrealized_pnl pos |})
         <$> BacktestEngine.positions self |} in
  BacktestEngine.append_history self state.

(** The [daily_returns] loop; [prev_value] starts at the initial capital. *)
Fixpoint daily_returns_loop (prev_value : Q) (history : list PortfolioState.t)
  : res (list Q) :=
  match history with
  | [] => Ok []
  | state :: rest =>
      let current_value := PortfolioState.total_value state in
      daily_return ← py_div (current_value - prev_value)%Q prev_value;
      more ← daily_returns_loop current_value rest;
      Ok (daily_return :: more)
  end.

(** The maximum-drawdown loop over the recorded total values. *)
Fixpoint max_drawdown_loop (max_drawdown peak : Q) (history : list PortfolioState.t)
  : res Q :=
  match history with
  | [] => Ok max_drawdown
  | state :: rest =>
      let current_value := PortfolioState.total_value state in
      let peak := if Qlt_bool peak current_value then current_value else peak in
      drawdown ← py_div (peak - current_value)%Q peak;
      max_drawdown_loop (Qmax max_drawdown drawdown) peak rest
  end.

Definition _calculate_results (self : BacktestEngine.t)
    (strategy_name symbol : string) : res BacktestResult.t :=
  let config := BacktestEngine.config self in
  if is_empty (BacktestEngine.portfolio_history self) then
    Ok {| BacktestResult.strategy_name := strategy_name;
          BacktestResult.symbol := symbol;
          BacktestResult.start_date := BacktestConfig.start_date config;
          BacktestResult.end_date := BacktestConfig.end_date config;
          BacktestResult.initial_capital := BacktestConfig.initial_capital config;
          BacktestResult.final_capital := BacktestConfig.initial_capital config;
          BacktestResult.total_return := 0;
          BacktestResult.max_drawdown := 0;
          BacktestResult.trades := [];
          BacktestResult.portfolio_values := [] |}
  else
    let initial_capital := BacktestConfig.initial_capital config in
    let final_capital := BacktestEngine.total_value self in
    total_return ← py_div (final_capital - initial_capital)%Q initial_capital;
    _ ← daily_returns_loop initial_capital (BacktestEngine.portfolio_history self);
    max_drawdown ← max_drawdown_loop 0 initial_capital
                     (BacktestEngine.portfolio_history self);
    Ok {| BacktestResult.strategy_name := strategy_name;
          BacktestResult.symbol := symbol;
          BacktestResult.start_date := BacktestConfig.start_date config;
          BacktestResult.end_date := BacktestConfig.end_date config;
          BacktestResult.initial_capital := initial_capital;
          BacktestResult.final_capital := final_capital;
          BacktestResult.total_return := total_return;
          BacktestResult.max_drawdown := max_drawdown;
          BacktestResult.trades := BacktestEngine.trades self;
          BacktestResult.portfolio_values := BacktestEngine.portfolio_history self |}.

(** [for signal in signals: await self._execute_signal(signal, timestamp)] *)
Fixpoint execute_signals (self : BacktestEngine.t) (signals : list Signal.t)
    (timestamp : datetime) : BacktestEngine.t * option exn :=
  match signals with
  | [] => (self, None)
  | signal :: rest =>
      match _execute_signal self signal timestamp with
      | (self, Some e) => (self, Some e)
      | (self, None) => execute_signals self rest timestamp
      end
  end.

(** The body of the loop of [run_backtest] for the bar [ohlcv], the last one
    of [current_data]. *)
Definition process_bar (strategy : TradingStrategy.t) (strategy_self : StrategySelf.t)
    (self : BacktestEngine.t) (current_data : list OHLCV.t) (ohlcv : OHLCV.t)
  : BacktestEngine.t * option exn :=
  match py_index current_data (-1) with
  | Raise e => (self, Some e)
  | Ok last_bar =>
      (* Update portfolio values *)
      let self := _update_portfolio_values self last_bar in
      (* Generate signals *)
      match TradingStrategy.generate_signals strategy strategy_self current_data with
      | Raise e => (self, Some e)
      | Ok signals =>
          (* Execute signals *)
          match execute_signals self signals (OHLCV.timestamp ohlcv) with
          | (self, Some e) => (self, Some e)
          | (self, None) =>
              (* Record portfolio state *)
              (_record_portfolio_state self (OHLCV.timestamp ohlcv), None)
          end
      end
  end.

(** [for i, ohlcv in enumerate(historical_data)], over the bars from index
    [i] on. *)
Fixpoint backtest_loop (strategy : TradingStrategy.t) (strategy_self : StrategySelf.t)
    (historical_data : list OHLCV.t) (i : nat) (remaining : list OHLCV.t)
    (self : BacktestEngine.t) : BacktestEngine.t * option exn :=
  match remaining with
  | [] => (self, None)
  | ohlcv :: rest =>
      let current_data := take (i + 1) historical_data in
      match process_bar strategy strategy_self self current_data ohlcv with
      | (self, Some e) => (self, Some e)
      | (self, None) =>
          backtest_loop strategy strategy_self historical_data (S i) rest self
      end
  end.

(** [run_backtest]; [now] is what [datetime.now()] returns while the strategy
    initializes.  The engine is returned in the state the call leaves it in. *)
Definition run_backtest (self : BacktestEngine.t) (strategy : TradingStrategy.t)
    (now : datetime) : BacktestEngine.t * res BacktestResult.t :=
  let strategy_config := StrategySelf.config (TradingStrategy.self strategy) in
  let config := BacktestEngine.config self in
  (* Get historical data *)
  let historical_data :=
    BacktestEngine.data_provider self
      (StrategyConfig.symbol strategy_config)
      (BacktestConfig.start_date config) (BacktestConfig.end_date config) in
  if is_empty historical_data then (self, Raise ValueError)
  else
    (* Initialize strategy *)
    match TradingStrategy.initialize strategy now (TradingStrategy.self strategy) with
    | Raise e => (self, Raise e)
    | Ok strategy_self =>
        (* Process each data point *)
        match backtest_loop strategy strategy_self historical_data 0
                            historical_data self with
        | (self, Some e) => (self, Raise e)
        | (self, None) =>
            (* Calculate final results *)
            (self, _calculate_results self (StrategyConfig.name strategy_config)
                                      (StrategyConfig.symbol strategy_config))
        end
    end.

(** The signals the strategy is asked for at step [i] of a run: the call
    [strategy.generate_signals(historical_data[:i+1])] after
    [strategy.initialize()]. *)
Definition signals_at_step (self : BacktestEngine.t) (strategy : TradingStrategy.t)
    (now : datetime) (i : nat) : res (list Signal.t) :=
  let strategy_config := StrategySelf.config (TradingStrategy.self strategy) in
  let config := BacktestEngine.config self in
  let historical_data :=
    BacktestEngine.data_provider self
      (StrategyConfig.symbol strategy_config)
      (BacktestConfig.start_date config) (BacktestConfig.end_date config) in
  strategy_self ← TradingStrategy.initialize strategy now (TradingStrategy.self strategy);
  TradingStrategy.generate_signals strategy strategy_self
    (take (i + 1) historical_data).

(** ** The query interface of [IndicatorCalculator]

    The class defines five query methods and no other; a call of one of them
    is a value of [CalculatorQuery]. *)

Inductive CalculatorQuery :=
  | Call_calculate_sma (period : nat)
  | Call_calculate_rsi (period : nat)
  | Call_calculate_macd (fast_period slow_period signal_period : nat)
  | Call_calculate_bollinger_bands (period : nat) (std_dev : Q)
  | Call_calculate_stochastic (k_period d_period : nat).

(** The indicator a query answers for: the [name] it gives its result. *)
Definition query_name (q : CalculatorQuery) : string :=
  match q with
  | Call_calculate_sma _ => "SMA"
  | Call_calculate_rsi _ => "RSI"
  | Call_calculate_macd _ _ _ => "MACD"
  | Call_calculate_bollinger_bands _ _ => "BollingerBands"
  | Call_calculate_stochastic _ _ => "Stochastic"
  end.

(** For each query, the keys of [value] paired with the key of [metadata]
    that holds the series the value is the last element of. *)
Definition query_series (q : CalculatorQuery) : list (string * string) :=
  match q with
  | Call_calculate_sma _ => [("sma", "values")]
  | Call_calculate_rsi _ => [("rsi", "values")]
  | Call_calculate_macd _ _ _ =>
      [("macd", "macd_line"); ("signal", "signal_line"); ("histogram", "histogram")]
  | Call_calculate_bollinger_bands _ _ =>
      [("upper", "upper_band"); ("middle", "middle_band"); ("lower", "lower_band")]
  | Call_calculate_stochastic _ _ => [("k", "k_values"); ("d", "d_values")]
  end.

(** Window lengths a caller can sensibly pass: all at least one, and the
    fast MACD window no longer than the slow one. *)
Definition query_periods_ok (q : CalculatorQuery) : Prop :=
  match q with
  | Call_calculate_sma period => (1 <= period)%nat
  | Call_calculate_rsi period => (1 <= period)%nat
  | Call_calculate_macd fast_period slow_period signal_period =>
      (1 <= fast_period)%nat /\ (fast_period <= slow_period)%nat
      /\ (1 <= signal_period)%nat
  | Call_calculate_bollinger_bands period _ => (1 <= period)%nat
  | Call_calculate_stochastic k_period d_period =>
      (1 <= k_period)%nat /\ (1 <= d_period)%nat
  end.

(** The eight indicator families of the library, by the names the
    calculator uses (or would use) for them. *)
Definition indicator_families : list string :=
  ["SMA"; "EMA"; "RSI"; "MACD"; "BollingerBands"; "Stochastic"; "ATR"; "OBV"].

Section QueriesWithNumpy.

Variable np_std : list Q -> Q.

Definition run_query (self : IndicatorCalculator.t) (q : CalculatorQuery)
  : res IndicatorData.t :=
  match q with
  | Call_calculate_sma period => calculate_sma self period
  | Call_calculate_rsi period => calculate_rsi self period
  | Call_calculate_macd fast_period slow_period signal_period =>
      calculate_macd self fast_period slow_period signal_period
  | Call_calculate_bollinger_bands period std_dev =>
      calculate_bollinger_bands np_std self period std_dev
  | Call_calculate_stochastic k_period d_period =>
      calculate_stochastic self k_period d_period
  end.

(** The call of the indicator library a query delegates to: the series it
    returns, in the order of [query_series]. *)
Definition library_series (self : IndicatorCalculator.t) (q : CalculatorQuery)
  : res (list (list Q)) :=
  let closes := IndicatorCalculator.close_prices self in
  match q with
  | Call_calculate_sma period =>
      values ← simple_moving_average closes period; Ok [values]
  | Call_calculate_rsi period =>
      values ← relative_strength_index closes period; Ok [values]
  | Call_calculate_macd fast_period slow_period signal_period =>
      r ← macd closes fast_period slow_period signal_period;
      Ok [macd_line r; signal_line r; histogram r]
  | Call_calculate_bollinger_bands period std_dev =>
      r ← bollinger_bands np_std closes period std_dev;
      Ok [upper r; middle r; lower r]
  | Call_calculate_stochastic k_period d_period =>
      r ← stochastic_oscillator (IndicatorCalculator.high_prices self)
             (IndicatorCalculator.low_prices self) closes k_period d_period;
      Ok [k_values r; d_values r]
  end.

End QueriesWithNumpy.

(** What a query result holds for one series: the whole series under its
    [metadata] key and the latest value (or [None] while the series is
    empty) under its [value] key. *)
Definition holds_series (d : IndicatorData.t) (keys : string * string)
    (series : list Q) : Prop :=
  IndicatorData.metadata d !! snd keys = Some (PFloats series)
  /\ IndicatorData.value d !! fst keys = Some (last series).

Definition latest_with_series (q : CalculatorQuery) (d : IndicatorData.t)
    (all_series : list (list Q)) : Prop :=
  IndicatorData.name d = query_name q
  /\ Forall2 (holds_series d) (query_series q) all_series.

(** The five names the calculator answers for. *)
Definition calculator_families : list string :=
  ["SMA"; "RSI"; "MACD"; "BollingerBands"; "Stochastic"].

(** ** Conservation of value *)

(** [cash + holdings] agrees with [total] within the relative tolerance. *)
Definition conserved (tolerance cash holdings total : Q) : Prop :=
  (Qabs (cash + holdings - total) <= tolerance * Qabs total)%Q.

(** The holdings of an engine state, valued at each position's
    [current_price]. *)
Definition holdings_at_current_price (self : BacktestEngine.t) : Q :=
  map_fold (fun _ position acc =>
              (acc + BacktestPosition.quantity position
                     * BacktestPosition.current_price position)%Q)
           0%Q (BacktestEngine.positions self).

(** The holdings of a recorded state, as the [market_value] it shows. *)
Definition recorded_market_value (state : PortfolioState.t) : Q :=
  map_fold (fun _ position acc => (acc + PositionState.market_value position)%Q)
           0%Q (PortfolioState.positions state).

(** The holdings of a recorded state, valued at a given price. *)
Definition recorded_holdings_at (price : Q) (state : PortfolioState.t) : Q :=
  map_fold (fun _ position acc => (acc + PositionState.quantity position * price)%Q)
           0%Q (PortfolioState.positions state).

(** ** Data used in the examples *)

Definition mk_datetime (year rest : Z) : datetime :=
  {| dt_year := year; dt_rest := rest |}.

(** A bar whose four prices are all [close]. *)
Definition flat_bar (timestamp : datetime) (close : Q) : OHLCV.t :=
  {| OHLCV.timestamp := timestamp;
     OHLCV.open := close;
     OHLCV.high := close;
     OHLCV.low := close;
     OHLCV.close := close;
     OHLCV.volume := 1000 |}.

(** Bars with the given closes on consecutive instants of one year. *)
Definition bars_from (year : Z) (closes : list Q) : list OHLCV.t :=
  imap (fun i close => flat_bar (mk_datetime year (Z.of_nat i)) close) closes.

(** A data provider that serves a stored series, filtered by date range. *)
Definition series_provider (series : list OHLCV.t) : DataProvider :=
  fun _ start_date end_date =>
    List.filter (fun b => (dt_leb start_date (OHLCV.timestamp b)
                           && dt_leb (OHLCV.timestamp b) end_date)%bool)
                series.

(** [n] prices of 50 followed by one price of 40. *)
Definition flat_then_drop (n : nat) : list Q := replicate n 50%Q ++ [40%Q].

Definition mk_signal (signal_type : SignalType) (timestamp : datetime) (price : Q)
  : Signal.t :=
  {| Signal.symbol := "TEST";
     Signal.signal_type := signal_type;
     Signal.timestamp := timestamp;
     Signal.price := price;
     Signal.confidence := 1;
     Signal.metadata := ∅ |}.

(** A user-defined strategy: BUY on the first bar, SELL on every later one,
    each at the bar's close. *)
Definition buy_then_sell_strategy : TradingStrategy.t :=
  {| TradingStrategy.self :=
       {| StrategySelf.config :=
            {| StrategyConfig.name := "buy_then_sell";
               StrategyConfig.symbol := "TEST";
               StrategyConfig.parameters := ∅ |};
          StrategySelf.data_provider := series_provider [];
          StrategySelf.indicator_calculator := None |};
     TradingStrategy.initialize := fun _ self => Ok self;
     TradingStrategy.generate_signals := fun _ current_data =>
       last_bar ← py_index current_data (-1);
       Ok [ mk_signal (if (length current_data <=? 1)%nat then BUY else SELL)
                      (OHLCV.timestamp last_bar) (OHLCV.close last_bar) ] |}.

(** An engine with the default configuration over the year 2020. *)
Definition default_config : BacktestConfig.t :=
  BacktestConfig.with_defaults (mk_datetime 2020 0) (mk_datetime 2020 1000).


(** ** Engine states built by the engine itself *)

(** No open position carries a [realized_pnl] attribute: nothing in the
    engine ever sets one. *)
Definition no_realized_pnl (self : BacktestEngine.t) : Prop :=
  forall symbol position,
    BacktestEngine.positions self !! symbol = Some position ->
    BacktestPosition.instance_attrs position !! "realized_pnl" = None.

(** The engine after a BUY at 100 on a fresh default engine. *)
Definition engine_after_buy : BacktestEngine.t :=
  fst (_execute_signal
         (BacktestEngine.__init__ default_config (series_provider []))
         (mk_signal BUY (mk_datetime 2020 1) 100) (mk_datetime 2020 1)).

(** The same engine marked to a close of 100 on the next bar. *)
Definition engine_after_buy_marked : BacktestEngine.t :=
  _update_portfolio_values engine_after_buy
    (flat_bar (mk_datetime 2020 2) 100).

(** The same engine marked to a close of 0.05 on the next bar. *)
Definition engine_after_crash : BacktestEngine.t :=
  _update_portfolio_values engine_after_buy
    (flat_bar (mk_datetime 2020 2) (5 # 100)).

(** ** Runs used in the examples *)

(** An SMA crossover configuration with windows of 1 and 2 bars. *)
Definition sma_1_2_config : StrategyConfig.t :=
  {| StrategyConfig.name := "sma_crossover";
     StrategyConfig.symbol := "TEST";
     StrategyConfig.parameters :=
       <[ "short_period" := PInt 1 ]> {[ "long_period" := PInt 2 ]} |}.

(** Two series that agree on their first two bars. *)
Definition series_up : list OHLCV.t := bars_from 2020 [3; 2; 3]%Q.
Definition series_down : list OHLCV.t := bars_from 2020 [3; 2; 1]%Q.

(** The signals at step [i] of a run of the SMA crossover strategy over the
    stored [series], started in the middle of 2020. *)
Definition sma_run_signals (series : list OHLCV.t) (i : nat) : res (list Signal.t) :=
  signals_at_step
    (BacktestEngine.__init__ default_config (series_provider series))
    (SimpleMovingAverageStrategy sma_1_2_config (series_provider series))
    (mk_datetime 2020 500) i.

(** One bar at 100 in 2020, the year that is backtested, and three bars in
    2024, which the strategy pulls when it initializes at the start of 2025. *)
Definition one_bar_series : list OHLCV.t :=
  bars_from 2020 [100]%Q ++ bars_from 2024 [3; 2; 3]%Q.

Definition one_bar_run : BacktestEngine.t * res BacktestResult.t :=
  run_backtest
    (BacktestEngine.__init__ default_config (series_provider one_bar_series))
    (SimpleMovingAverageStrategy sma_1_2_config (series_provider one_bar_series))
    (mk_datetime 2025 0).

(** The population standard deviation, truncated to six decimals: a stand-in
    for [numpy.std] in the examples. *)
Definition np_std_6 (window : list Q) : Q :=
  let n := Q_of_nat (length window) in
  let mean := (py_sum window / n)%Q in
  let variance :=
    (py_sum (map (fun x => (x - mean) * (x - mean))%Q window) / n)%Q in
  (inject_Z (Z.sqrt (Qfloor (variance * 1000000000000))) / 1000000)%Q.

(** Thirty-four closes that never rise: a fall from 100 to 50, a long flat
    stretch, and a last step down to 49. *)
Definition declining_closes : list Q :=
  ([100; 90; 80; 70; 60] ++ replicate 28 50 ++ [49])%Q.

Definition declining_bars : list OHLCV.t := bars_from 2020 declining_closes.

(** A multi-indicator strategy whose calculator holds [declining_bars]. *)
Definition declining_self : StrategySelf.t :=
  update_indicators
    (StrategySelf.__init__
       {| StrategyConfig.name := "multi_indicator";
          StrategyConfig.symbol := "TEST";
          StrategyConfig.parameters := ∅ |}
       (series_provider declining_bars))
    declining_bars.

(** The six current values the multi-indicator strategy extracts. *)
Record MultiValues := {
  mv_sma_20 : option Q;
  mv_rsi : option Q;
  mv_macd : option Q;
  mv_signal_line : option Q;
  mv_bb_upper : option Q;
  mv_bb_lower : option Q
}.

Definition multi_values (np_std : list Q -> Q) (calc : IndicatorCalculator.t)
  : res MultiValues :=
  sma_indicator ← calculate_sma calc 20;
  rsi_indicator ← calculate_rsi calc 14;
  macd_indicator ← calculate_macd calc 12 26 9;
  bb_indicator ← calculate_bollinger_bands np_std calc 20 2;
  Ok {| mv_sma_20 := IndicatorData.value_get sma_indicator "sma";
        mv_rsi := IndicatorData.value_get rsi_indicator "rsi";
        mv_macd := IndicatorData.value_get macd_indicator "macd";
        mv_signal_line := IndicatorData.value_get macd_indicator "signal";
        mv_bb_upper := IndicatorData.value_get bb_indicator "upper";
        mv_bb_lower := IndicatorData.value_get bb_indicator "lower" |}.

(** ** Orders and invariants used in the further properties *)

(** The order in which the calculator arranges its bars. *)
Definition timestamp_le (a b : OHLCV.t) : Prop :=
  dt_leb (OHLCV.timestamp a) (OHLCV.timestamp b) = true.

(** Every open position holds a positive quantity. *)
Definition positions_positive (self : BacktestEngine.t) : Prop :=
  forall symbol position,
    BacktestEngine.positions self !! symbol = Some position ->
    (0 < BacktestPosition.quantity position)%Q.

(** What a strategy may hand to the engine for one step: at most one signal,
    which is a BUY or a SELL for the configured symbol, priced and dated by
    the last bar of the data the strategy was called with. *)
Definition step_signals (self : StrategySelf.t) (current_data : list OHLCV.t)
    (signals : list Signal.t) : Prop :=
  (length signals <= 1)%nat
  /\ forall signal, signal ∈ signals ->
       (Signal.signal_type signal = BUY \/ Signal.signal_type signal = SELL)
       /\ Signal.symbol signal = StrategyConfig.symbol (StrategySelf.config self)
       /\ (0 <= Signal.confidence signal)%Q /\ (Signal.confidence signal <= 1)%Q
       /\ exists last_bar,
            last current_data = Some last_bar
            /\ Signal.price signal = OHLCV.close last_bar
            /\ Signal.timestamp signal = OHLCV.timestamp last_bar.

(** A strategy object, with default parameters, whose calculator holds three
    bars only. *)
Definition short_history_bars : list OHLCV.t := bars_from 2020 [10; 11; 12]%Q.

Definition short_history_self : StrategySelf.t :=
  update_indicators
    (StrategySelf.__init__
       {| StrategyConfig.name := "any";
          StrategyConfig.symbol := "TEST";
          StrategyConfig.parameters := ∅ |}
       (series_provider short_history_bars))
    short_history_bars.

(** ** [BacktestRunner] *)

(** [except Exception]: every exception the engine can raise derives from
    [Exception] and is caught. *)
Section RunnerWithNumpy.
Variable np_std : list Q -> Q.

(** [run_strategy_backtest]; [self] is the runner's data provider and [now]
    what [datetime.now()] returns while the strategy initializes. *)
Definition run_strategy_backtest (self : DataProvider) (now : datetime)
    (strategy_name symbol : string) (start_date end_date : datetime)
    (initial_capital : Q) (strategy_params : option (gmap string py_value))
  : res BacktestResult.t :=
  (* Create strategy config *)
  let config :=
    {| StrategyConfig.name := strategy_name;
       StrategyConfig.symbol := symbol;
       StrategyConfig.parameters := default ∅ strategy_params |} in
  (* Create strategy *)
  strategy ← create_strategy np_std strategy_name config self;
  (* Create backtest config *)
  let backtest_config :=
    {| BacktestConfig.start_date := start_date;
       BacktestConfig.end_date := end_date;
       BacktestConfig.initial_capital := initial_capital;
       BacktestConfig.commission_per_trade := 1 # 1000;
       BacktestConfig.slippage := 5 # 10000;
       BacktestConfig.max_position_size := 1 # 10 |} in
  (* Run backtest *)
  let engine := BacktestEngine.__init__ backtest_config self in
  snd (run_backtest engine strategy now).

(** The loop of [compare_strategies]; [now i] is the clock reading while the
    strategy at position [i] of the list initializes. *)
Fixpoint compare_loop (self : DataProvider) (now : nat -> datetime)
    (symbol : string) (start_date end_date : datetime) (initial_capital : Q)
    (i : nat) (strategies : list string)
    (results : gmap string BacktestResult.t) : gmap string BacktestResult.t :=
  match strategies with
  | [] => results
  | strategy_name :: rest =>
      let results :=
        match run_strategy_backtest self (now i) strategy_name symbol
                start_date end_date initial_capital None with
        | Ok result => <[ strategy_name := result ]> results
        | Raise _ => results
        end in
      compare_loop self now symbol start_date end_date initial_capital
                   (S i) rest results
  end.

Definition compare_strategies (self : DataProvider) (now : nat -> datetime)
    (strategies : list string) (symbol : string) (start_date end_date : datetime)
    (initial_capital : Q) : gmap string BacktestResult.t :=
  compare_loop self now symbol start_date end_date initial_capital 0 strategies ∅.

End RunnerWithNumpy.

(** A strategy that never emits a signal. *)
Definition silent (strategy : TradingStrategy.t) : Prop :=
  forall strategy_self current_data,
    TradingStrategy.generate_signals strategy strategy_self current_data = Ok [].

(** [after] extends the books of [before]: same configuration, and the trade
    log of [before] followed by at most [n] further trades. *)
Definition extends_trades (n : nat) (before after : BacktestEngine.t) : Prop :=
  BacktestEngine.config after = BacktestEngine.config before
  /\ exists new_trades,
       BacktestEngine.trades after = BacktestEngine.trades before ++ new_trades
       /\ (length new_trades <= n)%nat.

(** ** Further runs used in the examples *)

(** A configuration without costs that puts the whole portfolio into one
    position. *)
Definition all_in_config : BacktestConfig.t :=
  {| BacktestConfig.start_date := mk_datetime 2020 0;
     BacktestConfig.end_date := mk_datetime 2020 1000;
     BacktestConfig.initial_capital := 100000;
     BacktestConfig.commission_per_trade := 0;
     BacktestConfig.slippage := 0;
     BacktestConfig.max_position_size := 1 |}.

Definition zero_capital_config : BacktestConfig.t :=
  {| BacktestConfig.start_date := mk_datetime 2020 0;
     BacktestConfig.end_date := mk_datetime 2020 1000;
     BacktestConfig.initial_capital := 0;
     BacktestConfig.commission_per_trade := 1 # 1000;
     BacktestConfig.slippage := 5 # 10000;
     BacktestConfig.max_position_size := 1 # 10 |}.

(** A user-defined strategy: BUY at the close of the first bar, nothing
    afterwards. *)
Definition buy_first_bar_strategy : TradingStrategy.t :=
  {| TradingStrategy.self :=
       {| StrategySelf.config :=
            {| StrategyConfig.name := "buy_first_bar";
               StrategyConfig.symbol := "TEST";
               StrategyConfig.parameters := ∅ |};
          StrategySelf.data_provider := series_provider [];
          StrategySelf.indicator_calculator := None |};
     TradingStrategy.initialize := fun _ self => Ok self;
     TradingStrategy.generate_signals := fun _ current_data =>
       last_bar ← py_index current_data (-1);
       Ok (if (length current_data <=? 1)%nat
           then [ mk_signal BUY (OHLCV.timestamp last_bar) (OHLCV.close last_bar) ]
           else []) |}.

(** A user-defined strategy that never signals. *)
Definition do_nothing_strategy : TradingStrategy.t :=
  {| TradingStrategy.self :=
       {| StrategySelf.config :=
            {| StrategyConfig.name := "do_nothing";
               StrategyConfig.symbol := "TEST";
               StrategyConfig.parameters := ∅ |};
          StrategySelf.data_provider := series_provider [];
          StrategySelf.indicator_calculator := None |};
     TradingStrategy.initialize := fun _ self => Ok self;
     TradingStrategy.generate_signals := fun _ _ => Ok [] |}.

(** A price that falls to nothing after the first bar. *)
Definition wipe_out_series : list OHLCV.t := bars_from 2020 [100; 0; 0]%Q.

Definition wipe_out_run : BacktestEngine.t * res BacktestResult.t :=
  run_backtest
    (BacktestEngine.__init__ all_in_config (series_provider wipe_out_series))
    buy_first_bar_strategy (mk_datetime 2025 0).

(** What a run without trades records on every bar: the whole capital [c] in
    cash and no position. *)
Definition all_cash (c : Q) (state : PortfolioState.t) : Prop :=
  PortfolioState.total_value state = c
  /\ PortfolioState.cash state = c
  /\ PortfolioState.positions state = ∅.

(** Thirty-five closes: a fall from 1600 to 200 in steps of 100, then a slow
    recovery from 201 to 220 in steps of 1. *)
Definition rebound_closes : list Q :=
  map (fun i => inject_Z (1600 - 100 * Z.of_nat i)) (seq 0 15)
  ++ map (fun i => inject_Z (201 + Z.of_nat i)) (seq 0 20).

Definition rebound_bars : list OHLCV.t := bars_from 2020 rebound_closes.

(** A multi-indicator strategy whose calculator holds [rebound_bars]. *)
Definition rebound_self : StrategySelf.t :=
  update_indicators
    (StrategySelf.__init__
       {| StrategyConfig.name := "multi_indicator";
          StrategyConfig.symbol := "TEST";
          StrategyConfig.parameters := ∅ |}
       (series_provider rebound_bars))
    rebound_bars.

(** ** Ranges in which the numbers are read without loss *)

(** A magnitude of at most [10^100]: sums, differences, products by a count
    and squares of such values stay inside the range of the floats. *)
Definition float_safe (x : Q) : Prop :=
  (- inject_Z (10 ^ 100) <= x)%Q /\ (x <= inject_Z (10 ^ 100))%Q.

(** A positive amount that is neither too small nor too large to be a
    positive float. *)
Definition float_safe_positive (x : Q) : Prop :=
  (1 / inject_Z (10 ^ 100) <= x)%Q /\ (x <= inject_Z (10 ^ 100))%Q.

(** A strategy parameter that is absent or holds an [int]. *)
Definition int_or_absent (config : StrategyConfig.t) (key : string) : Prop :=
  match StrategyConfig.parameters config !! key with
  | None | Some (PInt _) => True
  | Some _ => False
  end.

(** An SMA crossover strategy with windows of 1 and 2 bars whose calculator
    holds the closes 3, 2, 3. *)
Definition crossing_self : StrategySelf.t :=
  update_indicators
    (StrategySelf.__init__ sma_1_2_config (series_provider series_up))
    series_up.

(** * Properties *)

(** ** Python prelude *)

Lemma is_empty_nil {A} (l : list A) : is_empty l = true <-> l = [].
Proof. destruct l; simpl; split; intros H; try reflexivity; discriminate. Qed.

Lemma py_div_Ok (x y : Q) : ~ (y == 0)%Q -> py_div x y = Ok (x / y)%Q.
Proof.
  intros Hy. unfold py_div.
  destruct (Qeq_bool y 0) eqn:E; [|reflexivity].
  apply Qeq_bool_iff in E. contradiction.
Qed.

Lemma py_div_zero (x y : Q) : (y == 0)%Q -> py_div x y = Raise ZeroDivisionError.
Proof.
  intros Hy. unfold py_div. apply Qeq_bool_iff in Hy. now rewrite Hy.
Qed.

Lemma Q_of_nat_pos (n : nat) : (1 <= n)%nat -> (0 < Q_of_nat n)%Q.
Proof.
  intros H. unfold Q_of_nat, Qlt. simpl. lia.
Qed.

Lemma Q_of_nat_nonzero (n : nat) : (1 <= n)%nat -> ~ (Q_of_nat n == 0)%Q.
Proof.
  intros H E. pose proof (Q_of_nat_pos n H) as P. rewrite E in P.
  now apply Qlt_irrefl in P.
Qed.

(** ** RSI on a flat series that drops at the end *)

(** C4, as stated, fails: fifteen prices of 50 followed by a price of 40 are
    sixteen prices, and the RSI of period 14 then has two values, the first
    of which is 100. *)
Lemma C4_fifteen_flat_then_drop_gives_two_values :
  ~ (exists v, relative_strength_index (flat_then_drop 15) 14 = Ok [v] /\ (v < 50)%Q).
Proof.
  intros [v [H _]]. vm_compute in H. discriminate H.
Qed.

Example rsi_fifteen_flat_then_drop :
  exists v w, relative_strength_index (flat_then_drop 15) 14 = Ok [v; w]
              /\ (v == 100)%Q /\ (w == 0)%Q.
Proof. eexists; eexists; split; [vm_compute; reflexivity|]. split; reflexivity. Qed.

(** C4, amended: on the fifteen prices of the repository's test (fourteen
    prices of 50 followed by a price of 40) the RSI of period 14 has exactly
    one value; it is 0, hence below 50. *)
Theorem C4_rsi_fourteen_flat_then_drop :
  length (flat_then_drop 14) = 15%nat
  /\ exists v, relative_strength_index (flat_then_drop 14) 14 = Ok [v]
               /\ (v == 0)%Q /\ (v < 50)%Q.
Proof.
  split; [reflexivity|].
  eexists; split; [vm_compute; reflexivity|].
  split; reflexivity.
Qed.

(** ** The indicator library on small inputs *)

Example sma_3_over_six_prices :
  exists values,
    simple_moving_average [10; 11; 12; 13; 14; 15]%Q 3 = Ok values
    /\ Qlist_eq values [11; 12; 13; 14]%Q.
Proof.
  eexists. split; [vm_compute; reflexivity|].
  repeat constructor.
Qed.

Example sma_period_zero_raises :
  simple_moving_average [10; 11; 12]%Q 0 = Raise ZeroDivisionError.
Proof. reflexivity. Qed.

Example ema_3_over_five_prices :
  exists values,
    exponential_moving_average [10; 11; 12; 13; 14]%Q 3 = Ok values
    /\ Qlist_eq values [11; 12; 13]%Q.
Proof.
  eexists. split; [vm_compute; reflexivity|].
  repeat constructor.
Qed.

Example macd_lengths_on_31_prices :
  exists r,
    macd (map (fun i => inject_Z (Z.of_nat i)) (seq 10 31)) 12 26 9 = Ok r
    /\ length (macd_line r) = 6%nat
    /\ length (signal_line r) = 0%nat
    /\ length (histogram r) = 0%nat.
Proof. eexists. split; [vm_compute; reflexivity|]. repeat split. Qed.

Example obv_on_four_bars :
  on_balance_volume [10; 11; 11; 9]%Q [100; 200; 300; 400]%Z
  = Ok [0; 200; 200; -200]%Z.
Proof. reflexivity. Qed.

Example obv_length_mismatch :
  on_balance_volume [10; 11]%Q [100]%Z = Raise ValueError.
Proof. reflexivity. Qed.

Example atr_1_on_three_bars :
  exists values,
    average_true_range [12; 13; 15]%Q [9; 11; 12]%Q [10; 12; 14]%Q 1 = Ok values
    /\ Qlist_eq values [3; 3]%Q.
Proof.
  eexists. split; [vm_compute; reflexivity|].
  repeat constructor.
Qed.

Example sorting_is_stable :
  map OHLCV.close
    (sorted_by_timestamp
       [flat_bar (mk_datetime 2021 0) 1; flat_bar (mk_datetime 2020 5) 2;
        flat_bar (mk_datetime 2020 5) 3; flat_bar (mk_datetime 2020 1) 4])
  = [4; 2; 3; 1]%Q.
Proof. reflexivity. Qed.

(** ** The engine: executing one signal *)

Lemma Qlt_bool_true (x y : Q) : Qlt_bool x y = true <-> (x < y)%Q.
Proof.
  unfold Qlt_bool. rewrite negb_true_iff. split.
  - intros H. apply Qnot_le_lt. intros L. apply Qle_bool_iff in L. congruence.
  - intros H. destruct (Qle_bool y x) eqn:E; [|reflexivity].
    apply Qle_bool_iff in E. exfalso. apply (Qlt_not_le _ _ H E).
Qed.

Lemma Qlt_bool_false (x y : Q) : Qlt_bool x y = false <-> (y <= x)%Q.
Proof.
  unfold Qlt_bool. rewrite negb_false_iff. apply Qle_bool_iff.
Qed.

Lemma Qle_bool_false (x y : Q) : Qle_bool x y = false <-> (y < x)%Q.
Proof.
  split.
  - intros H. apply Qnot_le_lt. intros L. apply Qle_bool_iff in L. congruence.
  - intros H. destruct (Qle_bool x y) eqn:E; [|reflexivity].
    apply Qle_bool_iff in E. exfalso. apply (Qlt_not_le _ _ H E).
Qed.

Lemma Qeq_bool_false (x y : Q) : Qeq_bool x y = false <-> ~ (x == y)%Q.
Proof.
  split.
  - intros H E. apply Qeq_bool_iff in E. congruence.
  - intros H. destruct (Qeq_bool x y) eqn:E; [|reflexivity].
    apply Qeq_bool_iff in E. contradiction.
Qed.

(** Projections of an engine that was rebuilt by the setters. *)
Ltac engine_simpl :=
  cbn [fst snd BacktestEngine.cash BacktestEngine.total_value
       BacktestEngine.portfolio BacktestEngine.positions BacktestEngine.trades
       BacktestEngine.portfolio_history BacktestEngine.config
       BacktestEngine.data_provider
       BacktestEngine.set_cash BacktestEngine.set_total_value
       BacktestEngine.set_positions BacktestEngine.append_trade
       BacktestEngine.append_history
       Portfolio.cash Portfolio.total_value
       Trade.side Trade.quantity Trade.price Trade.commission Trade.pnl
       Trade.symbol Trade.timestamp] in *.

(** A signal that is neither BUY nor SELL changes nothing. *)
Lemma execute_signal_ignored self signal timestamp :
  Signal.signal_type signal <> BUY -> Signal.signal_type signal <> SELL ->
  _execute_signal self signal timestamp = (self, None).
Proof.
  intros Hb Hs. unfold _execute_signal.
  rewrite bool_decide_eq_false_2; [reflexivity|].
  intros Hin. apply elem_of_cons in Hin as [E|Hin]; [congruence|].
  apply elem_of_cons in Hin as [E|Hin]; [congruence|].
  now apply elem_of_nil in Hin.
Qed.

(** A BUY whose sizing is positive reaches the BUY branch with the price
    marked up by the slippage. *)
Lemma execute_signal_BUY self signal timestamp :
  Signal.signal_type signal = BUY ->
  ~ (Signal.price signal == 0)%Q ->
  (0 < sized_quantity self signal)%Q ->
  let config := BacktestEngine.config self in
  let quantity := sized_quantity self signal in
  let execution_price :=
    (Signal.price signal * (1 + BacktestConfig.slippage config))%Q in
  _execute_signal self signal timestamp =
  execute_buy self signal timestamp quantity execution_price
    (execution_price * quantity * BacktestConfig.commission_per_trade config)%Q.
Proof.
  intros Ht Hp Hq. unfold _execute_signal, execution_price_of. rewrite Ht.
  rewrite bool_decide_eq_true_2 by (apply elem_of_cons; now left). simpl negb. cbv iota.
  rewrite (proj2 (Qeq_bool_false _ _) Hp).
  rewrite (proj2 (Qle_bool_false _ _) Hq).
  rewrite (bool_decide_eq_false_2 (BUY = SELL)) by discriminate.
  rewrite bool_decide_eq_true_2 by reflexivity.
  reflexivity.
Qed.

(** A SELL whose sizing is positive reaches the SELL branch with the price
    marked down by the slippage. *)
Lemma execute_signal_SELL self signal timestamp :
  Signal.signal_type signal = SELL ->
  ~ (Signal.price signal == 0)%Q ->
  (0 < sized_quantity self signal)%Q ->
  let config := BacktestEngine.config self in
  let quantity := sized_quantity self signal in
  let execution_price :=
    (Signal.price signal * (1 - BacktestConfig.slippage config))%Q in
  _execute_signal self signal timestamp =
  execute_sell self signal timestamp quantity execution_price
    (execution_price * quantity * BacktestConfig.commission_per_trade config)%Q.
Proof.
  intros Ht Hp Hq. unfold _execute_signal, execution_price_of. rewrite Ht.
  rewrite bool_decide_eq_true_2
    by (apply elem_of_cons; right; apply elem_of_cons; now left).
  simpl negb. cbv iota.
  rewrite (proj2 (Qeq_bool_false _ _) Hp).
  rewrite (proj2 (Qle_bool_false _ _) Hq).
  rewrite (bool_decide_eq_true_2 (SELL = SELL)) by reflexivity.
  rewrite (bool_decide_eq_false_2 (SELL = BUY)) by discriminate.
  reflexivity.
Qed.

(** The cash of the engine after each outcome of the BUY branch. *)
Lemma execute_buy_cash self signal timestamp quantity execution_price commission :
  let cost := (execution_price * quantity + commission)%Q in
  let r := execute_buy self signal timestamp quantity execution_price commission in
  (fst r = self)
  \/ ((cost <= BacktestEngine.cash self)%Q
      /\ snd r = None
      /\ BacktestEngine.cash (fst r) = (BacktestEngine.cash self - cost)%Q).
Proof.
  intros cost r. unfold r, execute_buy. fold cost.
  destruct (Qlt_bool (BacktestEngine.cash self) cost) eqn:E; [left; reflexivity|].
  apply Qlt_bool_false in E.
  destruct (BacktestEngine.positions self !! Signal.symbol signal) as [position|].
  - destruct (Qeq_bool _ 0); [left; reflexivity|].
    right. split; [exact E|]. split; reflexivity.
  - right. split; [exact E|]. split; reflexivity.
Qed.

(** A BUY that costs more than the cash at hand is rejected. *)
Lemma execute_buy_rejected self signal timestamp quantity execution_price commission :
  (BacktestEngine.cash self < execution_price * quantity + commission)%Q ->
  execute_buy self signal timestamp quantity execution_price commission = (self, None).
Proof.
  intros H. unfold execute_buy. apply Qlt_bool_true in H. now rewrite H.
Qed.

(** The SELL branch when no position is open: nothing changes. *)
Lemma execute_sell_no_position self signal timestamp quantity execution_price commission :
  BacktestEngine.positions self !! Signal.symbol signal = None ->
  execute_sell self signal timestamp quantity execution_price commission = (self, None).
Proof. intros H. unfold execute_sell. now rewrite H. Qed.

(** The SELL branch on an open position that was built by the engine (no
    [realized_pnl] attribute was ever set on it): the cash is credited, then
    reading [position.realized_pnl] raises, before the quantity is reduced
    and before a trade is recorded. *)
Lemma execute_sell_open_position self signal timestamp quantity execution_price
    commission position :
  BacktestEngine.positions self !! Signal.symbol signal = Some position ->
  BacktestPosition.instance_attrs position !! "realized_pnl" = None ->
  execute_sell self signal timestamp quantity execution_price commission =
  (BacktestEngine.set_cash self
     (BacktestEngine.cash self
      + (execution_price * Qmin quantity (BacktestPosition.quantity position)
         - commission))%Q,
   Some AttributeError).
Proof.
  intros Hpos Hattr. unfold execute_sell, BacktestPosition.getattr.
  rewrite Hpos. now rewrite Hattr.
Qed.

Lemma no_realized_pnl_init config data_provider :
  no_realized_pnl (BacktestEngine.__init__ config data_provider).
Proof. intros symbol position H. simpl in H. now rewrite lookup_empty in H. Qed.

Lemma no_realized_pnl_mark self current_ohlcv :
  no_realized_pnl self -> no_realized_pnl (_update_portfolio_values self current_ohlcv).
Proof.
  intros H symbol position Hl. simpl in Hl.
  rewrite lookup_fmap in Hl.
  destruct (BacktestEngine.positions self !! symbol) as [p|] eqn:E; [|discriminate].
  simpl in Hl. injection Hl as <-. simpl. exact (H _ _ E).
Qed.

Lemma no_realized_pnl_execute self signal timestamp :
  no_realized_pnl self -> no_realized_pnl (fst (_execute_signal self signal timestamp)).
Proof.
  intros H. unfold _execute_signal.
  destruct (negb _); [exact H|].
  destruct (Qeq_bool _ 0); [exact H|].
  destruct (Qle_bool _ 0); [exact H|].
  destruct (bool_decide (Signal.signal_type signal = BUY)).
  - unfold execute_buy.
    destruct (Qlt_bool _ _); [exact H|].
    destruct (BacktestEngine.positions self !! Signal.symbol signal) as [p|] eqn:E.
    + destruct (Qeq_bool _ 0); [exact H|].
      intros symbol position Hl. simpl in Hl.
      destruct (decide (Signal.symbol signal = symbol)) as [<-|Hne].
      * rewrite lookup_insert_eq in Hl. injection Hl as <-. simpl. exact (H _ _ E).
      * rewrite lookup_insert_ne in Hl by exact Hne. exact (H _ _ Hl).
    + intros symbol position Hl. simpl in Hl.
      destruct (decide (Signal.symbol signal = symbol)) as [<-|Hne].
      * rewrite lookup_insert_eq in Hl. injection Hl as <-. simpl. apply lookup_empty.
      * rewrite lookup_insert_ne in Hl by exact Hne. exact (H _ _ Hl).
  - unfold execute_sell.
    destruct (BacktestEngine.positions self !! Signal.symbol signal) as [p|] eqn:E;
      [|exact H].
    unfold BacktestPosition.getattr. rewrite (H _ _ E). exact H.
Qed.

(** In a state built by the engine, every SELL that finds an open position
    and is sized to at least one unit raises [AttributeError]; the position
    map and the trade log are as before it. *)
Lemma execute_signal_SELL_raises self signal timestamp position :
  no_realized_pnl self ->
  Signal.signal_type signal = SELL ->
  ~ (Signal.price signal == 0)%Q ->
  (0 < sized_quantity self signal)%Q ->
  BacktestEngine.positions self !! Signal.symbol signal = Some position ->
  let r := _execute_signal self signal timestamp in
  snd r = Some AttributeError
  /\ BacktestEngine.positions (fst r) = BacktestEngine.positions self
  /\ BacktestEngine.trades (fst r) = BacktestEngine.trades self.
Proof.
  intros Hinv Ht Hp Hq Hpos r. unfold r.
  rewrite (execute_signal_SELL _ _ _ Ht Hp Hq).
  rewrite (execute_sell_open_position _ _ _ _ _ _ _ Hpos (Hinv _ _ Hpos)).
  repeat split.
Qed.

(** C3 does not hold of the code.  On a fresh default engine
    a BUY at 100 opens a position of 100 units.  On the next bar, marked at
    100, a SELL at 100 is sized to 99 units; it credits the cash with its
    proceeds and then raises [AttributeError] at
    [position.realized_pnl += ...]: the holding stays at 100 units, no SELL
    trade is recorded, and a run whose strategy buys on the first bar and
    sells on the second ends with that exception instead of going on to the
    next bar.  (A SELL with no open position is a no-op, as C3 says.) *)
Theorem C3_sell_of_open_position_raises :
  let sell := mk_signal SELL (mk_datetime 2020 2) 100 in
  let r := _execute_signal engine_after_buy_marked sell (mk_datetime 2020 2) in
  (exists position,
     BacktestEngine.positions engine_after_buy_marked !! "TEST" = Some position
     /\ (BacktestPosition.quantity position == 100)%Q)
  /\ (sized_quantity engine_after_buy_marked sell == 99)%Q
  /\ snd r = Some AttributeError
  /\ BacktestEngine.positions (fst r) = BacktestEngine.positions engine_after_buy_marked
  /\ BacktestEngine.trades (fst r) = BacktestEngine.trades engine_after_buy_marked
  /\ (BacktestEngine.cash (fst r)
      == BacktestEngine.cash engine_after_buy_marked
         + (100 * (1 - (5 # 10000)) * 99
            - 100 * (1 - (5 # 10000)) * 99 * (1 # 1000)))%Q
  /\ snd (run_backtest
            (BacktestEngine.__init__ default_config
               (series_provider (bars_from 2020 [100; 100; 100]%Q)))
            buy_then_sell_strategy (mk_datetime 2021 0))
     = Raise AttributeError
  /\ _execute_signal (BacktestEngine.__init__ default_config (series_provider []))
                     sell (mk_datetime 2020 2)
     = (BacktestEngine.__init__ default_config (series_provider []), None).
Proof.
  intros sell r. split.
  { eexists. split; [vm_compute; reflexivity|]. reflexivity. }
  split; [vm_compute; reflexivity|].
  split; [vm_compute; reflexivity|].
  split; [vm_compute; reflexivity|].
  split; [vm_compute; reflexivity|].
  split; [vm_compute; reflexivity|].
  split; [vm_compute; reflexivity|].
  vm_compute. reflexivity.
Qed.

(** C8: when the data provider has no bar for the requested symbol and date
    range, [run_backtest] raises [ValueError] to its caller, produces no
    result, and leaves the engine (portfolio, positions, trade log and
    history) exactly as it was before the call. *)
Theorem C8_empty_history_is_fatal (self : BacktestEngine.t)
    (strategy : TradingStrategy.t) (now : datetime) :
  BacktestEngine.data_provider self
    (StrategyConfig.symbol (StrategySelf.config (TradingStrategy.self strategy)))
    (BacktestConfig.start_date (BacktestEngine.config self))
    (BacktestConfig.end_date (BacktestEngine.config self)) = [] ->
  run_backtest self strategy now = (self, Raise ValueError).
Proof.
  intros H. unfold run_backtest. rewrite H. reflexivity.
Qed.

Lemma C8_empty_history_is_fatal_witness :
  let engine := BacktestEngine.__init__ default_config (series_provider []) in
  run_backtest engine buy_then_sell_strategy (mk_datetime 2021 0)
  = (engine, Raise ValueError)
  /\ BacktestEngine.portfolio engine
     = {| Portfolio.total_value := 100000; Portfolio.cash := 100000 |}.
Proof.
  split; [|reflexivity].
  apply (C8_empty_history_is_fatal
           (BacktestEngine.__init__ default_config (series_provider []))
           buy_then_sell_strategy (mk_datetime 2021 0)).
  reflexivity.
Defined.



(** The four ways a call of [_execute_signal] can go. *)
Lemma execute_signal_cases self signal timestamp :
  let config := BacktestEngine.config self in
  let quantity := sized_quantity self signal in
  let rate := BacktestConfig.commission_per_trade config in
  let buy_price := (Signal.price signal * (1 + BacktestConfig.slippage config))%Q in
  let sell_price := (Signal.price signal * (1 - BacktestConfig.slippage config))%Q in
  fst (_execute_signal self signal timestamp) = self
  \/ (Signal.signal_type signal = BUY /\ (0 < quantity)%Q
      /\ _execute_signal self signal timestamp
         = execute_buy self signal timestamp quantity buy_price
             (buy_price * quantity * rate)%Q)
  \/ (Signal.signal_type signal = SELL /\ (0 < quantity)%Q
      /\ _execute_signal self signal timestamp
         = execute_sell self signal timestamp quantity sell_price
             (sell_price * quantity * rate)%Q).
Proof.
  intros config quantity rate buy_price sell_price.
  destruct (Qeq_bool (Signal.price signal) 0) eqn:Ep.
  { left. unfold _execute_signal. rewrite Ep. now destruct (negb _). }
  destruct (Qle_bool quantity 0) eqn:Eq.
  { left. unfold _execute_signal. rewrite Ep. fold quantity. rewrite Eq.
    now destruct (negb _). }
  apply Qeq_bool_false in Ep. apply Qle_bool_false in Eq.
  destruct (Signal.signal_type signal) eqn:Et.
  - right; left. split; [reflexivity|]. split; [exact Eq|].
    now apply execute_signal_BUY.
  - right; right. split; [reflexivity|]. split; [exact Eq|].
    now apply execute_signal_SELL.
  - left. rewrite execute_signal_ignored; [reflexivity| |]; congruence.
  - left. rewrite execute_signal_ignored; [reflexivity| |]; congruence.
Qed.

(** The cash of the engine after each outcome of the SELL branch. *)
Lemma execute_sell_cash self signal timestamp quantity execution_price commission :
  let r := execute_sell self signal timestamp quantity execution_price commission in
  fst r = self
  \/ exists position,
       BacktestEngine.positions self !! Signal.symbol signal = Some position
       /\ BacktestEngine.cash (fst r)
          = (BacktestEngine.cash self
             + (execution_price * Qmin quantity (BacktestPosition.quantity position)
                - commission))%Q.
Proof.
  intros r. unfold r, execute_sell.
  destruct (BacktestEngine.positions self !! Signal.symbol signal) as [position|];
    [|left; reflexivity].
  right. exists position. split; [reflexivity|].
  destruct (BacktestPosition.getattr position "realized_pnl"); reflexivity.
Qed.

(** The proceeds of a sale that is not clamped are not negative. *)
Lemma unclamped_proceeds_nonneg (price slippage rate quantity held : Q) :
  (0 <= price)%Q -> (slippage <= 1)%Q -> (0 <= rate)%Q -> (rate <= 1)%Q ->
  (0 < quantity)%Q -> (quantity <= held)%Q ->
  (0 <= price * (1 - slippage) * Qmin quantity held
        - price * (1 - slippage) * quantity * rate)%Q.
Proof.
  intros Hp Hs Hr0 Hr1 Hq Hh.
  rewrite (Q.min_l _ _ Hh).
  assert (He : (0 <= price * (1 - slippage))%Q).
  { apply Qmult_le_0_compat; lra. }
  assert (Hpq : (0 <= price * (1 - slippage) * quantity)%Q).
  { apply Qmult_le_0_compat; lra. }
  assert (Hall : (0 <= price * (1 - slippage) * quantity * (1 - rate))%Q).
  { apply Qmult_le_0_compat; lra. }
  eapply Qle_trans; [exact Hall|].
  apply Qle_lteq. right. ring.
Qed.

(** C9: an executed SELL can debit cash.  With the default configuration,
    after a BUY of 100 units at 100 and a fall of the close to 0.05, a SELL
    at 0.05 is sized to 179979 units and sells the 100 units held, but the
    commission is charged on the 179979 units it was sized to, not on the
    100 it sells: the proceeds are -3.996950525 and the cash goes down, from
    89984.995 to 89980.998049475 (it stays non-negative). *)
Theorem C9_clamped_sell_debits_cash :
  let sell := mk_signal SELL (mk_datetime 2020 2) (5 # 100) in
  let r := _execute_signal engine_after_crash sell (mk_datetime 2020 2) in
  (exists position,
      BacktestEngine.positions engine_after_crash !! "TEST" = Some position
      /\ (BacktestPosition.quantity position == 100)%Q)
  /\ (sized_quantity engine_after_crash sell == 179979)%Q
  /\ (BacktestEngine.cash engine_after_crash == 89984995 # 1000)%Q
  /\ (BacktestEngine.cash (fst r) - BacktestEngine.cash engine_after_crash
      == - (3996950525 # 1000000000))%Q
  /\ (BacktestEngine.cash (fst r) < BacktestEngine.cash engine_after_crash)%Q
  /\ (0 <= BacktestEngine.cash (fst r))%Q.
Proof.
  intros sell r. split.
  { eexists. split; [vm_compute; reflexivity | reflexivity]. }
  split; [vm_compute; reflexivity|]. split; [vm_compute; reflexivity|].
  split; [vm_compute; reflexivity|]. split; [vm_compute; reflexivity|].
  vm_compute. discriminate.
Qed.

(** ** The strategies inside the backtest loop *)

(** The SMA strategy reads the bars it is given only through the last one:
    the indicators come from the calculator built when it initialized. *)
Lemma sma_signals_use_last_bar_only self (data1 data2 : list OHLCV.t) :
  py_index data1 (-1) = py_index data2 (-1) ->
  SimpleMovingAverageStrategy_generate_signals self data1
  = SimpleMovingAverageStrategy_generate_signals self data2.
Proof.
  intros H. unfold SimpleMovingAverageStrategy_generate_signals.
  destruct (StrategySelf.indicator_calculator self); [|reflexivity].
  now rewrite H.
Qed.

(** C2 does not hold of the code.  Two runs of the SMA
    crossover strategy (windows 1 and 2) over series that agree on their
    first two bars, closes 3 and 2, and differ in the third, 3 against 1:
    at step 1 the first run signals BUY and the second signals nothing,
    because the indicators are computed from the series pulled by
    [initialize], which here holds the third bar too. *)
Theorem C2_signals_depend_on_initialize_data :
  take 2 series_up = take 2 series_down
  /\ series_provider series_up "TEST" (mk_datetime 2020 0) (mk_datetime 2020 1000)
     = series_up
  /\ series_provider series_down "TEST" (mk_datetime 2020 0) (mk_datetime 2020 1000)
     = series_down
  /\ (exists signal,
        sma_run_signals series_up 1 = Ok [signal]
        /\ Signal.signal_type signal = BUY
        /\ Signal.price signal = 2%Q)
  /\ sma_run_signals series_down 1 = Ok []
  /\ sma_run_signals series_up 1 <> sma_run_signals series_down 1.
Proof.
  split; [reflexivity|].
  split; [reflexivity|].
  split; [reflexivity|].
  split.
  { eexists. split; [vm_compute; reflexivity|]. split; reflexivity. }
  split; [vm_compute; reflexivity|].
  vm_compute. discriminate.
Qed.

(** ** The recorded portfolio states *)

(** C1 does not hold of the code.  A run over one bar at
    100 on which the strategy signals BUY: the state recorded for that bar
    shows total value 100000 and cash 89984.995 with 100 units held, whose
    recorded market value is 0.  Cash plus holdings is 89984.995 by the
    recorded market value, 99984.995 at the bar's close and 99989.995 at the
    position's current price of 100.05; none is within 1e-6 of the recorded
    total value. *)
Theorem C1_state_recorded_after_buy_is_not_conserved :
  exists result state,
    snd one_bar_run = Ok result
    /\ BacktestResult.portfolio_values result = [state]
    /\ length (BacktestResult.trades result) = 1%nat
    /\ (PortfolioState.total_value state == 100000)%Q
    /\ (PortfolioState.cash state == 89984995 # 1000)%Q
    /\ (recorded_market_value state == 0)%Q
    /\ (recorded_holdings_at 100 state == 10000)%Q
    /\ (holdings_at_current_price (fst one_bar_run) == 10005)%Q
    /\ ~ conserved (1 # 1000000) (PortfolioState.cash state)
           (recorded_market_value state) (PortfolioState.total_value state)
    /\ ~ conserved (1 # 1000000) (PortfolioState.cash state)
           (recorded_holdings_at 100 state) (PortfolioState.total_value state)
    /\ ~ conserved (1 # 1000000) (PortfolioState.cash state)
           (holdings_at_current_price (fst one_bar_run))
           (PortfolioState.total_value state).
Proof.
  eexists. eexists.
  split; [vm_compute; reflexivity|].
  split; [vm_compute; reflexivity|].
  split; [reflexivity|].
  split; [reflexivity|].
  split; [reflexivity|].
  split; [vm_compute; reflexivity|].
  split; [vm_compute; reflexivity|].
  split; [vm_compute; reflexivity|].
  split; [|split]; vm_compute; intros H; apply H; reflexivity.
Qed.

(** ** The indicator library never raises on sensible windows *)

Lemma mapM_res_Ok {A B} (f : A -> res B) (l : list A) :
  (forall x, x ∈ l -> exists y, f x = Ok y) ->
  exists k, mapM f l = Ok k /\ length k = length l.
Proof.
  induction l as [|x l IH]; intros H.
  - exists []. split; reflexivity.
  - destruct (H x) as [y Hy]; [apply elem_of_cons; now left|].
    destruct IH as (k & Hk & Hlen).
    { intros z Hz. apply H. apply elem_of_cons. now right. }
    exists (y :: k). split.
    + cbn. rewrite Hy. cbn. rewrite Hk. reflexivity.
    + cbn. now rewrite Hlen.
Qed.

Lemma mapM_res_nil {A B} (f : A -> res B) : mapM f [] = Ok [].
Proof. reflexivity. Qed.

Lemma py_index_in_range {A} (l : list A) (i : Z) :
  (0 <= i < Z.of_nat (length l))%Z -> exists x, py_index l i = Ok x.
Proof.
  intros [H0 H1]. unfold py_index.
  destruct (i <? 0)%Z eqn:E; [apply Z.ltb_lt in E; lia|].
  rewrite E. simpl orb.
  destruct (Z.of_nat (length l) <=? i)%Z eqn:E2; [apply Z.leb_le in E2; lia|].
  destruct (l !! Z.to_nat i) as [x|] eqn:El; [now exists x|].
  apply lookup_ge_None in El. lia.
Qed.

Lemma py_index_last {A} (l : list A) :
  l <> [] -> exists x, py_index l (-1) = Ok x.
Proof.
  intros Hne. unfold py_index. cbn [Z.ltb Z.compare].
  assert (Hlen : (1 <= length l)%nat) by (destruct l; [congruence|cbn; lia]).
  destruct (Z.of_nat (length l) + -1 <? 0)%Z eqn:E; [apply Z.ltb_lt in E; lia|].
  cbn [orb].
  destruct (Z.of_nat (length l) <=? Z.of_nat (length l) + -1)%Z eqn:E2;
    [apply Z.leb_le in E2; lia|].
  destruct (l !! Z.to_nat (Z.of_nat (length l) + -1)) as [x|] eqn:El; [now exists x|].
  apply lookup_ge_None in El. lia.
Qed.

Lemma py_index_nil {A} (i : Z) : py_index (@nil A) i = Raise IndexError.
Proof.
  unfold py_index. destruct (_ || _)%bool; [reflexivity|].
  now rewrite lookup_nil.
Qed.

Lemma length_slice_full {A} (l : list A) (i n : nat) :
  (i + n <= length l)%nat -> length (slice l i n) = n.
Proof.
  intros H. unfold slice. rewrite length_take, length_drop. lia.
Qed.

Lemma simple_moving_average_Ok (prices : list Q) (period : nat) :
  (1 <= period)%nat ->
  exists values,
    simple_moving_average prices period = Ok values
    /\ length values = (if (length prices <? period)%nat then 0
                        else length prices - period + 1)%nat.
Proof.
  intros Hp. unfold simple_moving_average.
  destruct (length prices <? period)%nat; [exists []; split; reflexivity|].
  destruct (mapM_res_Ok
              (fun i => py_div (py_sum (slice prices i period)) (Q_of_nat period))
              (seq 0 (length prices - period + 1))) as (k & Hk & Hlen).
  { intros i _. eexists. apply py_div_Ok. now apply Q_of_nat_nonzero. }
  exists k. split; [exact Hk|]. now rewrite Hlen, length_seq.
Qed.

Lemma length_ema_loop (multiplier prev : Q) (prices : list Q) :
  length (ema_loop multiplier prev prices) = length prices.
Proof.
  revert prev. induction prices as [|p ps IH]; intros prev; cbn; [reflexivity|].
  now rewrite IH.
Qed.

Lemma exponential_moving_average_Ok (prices : list Q) (period : nat) :
  (1 <= period)%nat ->
  exists values,
    exponential_moving_average prices period = Ok values
    /\ length values = (if (length prices <? period)%nat then 0
                        else length prices - period + 1)%nat.
Proof.
  intros Hp. unfold exponential_moving_average.
  destruct (length prices <? period)%nat eqn:E; [exists []; split; reflexivity|].
  apply Nat.ltb_ge in E.
  rewrite (py_div_Ok 2 (Q_of_nat period + 1)).
  2:{ intros Z0. pose proof (Q_of_nat_pos period Hp). lra. }
  cbn [mbind res_bind].
  rewrite (py_div_Ok _ (Q_of_nat period)) by now apply Q_of_nat_nonzero.
  cbn [mbind res_bind]. eexists. split; [reflexivity|].
  cbn [length]. rewrite length_ema_loop, length_drop. lia.
Qed.

Lemma fold_left_Qplus_nonneg (l : list Q) (acc : Q) :
  (0 <= acc)%Q -> Forall (fun x => (0 <= x)%Q) l -> (0 <= fold_left Qplus l acc)%Q.
Proof.
  revert acc. induction l as [|x l IH]; intros acc Hacc Hl; cbn; [exact Hacc|].
  inversion Hl as [|? ? Hx Hl']; subst.
  apply IH; [lra | exact Hl'].
Qed.

Lemma py_sum_nonneg (l : list Q) :
  Forall (fun x => (0 <= x)%Q) l -> (0 <= py_sum l)%Q.
Proof. intros H. unfold py_sum. apply fold_left_Qplus_nonneg; [lra | exact H]. Qed.

Lemma gains_of_nonneg (prices : list Q) :
  Forall (fun x => (0 <= x)%Q) (gains_of prices).
Proof.
  unfold gains_of. apply Forall_map, Forall_forall. intros c _. cbn.
  apply Q.le_max_r.
Qed.

Lemma losses_of_nonneg (prices : list Q) :
  Forall (fun x => (0 <= x)%Q) (losses_of prices).
Proof.
  unfold losses_of. apply Forall_map, Forall_forall. intros c _. cbn.
  apply Q.le_max_r.
Qed.

Lemma Qdiv_nonneg (x y : Q) : (0 <= x)%Q -> (0 < y)%Q -> (0 <= x / y)%Q.
Proof.
  intros Hx Hy. unfold Qdiv. apply Qmult_le_0_compat; [exact Hx|].
  apply Qinv_le_0_compat. lra.
Qed.

Lemma rsi_value_Ok (avg_gain avg_loss : Q) :
  (0 <= avg_gain)%Q -> (0 <= avg_loss)%Q -> exists v, rsi_value avg_gain avg_loss = Ok v.
Proof.
  intros Hg Hl. unfold rsi_value.
  destruct (Qeq_bool avg_loss 0) eqn:E; [now eexists|].
  apply Qeq_bool_false in E.
  assert (Hpos : (0 < avg_loss)%Q) by lra.
  rewrite (py_div_Ok avg_gain avg_loss) by exact E. cbn [mbind res_bind].
  pose proof (Qdiv_nonneg _ _ Hg Hpos) as Hrs.
  rewrite (py_div_Ok 100 (1 + avg_gain / avg_loss)) by lra.
  cbn [mbind res_bind]. now eexists.
Qed.

Lemma wilder_average_nonneg (avg x : Q) (period : nat) :
  (1 <= period)%nat -> (0 <= avg)%Q -> (0 <= x)%Q ->
  (0 <= (avg * (Q_of_nat period - 1) + x) / Q_of_nat period)%Q.
Proof.
  intros Hp Ha Hx. apply Qdiv_nonneg; [|now apply Q_of_nat_pos].
  assert (H1 : (0 <= Q_of_nat period - 1)%Q).
  { unfold Q_of_nat, Qle, Qminus, Qplus, Qopp. cbn. lia. }
  pose proof (Qmult_le_0_compat _ _ Ha H1). lra.
Qed.

Lemma rsi_loop_Ok (period : nat) (avg_gain avg_loss : Q) (gl : list (Q * Q)) :
  (1 <= period)%nat -> (0 <= avg_gain)%Q -> (0 <= avg_loss)%Q ->
  Forall (fun p => (0 <= fst p)%Q /\ (0 <= snd p)%Q) gl ->
  exists values, rsi_loop period avg_gain avg_loss gl = Ok values.
Proof.
  intros Hp. revert avg_gain avg_loss.
  induction gl as [|[gain loss] rest IH]; intros avg_gain avg_loss Hg Hl Hall.
  - now eexists.
  - inversion Hall as [|? ? [Hgain Hloss] Hrest]; subst. cbn in Hgain, Hloss.
    cbn [rsi_loop].
    rewrite (py_div_Ok _ (Q_of_nat period)) by now apply Q_of_nat_nonzero.
    cbn [mbind res_bind].
    rewrite (py_div_Ok _ (Q_of_nat period)) by now apply Q_of_nat_nonzero.
    cbn [mbind res_bind].
    pose proof (wilder_average_nonneg avg_gain gain period Hp Hg Hgain) as Hg'.
    pose proof (wilder_average_nonneg avg_loss loss period Hp Hl Hloss) as Hl'.
    destruct (rsi_value_Ok _ _ Hg' Hl') as [v Hv]. rewrite Hv.
    cbn [mbind res_bind].
    destruct (IH _ _ Hg' Hl' Hrest) as [values Hvalues]. rewrite Hvalues.
    cbn [mbind res_bind]. now eexists.
Qed.

Lemma Forall_zip_nonneg (xs ys : list Q) :
  Forall (fun x => (0 <= x)%Q) xs -> Forall (fun y => (0 <= y)%Q) ys ->
  Forall (fun p => (0 <= fst p)%Q /\ (0 <= snd p)%Q) (zip xs ys).
Proof.
  intros Hx. revert ys. induction Hx as [|x xs Hx0 Hxs IH]; intros ys Hy.
  - constructor.
  - destruct Hy as [|y ys Hy0 Hys]; [constructor|].
    cbn. constructor; [split; assumption | now apply IH].
Qed.

Lemma relative_strength_index_Ok (prices : list Q) (period : nat) :
  (1 <= period)%nat -> exists values, relative_strength_index prices period = Ok values.
Proof.
  intros Hp. unfold relative_strength_index.
  destruct (length prices <? period + 1)%nat; [now eexists|].
  cbv zeta.
  rewrite (py_div_Ok _ (Q_of_nat period)) by now apply Q_of_nat_nonzero.
  cbn [mbind res_bind].
  rewrite (py_div_Ok _ (Q_of_nat period)) by now apply Q_of_nat_nonzero.
  cbn [mbind res_bind].
  assert (Hg : (0 <= py_sum (take period (gains_of prices)) / Q_of_nat period)%Q).
  { apply Qdiv_nonneg; [|now apply Q_of_nat_pos].
    apply py_sum_nonneg, Forall_take, gains_of_nonneg. }
  assert (Hl : (0 <= py_sum (take period (losses_of prices)) / Q_of_nat period)%Q).
  { apply Qdiv_nonneg; [|now apply Q_of_nat_pos].
    apply py_sum_nonneg, Forall_take, losses_of_nonneg. }
  destruct (rsi_value_Ok _ _ Hg Hl) as [v Hv]. rewrite Hv. cbn [mbind res_bind].
  destruct (rsi_loop_Ok period _ _
              (drop period (zip (gains_of prices) (losses_of prices))) Hp Hg Hl)
    as [values Hvalues].
  { apply Forall_drop, Forall_zip_nonneg;
      [apply gains_of_nonneg | apply losses_of_nonneg]. }
  rewrite Hvalues. cbn [mbind res_bind]. now eexists.
Qed.

Lemma macd_Ok (prices : list Q) (fast_period slow_period signal_period : nat) :
  (1 <= fast_period)%nat -> (fast_period <= slow_period)%nat ->
  (1 <= signal_period)%nat ->
  exists r, macd prices fast_period slow_period signal_period = Ok r.
Proof.
  intros Hf Hfs Hs. unfold macd.
  destruct (length prices <? slow_period)%nat eqn:E; [now eexists|].
  apply Nat.ltb_ge in E.
  destruct (exponential_moving_average_Ok prices fast_period Hf) as (fe & Hfe & Lfe).
  destruct (exponential_moving_average_Ok prices slow_period) as (se & Hse & Lse);
    [lia|].
  rewrite Hfe, Hse. cbn [mbind res_bind].
  replace (length prices <? fast_period)%nat with false in Lfe
    by (symmetry; apply Nat.ltb_ge; lia).
  replace (length prices <? slow_period)%nat with false in Lse
    by (symmetry; apply Nat.ltb_ge; lia).
  destruct (mapM_res_Ok
              (fun i : nat =>
                 f ← py_index fe (Z.of_nat i + (Z.of_nat slow_period - Z.of_nat fast_period))%Z;
                 s ← py_index se (Z.of_nat i);
                 Ok (f - s)%Q)
              (seq 0 (length se))) as (line & Hline & Lline).
  { intros i Hi. apply elem_of_seq in Hi.
    destruct (py_index_in_range fe
                (Z.of_nat i + (Z.of_nat slow_period - Z.of_nat fast_period))%Z)
      as [f Hf']; [lia|].
    destruct (py_index_in_range se (Z.of_nat i)) as [s Hs']; [lia|].
    rewrite Hf'. cbn [mbind res_bind]. rewrite Hs'. cbn [mbind res_bind].
    now eexists. }
  rewrite Hline. cbn [mbind res_bind].
  destruct (exponential_moving_average_Ok line signal_period Hs) as (sg & Hsg & Lsg).
  rewrite Hsg. cbn [mbind res_bind].
  destruct (mapM_res_Ok
              (fun i : nat =>
                 m ← py_index line (Z.of_nat i + (Z.of_nat signal_period - 1))%Z;
                 s ← py_index sg (Z.of_nat i);
                 Ok (m - s)%Q)
              (seq 0 (length sg))) as (hist & Hhist & Lhist).
  { intros i Hi. apply elem_of_seq in Hi.
    destruct (length line <? signal_period)%nat eqn:E2.
    { rewrite Lsg in Hi. lia. }
    apply Nat.ltb_ge in E2.
    destruct (py_index_in_range line (Z.of_nat i + (Z.of_nat signal_period - 1))%Z)
      as [m Hm]; [lia|].
    destruct (py_index_in_range sg (Z.of_nat i)) as [s Hs']; [lia|].
    rewrite Hm. cbn [mbind res_bind]. rewrite Hs'. cbn [mbind res_bind].
    now eexists. }
  rewrite Hhist. cbn [mbind res_bind]. now eexists.
Qed.

Lemma bollinger_bands_Ok (np_std : list Q -> Q) (prices : list Q) (period : nat)
    (std_dev : Q) :
  (1 <= period)%nat -> exists r, bollinger_bands np_std prices period std_dev = Ok r.
Proof.
  intros Hp. unfold bollinger_bands.
  destruct (length prices <? period)%nat; [now eexists|].
  destruct (mapM_res_Ok
              (fun i =>
                 let window := slice prices i period in
                 sma ← py_div (py_sum window) (Q_of_nat period);
                 let std := np_std window in
                 Ok ((sma + std_dev * std)%Q, sma, (sma - std_dev * std)%Q))
              (seq 0 (length prices - period + 1))) as (bands & Hb & _).
  { intros i _. cbv zeta.
    rewrite (py_div_Ok _ (Q_of_nat period)) by now apply Q_of_nat_nonzero.
    cbn [mbind res_bind]. now eexists. }
  cbv zeta in Hb. rewrite Hb. cbn [mbind res_bind]. now eexists.
Qed.

Lemma py_max_Ok (l : list Q) : l <> [] -> exists m, py_max l = Ok m.
Proof. destruct l; [congruence|]. intros _. now eexists. Qed.

Lemma py_min_Ok (l : list Q) : l <> [] -> exists m, py_min l = Ok m.
Proof. destruct l; [congruence|]. intros _. now eexists. Qed.

Lemma slice_nonempty {A} (l : list A) (i n : nat) :
  (1 <= n)%nat -> (i + n <= length l)%nat -> slice l i n <> [].
Proof.
  intros Hn Hl E. pose proof (length_slice_full l i n Hl) as L.
  rewrite E in L. cbn in L. lia.
Qed.

Lemma stochastic_k_Ok (high_prices low_prices close_prices : list Q) (k_period i : nat) :
  (1 <= k_period)%nat ->
  length high_prices = length close_prices ->
  length low_prices = length close_prices ->
  (i + k_period <= length close_prices)%nat ->
  exists k, stochastic_k high_prices low_prices close_prices k_period i = Ok k.
Proof.
  intros Hk Hh Hl Hi. unfold stochastic_k.
  destruct (py_max_Ok (slice high_prices i k_period)) as [hh Hhh].
  { apply slice_nonempty; lia. }
  destruct (py_min_Ok (slice low_prices i k_period)) as [ll Hll].
  { apply slice_nonempty; lia. }
  destruct (py_index_in_range close_prices (Z.of_nat i + Z.of_nat k_period - 1)%Z)
    as [c Hc]; [lia|].
  rewrite Hhh. cbn [mbind res_bind]. rewrite Hll. cbn [mbind res_bind].
  rewrite Hc. cbn [mbind res_bind].
  destruct (Qeq_bool (hh - ll) 0) eqn:E; [now eexists|].
  apply Qeq_bool_false in E.
  rewrite (py_div_Ok _ _ E). cbn [mbind res_bind]. now eexists.
Qed.

Lemma stochastic_oscillator_Ok (high_prices low_prices close_prices : list Q)
    (k_period d_period : nat) :
  (1 <= k_period)%nat -> (1 <= d_period)%nat ->
  length high_prices = length close_prices ->
  length low_prices = length close_prices ->
  exists r, stochastic_oscillator high_prices low_prices close_prices
              k_period d_period = Ok r.
Proof.
  intros Hk Hd Hh Hl. unfold stochastic_oscillator.
  destruct (length close_prices <? k_period)%nat eqn:E; [now eexists|].
  apply Nat.ltb_ge in E.
  destruct (mapM_res_Ok
              (stochastic_k high_prices low_prices close_prices k_period)
              (seq 0 (length close_prices - k_period + 1))) as (ks & Hks & _).
  { intros i Hi. apply elem_of_seq in Hi. apply stochastic_k_Ok; try assumption. lia. }
  rewrite Hks. cbn [mbind res_bind].
  destruct (simple_moving_average_Ok ks d_period Hd) as (ds & Hds & _).
  rewrite Hds. cbn [mbind res_bind]. now eexists.
Qed.

(** ** The calculator *)

Lemma length_insert_by_timestamp (x : OHLCV.t) (l : list OHLCV.t) :
  length (insert_by_timestamp x l) = S (length l).
Proof.
  induction l as [|y ys IH]; cbn; [reflexivity|].
  destruct (dt_leb _ _); cbn; [reflexivity | now rewrite IH].
Qed.

Lemma length_sorted_by_timestamp (l : list OHLCV.t) :
  length (sorted_by_timestamp l) = length l.
Proof.
  induction l as [|x l IH]; cbn; [reflexivity|].
  rewrite length_insert_by_timestamp. now rewrite <- IH.
Qed.

Lemma calculator_timestamps_length (ohlcv_data : list OHLCV.t) :
  length (IndicatorCalculator.timestamps (IndicatorCalculator.__init__ ohlcv_data))
  = length ohlcv_data.
Proof. cbn. now rewrite length_map, length_sorted_by_timestamp. Qed.

Lemma calculator_last_timestamp (ohlcv_data : list OHLCV.t) :
  ohlcv_data <> [] ->
  exists ts,
    py_index (IndicatorCalculator.timestamps (IndicatorCalculator.__init__ ohlcv_data))
             (-1) = Ok ts.
Proof.
  intros Hne. apply py_index_last. intros E.
  pose proof (calculator_timestamps_length ohlcv_data) as L. rewrite E in L.
  destruct ohlcv_data; [congruence | cbn in L; lia].
Qed.

Lemma calculator_empty :
  IndicatorCalculator.__init__ []
  = {| IndicatorCalculator.ohlcv_data := [];
       IndicatorCalculator.close_prices := [];
       IndicatorCalculator.high_prices := [];
       IndicatorCalculator.low_prices := [];
       IndicatorCalculator.volumes := [];
       IndicatorCalculator.timestamps := [] |}.
Proof. reflexivity. Qed.

(** On a calculator built from at least one bar, a query with sensible
    windows returns; its result carries each series of the library call in
    full, and the last element of each as the latest value. *)
Lemma run_query_Ok (np_std : list Q -> Q) (ohlcv_data : list OHLCV.t)
    (q : CalculatorQuery) :
  ohlcv_data <> [] -> query_periods_ok q ->
  let self := IndicatorCalculator.__init__ ohlcv_data in
  exists d all_series,
    library_series np_std self q = Ok all_series
    /\ run_query np_std self q = Ok d
    /\ latest_with_series q d all_series.
Proof.
  intros Hne Hq self.
  destruct (calculator_last_timestamp ohlcv_data Hne) as [ts Hts]. fold self in Hts.
  destruct q as [period|period|fast slow sig|period std_dev|k_period d_period];
    cbn [query_periods_ok] in Hq;
    unfold run_query, library_series.
  - destruct (simple_moving_average_Ok (IndicatorCalculator.close_prices self)
                period Hq) as (values & Hv & _).
    unfold calculate_sma. rewrite Hv. cbn [mbind res_bind]. rewrite Hts.
    cbn [mbind res_bind]. eexists. eexists.
    split; [reflexivity|]. split; [reflexivity|]. split; [reflexivity|].
    repeat constructor.
  - destruct (relative_strength_index_Ok (IndicatorCalculator.close_prices self)
                period Hq) as (values & Hv).
    unfold calculate_rsi. rewrite Hv. cbn [mbind res_bind]. rewrite Hts.
    cbn [mbind res_bind]. eexists. eexists.
    split; [reflexivity|]. split; [reflexivity|]. split; [reflexivity|].
    repeat constructor.
  - destruct Hq as (Hf & Hfs & Hs).
    destruct (macd_Ok (IndicatorCalculator.close_prices self) fast slow sig
                Hf Hfs Hs) as (r & Hr).
    unfold calculate_macd. rewrite Hr. cbn [mbind res_bind]. rewrite Hts.
    cbn [mbind res_bind]. eexists. eexists.
    split; [reflexivity|]. split; [reflexivity|]. split; [reflexivity|].
    repeat constructor.
  - destruct (bollinger_bands_Ok np_std (IndicatorCalculator.close_prices self)
                period std_dev Hq) as (r & Hr).
    unfold calculate_bollinger_bands. rewrite Hr. cbn [mbind res_bind]. rewrite Hts.
    cbn [mbind res_bind]. eexists. eexists.
    split; [reflexivity|]. split; [reflexivity|]. split; [reflexivity|].
    repeat constructor.
  - destruct Hq as (Hk & Hd).
    destruct (stochastic_oscillator_Ok
                (IndicatorCalculator.high_prices self)
                (IndicatorCalculator.low_prices self)
                (IndicatorCalculator.close_prices self) k_period d_period Hk Hd)
      as (r & Hr).
    { unfold self. cbn. now rewrite !length_map. }
    { unfold self. cbn. now rewrite !length_map. }
    unfold calculate_stochastic. rewrite Hr. cbn [mbind res_bind]. rewrite Hts.
    cbn [mbind res_bind]. eexists. eexists.
    split; [reflexivity|]. split; [reflexivity|]. split; [reflexivity|].
    repeat constructor.
Qed.

(** On a calculator built from no bar, every query raises. *)
Lemma run_query_empty_raises (np_std : list Q -> Q) (q : CalculatorQuery) :
  exists e, run_query np_std (IndicatorCalculator.__init__ []) q = Raise e.
Proof.
  rewrite calculator_empty.
  destruct q as [period|period|fast slow sig|period std_dev|k_period d_period].
  - destruct period; eexists; reflexivity.
  - destruct period; eexists; reflexivity.
  - destruct slow; [destruct fast|]; eexists; reflexivity.
  - destruct period; eexists; reflexivity.
  - destruct k_period; eexists; reflexivity.
Qed.

(** With sensible windows the library call itself returns empty series on
    no price, and the query raises [IndexError] at [self.timestamps[-1]]. *)
Lemma run_query_empty_IndexError (np_std : list Q -> Q) (q : CalculatorQuery) :
  query_periods_ok q ->
  let self := IndicatorCalculator.__init__ [] in
  run_query np_std self q = Raise IndexError
  /\ exists all_series,
       library_series np_std self q = Ok all_series
       /\ Forall (fun series => series = []) all_series.
Proof.
  intros Hq self. unfold self. rewrite calculator_empty.
  destruct q as [period|period|fast slow sig|period std_dev|k_period d_period];
    cbn [query_periods_ok] in Hq.
  - destruct period; [lia|]. split; [reflexivity|].
    eexists. split; [reflexivity|]. repeat constructor.
  - destruct period; [lia|]. split; [reflexivity|].
    eexists. split; [reflexivity|]. repeat constructor.
  - destruct slow; [lia|]. split; [reflexivity|].
    eexists. split; [reflexivity|]. repeat constructor.
  - destruct period; [lia|]. split; [reflexivity|].
    eexists. split; [reflexivity|]. repeat constructor.
  - destruct k_period; [lia|]. split; [reflexivity|].
    eexists. split; [reflexivity|]. repeat constructor.
Qed.

(** C10: every query of the calculator reads [self.timestamps[-1]].  Built
    from no bar, every query raises; with sensible windows the library call
    behind it returns empty series and the exception is the [IndexError] of
    that read.  Built from at least one bar, every query with sensible
    windows returns. *)
Theorem C10_queries_need_one_bar (np_std : list Q -> Q) (q : CalculatorQuery) :
  (exists e, run_query np_std (IndicatorCalculator.__init__ []) q = Raise e)
  /\ (query_periods_ok q ->
      run_query np_std (IndicatorCalculator.__init__ []) q = Raise IndexError
      /\ exists all_series,
           library_series np_std (IndicatorCalculator.__init__ []) q = Ok all_series
           /\ Forall (fun series => series = []) all_series)
  /\ (forall ohlcv_data,
        ohlcv_data <> [] -> query_periods_ok q ->
        exists d, run_query np_std (IndicatorCalculator.__init__ ohlcv_data) q = Ok d).
Proof.
  split; [apply run_query_empty_raises|].
  split; [apply run_query_empty_IndexError|].
  intros ohlcv_data Hne Hq.
  destruct (run_query_Ok np_std ohlcv_data q Hne Hq) as (d & _ & _ & Hd & _).
  now exists d.
Qed.

Lemma C10_queries_need_one_bar_witness :
  let q := Call_calculate_macd 12 26 9 in
  let np_std := fun _ : list Q => 0%Q in
  query_periods_ok q
  /\ run_query np_std (IndicatorCalculator.__init__ []) q = Raise IndexError
  /\ exists d,
       run_query np_std
         (IndicatorCalculator.__init__ [flat_bar (mk_datetime 2020 0) 100]) q = Ok d.
Proof.
  intros q np_std.
  assert (Hq : query_periods_ok q) by (cbn; lia).
  split; [exact Hq|].
  destruct (C10_queries_need_one_bar np_std q) as (_ & Hempty & Hbars).
  split.
  - exact (proj1 (Hempty Hq)).
  - apply Hbars; [discriminate | exact Hq].
Defined.

(** C5, as stated, fails: no query of the calculator answers for EMA (nor
    for ATR or OBV); those exist as library functions only. *)
Lemma C5_no_query_for_every_family :
  ~ (forall name, name ∈ indicator_families -> exists q, query_name q = name).
Proof.
  intros H. destruct (H "EMA") as [q Hq].
  - apply elem_of_cons. right. apply elem_of_cons. now left.
  - destruct q; discriminate Hq.
Qed.

(** C5, amended: the calculator has a named query for five indicator
    families, SMA, RSI, MACD, Bollinger Bands and Stochastic, and for no
    other.  Built from at least one bar and asked with sensible windows, each
    query returns every series of the library call in full, together with
    the last element of each series as the latest value ([None] while the
    series is empty). *)
Theorem C5_calculator_answers_five_families (np_std : list Q -> Q)
    (ohlcv_data : list OHLCV.t) :
  ohlcv_data <> [] ->
  let self := IndicatorCalculator.__init__ ohlcv_data in
  (forall name, name ∈ calculator_families ->
     exists q, query_name q = name /\ query_periods_ok q)
  /\ (forall q, query_name q ∈ calculator_families)
  /\ (forall q, query_periods_ok q ->
        exists d all_series,
          library_series np_std self q = Ok all_series
          /\ run_query np_std self q = Ok d
          /\ latest_with_series q d all_series).
Proof.
  intros Hne self. split; [|split].
  - intros name Hin. unfold calculator_families in Hin.
    rewrite !elem_of_cons, elem_of_nil in Hin.
    destruct Hin as [->|[->|[->|[->|[->|[]]]]]].
    + exists (Call_calculate_sma 20). split; [reflexivity | cbn; lia].
    + exists (Call_calculate_rsi 14). split; [reflexivity | cbn; lia].
    + exists (Call_calculate_macd 12 26 9). split; [reflexivity | cbn; lia].
    + exists (Call_calculate_bollinger_bands 20 2). split; [reflexivity | cbn; lia].
    + exists (Call_calculate_stochastic 14 3). split; [reflexivity | cbn; lia].
  - intros q. unfold calculator_families.
    destruct q; cbn [query_name]; rewrite !elem_of_cons;
      repeat (first [left; reflexivity | right]).
  - intros q Hq. exact (run_query_Ok np_std ohlcv_data q Hne Hq).
Qed.

Lemma C5_calculator_answers_five_families_witness :
  let np_std := fun _ : list Q => 0%Q in
  let self := IndicatorCalculator.__init__ (bars_from 2020 [10; 11; 12; 13]%Q) in
  exists d all_series,
    library_series np_std self (Call_calculate_sma 3) = Ok all_series
    /\ run_query np_std self (Call_calculate_sma 3) = Ok d
    /\ latest_with_series (Call_calculate_sma 3) d all_series.
Proof.
  intros np_std self.
  assert (Hne : bars_from 2020 [10; 11; 12; 13]%Q <> []) by discriminate.
  assert (Hq : query_periods_ok (Call_calculate_sma 3)) by (cbn; lia).
  exact (proj2 (proj2 (C5_calculator_answers_five_families np_std
                         (bars_from 2020 [10; 11; 12; 13]%Q) Hne))
           (Call_calculate_sma 3) Hq).
Defined.

Example sma_query_on_four_bars :
  exists d,
    run_query (fun _ => 0%Q)
      (IndicatorCalculator.__init__ (bars_from 2020 [10; 11; 12; 13]%Q))
      (Call_calculate_sma 3) = Ok d
    /\ IndicatorData.metadata_floats d "values" = [33 # 3; 36 # 3]%Q
    /\ IndicatorData.value_get d "sma" = Some (36 # 3)%Q.
Proof. eexists. split; [vm_compute; reflexivity|]. split; reflexivity. Qed.

(** ** The multi-indicator vote *)

Lemma multi_decision_BUY (buy_signals sell_signals total_signals : Q) :
  (6 # 10 <= buy_signals / total_signals)%Q ->
  multi_decision buy_signals sell_signals total_signals
  = (BUY, (buy_signals / total_signals)%Q).
Proof.
  intros H. unfold multi_decision. apply Qle_bool_iff in H. now rewrite H.
Qed.

Lemma multi_decision_SELL (buy_signals sell_signals total_signals : Q) :
  (buy_signals / total_signals < 6 # 10)%Q ->
  (6 # 10 <= sell_signals / total_signals)%Q ->
  multi_decision buy_signals sell_signals total_signals
  = (SELL, (sell_signals / total_signals)%Q).
Proof.
  intros Hb Hs. unfold multi_decision.
  apply Qle_bool_false in Hb. apply Qle_bool_iff in Hs. now rewrite Hb, Hs.
Qed.

Lemma multi_decision_NO_SIGNAL (buy_signals sell_signals total_signals : Q) :
  (buy_signals / total_signals < 6 # 10)%Q ->
  (sell_signals / total_signals < 6 # 10)%Q ->
  multi_decision buy_signals sell_signals total_signals = (NO_SIGNAL, 0%Q).
Proof.
  intros Hb Hs. unfold multi_decision.
  apply Qle_bool_false in Hb. apply Qle_bool_false in Hs. now rewrite Hb, Hs.
Qed.

(** The trend vote weighs one half, the three others one; the weights add
    up to three and a half. *)
Lemma multi_votes_total (rsi macd signal_line bb_upper bb_lower sma_20 price : Q) :
  let '(buy_signals, sell_signals, total_signals) :=
    multi_votes rsi macd signal_line bb_upper bb_lower sma_20 price in
  (total_signals == 7 # 2)%Q
  /\ (0 <= buy_signals)%Q /\ (0 <= sell_signals)%Q
  /\ (buy_signals + sell_signals <= total_signals)%Q.
Proof.
  unfold multi_votes.
  destruct (Qle_bool rsi 30); [|destruct (Qle_bool 70 rsi)];
    (destruct (Qlt_bool signal_line macd));
    (destruct (Qle_bool price bb_lower); [|destruct (Qle_bool bb_upper price)]);
    (destruct (Qlt_bool sma_20 price));
    (split; [reflexivity|]); repeat split; vm_compute; discriminate.
Qed.

(** An available value of zero is read as missing. *)
Lemma truthy_zero (x : Q) : (x == 0)%Q -> truthy (Some x) = false.
Proof. intros H. cbn. apply Qeq_bool_iff in H. now rewrite H. Qed.

(** Whenever one of the six values is available and equal to zero, the
    strategy emits nothing, whatever the votes would be. *)
Lemma multi_zero_value_suppresses (np_std : list Q -> Q) (self : StrategySelf.t)
    (calc : IndicatorCalculator.t) (current_data : list OHLCV.t)
    (values : MultiValues) (x : Q) :
  StrategySelf.indicator_calculator self = Some calc ->
  current_data <> [] ->
  multi_values np_std calc = Ok values ->
  Some x ∈ [mv_sma_20 values; mv_rsi values; mv_macd values;
            mv_signal_line values; mv_bb_upper values; mv_bb_lower values] ->
  (x == 0)%Q ->
  MultiIndicatorStrategy_generate_signals np_std self current_data = Ok [].
Proof.
  intros Hcalc Hne Hvalues Hin Hx.
  unfold MultiIndicatorStrategy_generate_signals. rewrite Hcalc.
  destruct (py_index_last current_data Hne) as [last_bar Hlast].
  rewrite Hlast. cbn [mbind res_bind].
  unfold multi_values in Hvalues.
  destruct (calculate_sma calc 20) as [sma_indicator|]; [|discriminate].
  destruct (calculate_rsi calc 14) as [rsi_indicator|]; [|discriminate].
  destruct (calculate_macd calc 12 26 9) as [macd_indicator|]; [|discriminate].
  destruct (calculate_bollinger_bands np_std calc 20 2) as [bb_indicator|];
    [|discriminate].
  cbn [mbind res_bind] in Hvalues |- *.
  injection Hvalues as <-. cbn [mv_sma_20 mv_rsi mv_macd mv_signal_line
                                mv_bb_upper mv_bb_lower] in Hin.
  assert (Hfalse : forallb truthy
                     [IndicatorData.value_get sma_indicator "sma";
                      IndicatorData.value_get rsi_indicator "rsi";
                      IndicatorData.value_get macd_indicator "macd";
                      IndicatorData.value_get macd_indicator "signal";
                      IndicatorData.value_get bb_indicator "upper";
                      IndicatorData.value_get bb_indicator "lower"] = false).
  { destruct (forallb truthy _) eqn:E; [|reflexivity].
    rewrite forallb_forall in E.
    specialize (E (Some x)). rewrite (truthy_zero x Hx) in E.
    assert (Habs : false = true) by (apply E; now apply list_elem_of_In).
    discriminate Habs. }
  rewrite Hfalse. reflexivity.
Qed.

(** C6 does not hold of the code.  On thirty-four closes
    that never rise and end one step below a long flat stretch, all six
    indicator values are available; the RSI is 0 (strongly oversold), the
    MACD is above its signal line, the close is below the lower band and
    below the SMA: three buy votes against half a sell vote, a buy fraction
    of 6/7.  The strategy emits no signal, whatever [numpy.std] returns,
    because the RSI of 0 is read as a missing value. *)
Theorem C6_zero_rsi_suppresses_the_signal :
  (forall np_std,
     MultiIndicatorStrategy_generate_signals np_std declining_self declining_bars
     = Ok [])
  /\ exists calc sma_20 rsi macd signal_line bb_upper bb_lower,
       StrategySelf.indicator_calculator declining_self = Some calc
       /\ multi_values np_std_6 calc
          = Ok {| mv_sma_20 := Some sma_20;
                  mv_rsi := Some rsi;
                  mv_macd := Some macd;
                  mv_signal_line := Some signal_line;
                  mv_bb_upper := Some bb_upper;
                  mv_bb_lower := Some bb_lower |}
       /\ (rsi == 0)%Q
       /\ (signal_line < macd)%Q
       /\ (49 <= bb_lower)%Q
       /\ (49 < sma_20)%Q
       /\ exists buy_signals sell_signals total_signals confidence,
            multi_votes rsi macd signal_line bb_upper bb_lower sma_20 49
            = (buy_signals, sell_signals, total_signals)
            /\ (buy_signals == 3)%Q /\ (sell_signals == 1 # 2)%Q
            /\ (total_signals == 7 # 2)%Q
            /\ multi_decision buy_signals sell_signals total_signals
               = (BUY, confidence)
            /\ (confidence == 6 # 7)%Q.
Proof.
  split.
  { intros np_std. vm_compute. reflexivity. }
  eexists. eexists. eexists. eexists. eexists. eexists. eexists.
  split; [reflexivity|].
  split; [vm_compute; reflexivity|].
  split; [vm_compute; reflexivity|].
  split; [vm_compute; reflexivity|].
  split; [vm_compute; discriminate|].
  split; [vm_compute; reflexivity|].
  eexists. eexists. eexists. eexists.
  split; [vm_compute; reflexivity|].
  split; [vm_compute; reflexivity|].
  split; [vm_compute; reflexivity|].
  split; [vm_compute; reflexivity|].
  split; [vm_compute; reflexivity|].
  vm_compute. reflexivity.
Qed.

(** ** Mark-to-market *)

Lemma foldr_position_values (v : BacktestPosition.t -> Q)
    (F G : string -> BacktestPosition.t -> Q -> Q) (start : Q)
    (l : list (string * BacktestPosition.t)) :
  (forall k p acc, F k p acc = (acc + v p)%Q) ->
  (forall k p acc, G k p acc = (acc + v p)%Q) ->
  (foldr (uncurry F) start l == start + foldr (uncurry G) 0 l)%Q.
Proof.
  intros HF HG. induction l as [|[k p] l IH]; cbn [foldr uncurry].
  - ring.
  - rewrite HF, HG, IH. ring.
Qed.

(** Right after [_update_portfolio_values] the total value is the cash plus
    the holdings at their current price, exactly: the invariant holds at the
    start of every step, before any signal is executed. *)
Lemma mark_to_market_conserves (self : BacktestEngine.t) (current_ohlcv : OHLCV.t) :
  let marked := _update_portfolio_values self current_ohlcv in
  (BacktestEngine.total_value marked
   == BacktestEngine.cash marked + holdings_at_current_price marked)%Q.
Proof.
  intros marked. unfold marked, _update_portfolio_values, holdings_at_current_price,
    add_position_values.
  engine_simpl.
  rewrite map_fold_fmap, !map_fold_foldr.
  apply (foldr_position_values
           (fun p => BacktestPosition.quantity p * OHLCV.close current_ohlcv)%Q);
    reflexivity.
Qed.

(** The other strategies, too, read the bars they are given only through
    the last one. *)
Lemma rsi_signals_use_last_bar_only self (data1 data2 : list OHLCV.t) :
  py_index data1 (-1) = py_index data2 (-1) ->
  RSIStrategy_generate_signals self data1 = RSIStrategy_generate_signals self data2.
Proof.
  intros H. unfold RSIStrategy_generate_signals.
  destruct (StrategySelf.indicator_calculator self); [|reflexivity].
  now rewrite H.
Qed.

Lemma macd_signals_use_last_bar_only self (data1 data2 : list OHLCV.t) :
  py_index data1 (-1) = py_index data2 (-1) ->
  MACDStrategy_generate_signals self data1 = MACDStrategy_generate_signals self data2.
Proof.
  intros H. unfold MACDStrategy_generate_signals.
  destruct (StrategySelf.indicator_calculator self); [|reflexivity].
  now rewrite H.
Qed.

Lemma multi_signals_use_last_bar_only np_std self (data1 data2 : list OHLCV.t) :
  py_index data1 (-1) = py_index data2 (-1) ->
  MultiIndicatorStrategy_generate_signals np_std self data1
  = MultiIndicatorStrategy_generate_signals np_std self data2.
Proof.
  intros H. unfold MultiIndicatorStrategy_generate_signals.
  destruct (StrategySelf.indicator_calculator self); [|reflexivity].
  now rewrite H.
Qed.

(** * Further properties of the indicator library *)

Lemma mapM_res_inv {A B} (f : A -> res B) (l : list A) (k : list B) :
  mapM f l = Ok k -> Forall2 (fun x y => f x = Ok y) l k.
Proof.
  revert k. induction l as [|x l IH]; intros k H.
  - cbn in H. injection H as <-. constructor.
  - cbn in H. destruct (f x) as [y|] eqn:Ey; [|discriminate].
    cbn in H. destruct (mapM f l) as [k'|] eqn:Ek; [|discriminate].
    cbn in H. injection H as <-. constructor; [exact Ey | now apply IH].
Qed.

Lemma mapM_res_elem {A B} (f : A -> res B) (l : list A) (k : list B) (y : B) :
  mapM f l = Ok k -> y ∈ k -> exists x, x ∈ l /\ f x = Ok y.
Proof.
  intros H Hy. apply mapM_res_inv in H.
  apply list_elem_of_lookup in Hy as [i Hi].
  destruct (Forall2_lookup_r _ _ _ _ _ H Hi) as (x & Hx & Hfx).
  exists x. split; [|exact Hfx]. apply list_elem_of_lookup. now exists i.
Qed.

Lemma fold_left_Qplus_bounds (lo hi : Q) (l : list Q) (acc : Q) :
  Forall (fun x => (lo <= x)%Q /\ (x <= hi)%Q) l ->
  (acc + Q_of_nat (length l) * lo <= fold_left Qplus l acc)%Q
  /\ (fold_left Qplus l acc <= acc + Q_of_nat (length l) * hi)%Q.
Proof.
  revert acc. induction l as [|x l IH]; intros acc Hl.
  - cbn [fold_left length]. unfold Q_of_nat. cbn. split; ring_simplify; apply Qle_refl.
  - inversion Hl as [|? ? [Hlo Hhi] Hl']; subst. cbn [fold_left].
    destruct (IH (acc + x)%Q Hl') as [IHlo IHhi].
    assert (HS : (Q_of_nat (length (x :: l)) == Q_of_nat (length l) + 1)%Q).
    { unfold Q_of_nat. cbn [length]. rewrite Nat2Z.inj_succ. unfold Z.succ.
      rewrite inject_Z_plus. reflexivity. }
    rewrite HS. split; lra.
Qed.

Lemma py_sum_bounds (lo hi : Q) (l : list Q) :
  Forall (fun x => (lo <= x)%Q /\ (x <= hi)%Q) l ->
  (Q_of_nat (length l) * lo <= py_sum l)%Q
  /\ (py_sum l <= Q_of_nat (length l) * hi)%Q.
Proof.
  intros H. unfold py_sum.
  destruct (fold_left_Qplus_bounds lo hi l 0 H) as [A B]. split; lra.
Qed.

(** The mean of [n >= 1] values that lie in [[lo, hi]] lies there too. *)
Lemma mean_bounds (lo hi : Q) (l : list Q) (n : nat) :
  (1 <= n)%nat -> length l = n ->
  Forall (fun x => (lo <= x)%Q /\ (x <= hi)%Q) l ->
  (lo <= py_sum l / Q_of_nat n)%Q /\ (py_sum l / Q_of_nat n <= hi)%Q.
Proof.
  intros Hn Hlen Hl. destruct (py_sum_bounds lo hi l Hl) as [A B].
  rewrite Hlen in A, B. pose proof (Q_of_nat_pos n Hn) as Hpos.
  split.
  - apply Qle_shift_div_l; [exact Hpos|]. lra.
  - apply Qle_shift_div_r; [exact Hpos|]. lra.
Qed.

Lemma Forall_slice {A} (P : A -> Prop) (l : list A) (i n : nat) :
  Forall P l -> Forall P (slice l i n).
Proof. intros H. unfold slice. now apply Forall_take, Forall_drop. Qed.

Lemma simple_moving_average_shape (prices : list Q) (period : nat) (lo hi : Q) :
  (1 <= period)%nat ->
  Forall (fun p => (lo <= p)%Q /\ (p <= hi)%Q) prices ->
  exists values,
    simple_moving_average prices period = Ok values
    /\ length values = (if (length prices <? period)%nat then 0
                        else length prices - period + 1)%nat
    /\ Forall (fun v => (lo <= v)%Q /\ (v <= hi)%Q) values.
Proof.
  intros Hp Hb.
  destruct (simple_moving_average_Ok prices period Hp) as (values & Hv & Hlen).
  exists values. split; [exact Hv|]. split; [exact Hlen|].
  unfold simple_moving_average in Hv.
  destruct (length prices <? period)%nat eqn:E.
  { injection Hv as <-. constructor. }
  apply Nat.ltb_ge in E.
  apply Forall_forall. intros v Hin.
  destruct (mapM_res_elem _ _ _ _ Hv Hin) as (i & Hi & Hvi). cbn beta in Hvi.
  apply elem_of_seq in Hi.
  rewrite (py_div_Ok _ (Q_of_nat period)) in Hvi by now apply Q_of_nat_nonzero.
  injection Hvi as <-.
  apply mean_bounds; [exact Hp | apply length_slice_full; lia | now apply Forall_slice].
Qed.

Lemma convex_bounds (lo hi m x y : Q) :
  (0 <= m)%Q -> (m <= 1)%Q ->
  (lo <= x)%Q -> (x <= hi)%Q -> (lo <= y)%Q -> (y <= hi)%Q ->
  (lo <= x * m + y * (1 - m))%Q /\ (x * m + y * (1 - m) <= hi)%Q.
Proof.
  intros Hm0 Hm1 Hx0 Hx1 Hy0 Hy1.
  assert (H1 : (0 <= (x - lo) * m)%Q) by (apply Qmult_le_0_compat; lra).
  assert (H2 : (0 <= (y - lo) * (1 - m))%Q) by (apply Qmult_le_0_compat; lra).
  assert (H3 : (0 <= (hi - x) * m)%Q) by (apply Qmult_le_0_compat; lra).
  assert (H4 : (0 <= (hi - y) * (1 - m))%Q) by (apply Qmult_le_0_compat; lra).
  split.
  - apply Qle_minus_iff.
    setoid_replace (x * m + y * (1 - m) + - lo)%Q
      with ((x - lo) * m + (y - lo) * (1 - m))%Q using relation Qeq by ring.
    lra.
  - apply Qle_minus_iff.
    setoid_replace (hi + - (x * m + y * (1 - m)))%Q
      with ((hi - x) * m + (hi - y) * (1 - m))%Q using relation Qeq by ring.
    lra.
Qed.

Lemma ema_loop_bounds (lo hi m prev : Q) (prices : list Q) :
  (0 <= m)%Q -> (m <= 1)%Q ->
  (lo <= prev)%Q -> (prev <= hi)%Q ->
  Forall (fun p => (lo <= p)%Q /\ (p <= hi)%Q) prices ->
  Forall (fun v => (lo <= v)%Q /\ (v <= hi)%Q) (ema_loop m prev prices).
Proof.
  intros Hm0 Hm1. revert prev.
  induction prices as [|p ps IH]; intros prev Hp0 Hp1 Hall; cbn [ema_loop].
  - constructor.
  - inversion Hall as [|? ? [Hlo Hhi] Hrest]; subst.
    destruct (convex_bounds lo hi m p prev Hm0 Hm1 Hlo Hhi Hp0 Hp1) as [A B].
    constructor; [split; assumption|]. now apply IH.
Qed.

Lemma Q_of_nat_ge_1 (n : nat) : (1 <= n)%nat -> (1 <= Q_of_nat n)%Q.
Proof. intros H. unfold Q_of_nat, Qle. cbn. lia. Qed.

Lemma ema_multiplier_range (period : nat) :
  (1 <= period)%nat ->
  (0 <= 2 / (Q_of_nat period + 1))%Q /\ (2 / (Q_of_nat period + 1) <= 1)%Q.
Proof.
  intros Hp. pose proof (Q_of_nat_ge_1 period Hp) as H1. split.
  - apply Qdiv_nonneg; lra.
  - apply Qle_shift_div_r; lra.
Qed.

Lemma exponential_moving_average_shape (prices : list Q) (period : nat) (lo hi : Q) :
  (1 <= period)%nat ->
  Forall (fun p => (lo <= p)%Q /\ (p <= hi)%Q) prices ->
  exists values,
    exponential_moving_average prices period = Ok values
    /\ length values = (if (length prices <? period)%nat then 0
                        else length prices - period + 1)%nat
    /\ Forall (fun v => (lo <= v)%Q /\ (v <= hi)%Q) values
    /\ ((period <= length prices)%nat ->
        exists sma_values,
          simple_moving_average prices period = Ok sma_values
          /\ head values = head sma_values
          /\ head values = Some (py_sum (take period prices) / Q_of_nat period)%Q).
Proof.
  intros Hp Hb. unfold exponential_moving_average.
  destruct (length prices <? period)%nat eqn:E.
  { exists []. split; [reflexivity|]. split; [reflexivity|].
    split; [constructor|]. intros Hle. apply Nat.ltb_lt in E. lia. }
  apply Nat.ltb_ge in E.
  rewrite (py_div_Ok 2 (Q_of_nat period + 1)).
  2:{ intros Z0. pose proof (Q_of_nat_pos period Hp). lra. }
  cbn [mbind res_bind].
  rewrite (py_div_Ok _ (Q_of_nat period)) by now apply Q_of_nat_nonzero.
  cbn [mbind res_bind]. eexists. split; [reflexivity|].
  destruct (ema_multiplier_range period Hp) as [Hm0 Hm1].
  assert (Hmean : (lo <= py_sum (take period prices) / Q_of_nat period)%Q
                  /\ (py_sum (take period prices) / Q_of_nat period <= hi)%Q).
  { apply mean_bounds; [exact Hp | rewrite length_take; lia | now apply Forall_take]. }
  split; [|split].
  - cbn [length]. rewrite length_ema_loop, length_drop. lia.
  - constructor; [exact Hmean|].
    apply ema_loop_bounds; try assumption; try apply Hmean. now apply Forall_drop.
  - intros _. unfold simple_moving_average.
    replace (length prices <? period)%nat with false
      by (symmetry; apply Nat.ltb_ge; exact E).
    replace (length prices - period + 1)%nat with (S (length prices - period)) by lia.
    cbn [seq].
    destruct (mapM_res_Ok
                (fun i => py_div (py_sum (slice prices i period)) (Q_of_nat period))
                (seq 1 (length prices - period))) as (k & Hk & _).
    { intros i _. eexists. apply py_div_Ok. now apply Q_of_nat_nonzero. }
    cbn [mapM]. rewrite (py_div_Ok _ (Q_of_nat period)) by now apply Q_of_nat_nonzero.
    cbn [mbind res_bind]. cbn [mapM] in Hk. rewrite Hk. cbn [mbind res_bind mret res_ret].
    eexists. split; [reflexivity|]. split; reflexivity.
Qed.

Lemma length_price_changes (prices : list Q) :
  length (price_changes prices) = (length prices - 1)%nat.
Proof.
  induction prices as [|a [|b rest] IH]; [reflexivity | reflexivity |].
  change (price_changes (a :: b :: rest))
    with ((b - a)%Q :: price_changes (b :: rest)).
  cbn [length] in *. rewrite IH. lia.
Qed.

Lemma rsi_value_range (avg_gain avg_loss v : Q) :
  (0 <= avg_gain)%Q -> (0 <= avg_loss)%Q ->
  rsi_value avg_gain avg_loss = Ok v -> (0 <= v)%Q /\ (v <= 100)%Q.
Proof.
  intros Hg Hl. unfold rsi_value.
  destruct (Qeq_bool avg_loss 0) eqn:E.
  { intros H. injection H as <-. split; [discriminate | apply Qle_refl]. }
  apply Qeq_bool_false in E.
  assert (Hpos : (0 < avg_loss)%Q) by lra.
  rewrite (py_div_Ok avg_gain avg_loss) by exact E. cbn [mbind res_bind].
  pose proof (Qdiv_nonneg _ _ Hg Hpos) as Hrs.
  rewrite (py_div_Ok 100 (1 + avg_gain / avg_loss)) by lra.
  cbn [mbind res_bind]. intros H. injection H as <-.
  assert (Hq0 : (0 <= 100 / (1 + avg_gain / avg_loss))%Q)
    by (apply Qdiv_nonneg; lra).
  assert (Hq1 : (100 / (1 + avg_gain / avg_loss) <= 100)%Q)
    by (apply Qle_shift_div_r; lra).
  split; lra.
Qed.

Lemma rsi_loop_length_and_range (period : nat) (avg_gain avg_loss : Q)
    (gl : list (Q * Q)) (values : list Q) :
  (1 <= period)%nat -> (0 <= avg_gain)%Q -> (0 <= avg_loss)%Q ->
  Forall (fun p => (0 <= fst p)%Q /\ (0 <= snd p)%Q) gl ->
  rsi_loop period avg_gain avg_loss gl = Ok values ->
  length values = length gl
  /\ Forall (fun v => (0 <= v)%Q /\ (v <= 100)%Q) values.
Proof.
  intros Hp. revert avg_gain avg_loss values.
  induction gl as [|[gain loss] rest IH]; intros avg_gain avg_loss values Hg Hl Hall H.
  - cbn in H. injection H as <-. split; [reflexivity | constructor].
  - inversion Hall as [|? ? [Hgain Hloss] Hrest]; subst. cbn in Hgain, Hloss.
    cbn [rsi_loop] in H.
    rewrite (py_div_Ok _ (Q_of_nat period)) in H by now apply Q_of_nat_nonzero.
    cbn [mbind res_bind] in H.
    rewrite (py_div_Ok _ (Q_of_nat period)) in H by now apply Q_of_nat_nonzero.
    cbn [mbind res_bind] in H.
    pose proof (wilder_average_nonneg avg_gain gain period Hp Hg Hgain) as Hg'.
    pose proof (wilder_average_nonneg avg_loss loss period Hp Hl Hloss) as Hl'.
    destruct (rsi_value _ _) as [v|] eqn:Ev; [|discriminate].
    cbn [mbind res_bind] in H.
    destruct (rsi_loop period _ _ rest) as [more|] eqn:Em; [|discriminate].
    cbn [mbind res_bind] in H. injection H as <-.
    destruct (IH _ _ _ Hg' Hl' Hrest Em) as [IHlen IHrange].
    split; [cbn; now rewrite IHlen|].
    constructor; [exact (rsi_value_range _ _ _ Hg' Hl' Ev) | exact IHrange].
Qed.

Lemma relative_strength_index_shape (prices : list Q) (period : nat) :
  (1 <= period)%nat ->
  exists values,
    relative_strength_index prices period = Ok values
    /\ length values = (length prices - period)%nat
    /\ Forall (fun v => (0 <= v)%Q /\ (v <= 100)%Q) values.
Proof.
  intros Hp.
  destruct (relative_strength_index_Ok prices period Hp) as [values Hv].
  exists values. split; [exact Hv|].
  unfold relative_strength_index in Hv.
  destruct (length prices <? period + 1)%nat eqn:E.
  { injection Hv as <-. apply Nat.ltb_lt in E. split; [cbn; lia | constructor]. }
  apply Nat.ltb_ge in E. cbv zeta in Hv.
  rewrite (py_div_Ok _ (Q_of_nat period)) in Hv by now apply Q_of_nat_nonzero.
  cbn [mbind res_bind] in Hv.
  rewrite (py_div_Ok _ (Q_of_nat period)) in Hv by now apply Q_of_nat_nonzero.
  cbn [mbind res_bind] in Hv.
  assert (Hg : (0 <= py_sum (take period (gains_of prices)) / Q_of_nat period)%Q).
  { apply Qdiv_nonneg; [|now apply Q_of_nat_pos].
    apply py_sum_nonneg, Forall_take, gains_of_nonneg. }
  assert (Hl : (0 <= py_sum (take period (losses_of prices)) / Q_of_nat period)%Q).
  { apply Qdiv_nonneg; [|now apply Q_of_nat_pos].
    apply py_sum_nonneg, Forall_take, losses_of_nonneg. }
  destruct (rsi_value _ _) as [v|] eqn:Ev; [|discriminate].
  cbn [mbind res_bind] in Hv.
  destruct (rsi_loop period _ _ _) as [more|] eqn:Em; [|discriminate].
  cbn [mbind res_bind] in Hv. injection Hv as <-.
  destruct (rsi_loop_length_and_range period _ _
              (drop period (zip (gains_of prices) (losses_of prices)))
              more Hp Hg Hl) as [Hlen Hrange]; [|exact Em|].
  { apply Forall_drop, Forall_zip_nonneg;
      [apply gains_of_nonneg | apply losses_of_nonneg]. }
  split.
  - cbn [length]. rewrite Hlen, length_drop, length_zip.
    unfold gains_of, losses_of. rewrite !length_map, length_price_changes. lia.
  - constructor; [exact (rsi_value_range _ _ _ Hg Hl Ev) | exact Hrange].
Qed.

Lemma py_index_nonneg_lookup {A} (l : list A) (i : Z) (x : A) :
  (0 <= i)%Z -> py_index l i = Ok x -> l !! Z.to_nat i = Some x.
Proof.
  intros Hi. unfold py_index.
  destruct (i <? 0)%Z eqn:E; [apply Z.ltb_lt in E; lia|].
  destruct (_ || _)%bool; [discriminate|].
  destruct (l !! Z.to_nat i); [|discriminate]. now intros [= ->].
Qed.

Lemma macd_shape (prices : list Q)
    (fast_period slow_period signal_period : nat) :
  (1 <= fast_period)%nat -> (fast_period <= slow_period)%nat ->
  (1 <= signal_period)%nat ->
  exists r,
    macd prices fast_period slow_period signal_period = Ok r
    /\ length (macd_line r) = (if (length prices <? slow_period)%nat then 0
                              else length prices - slow_period + 1)%nat
    /\ length (signal_line r)
       = (if (length (macd_line r) <? signal_period)%nat then 0
          else length (macd_line r) - signal_period + 1)%nat
    /\ length (histogram r) = length (signal_line r)
    /\ forall h m s,
         last (histogram r) = Some h -> last (macd_line r) = Some m ->
         last (signal_line r) = Some s -> h = (m - s)%Q.
Proof.
  intros Hf Hfs Hs. unfold macd.
  destruct (length prices <? slow_period)%nat eqn:E.
  { eexists. split; [reflexivity|]. cbn. split; [reflexivity|].
    split; [now destruct signal_period|]. split; [reflexivity|]. discriminate. }
  apply Nat.ltb_ge in E.
  destruct (exponential_moving_average_Ok prices fast_period Hf) as (fe & Hfe & Lfe).
  destruct (exponential_moving_average_Ok prices slow_period) as (se & Hse & Lse);
    [lia|].
  rewrite Hfe, Hse. cbn [mbind res_bind].
  replace (length prices <? fast_period)%nat with false in Lfe
    by (symmetry; apply Nat.ltb_ge; lia).
  replace (length prices <? slow_period)%nat with false in Lse
    by (symmetry; apply Nat.ltb_ge; lia).
  destruct (mapM_res_Ok
              (fun i : nat =>
                 f ← py_index fe (Z.of_nat i + (Z.of_nat slow_period - Z.of_nat fast_period))%Z;
                 s ← py_index se (Z.of_nat i);
                 Ok (f - s)%Q)
              (seq 0 (length se))) as (line & Hline & Lline).
  { intros i Hi. apply elem_of_seq in Hi.
    destruct (py_index_in_range fe
                (Z.of_nat i + (Z.of_nat slow_period - Z.of_nat fast_period))%Z)
      as [f Hf']; [lia|].
    destruct (py_index_in_range se (Z.of_nat i)) as [s Hs']; [lia|].
    rewrite Hf'. cbn [mbind res_bind]. rewrite Hs'. cbn [mbind res_bind].
    now eexists. }
  rewrite Hline. cbn [mbind res_bind].
  destruct (exponential_moving_average_Ok line signal_period Hs) as (sg & Hsg & Lsg).
  rewrite Hsg. cbn [mbind res_bind].
  destruct (mapM_res_Ok
              (fun i : nat =>
                 m ← py_index line (Z.of_nat i + (Z.of_nat signal_period - 1))%Z;
                 s ← py_index sg (Z.of_nat i);
                 Ok (m - s)%Q)
              (seq 0 (length sg))) as (hist & Hhist & Lhist).
  { intros i Hi. apply elem_of_seq in Hi.
    destruct (length line <? signal_period)%nat eqn:E2.
    { rewrite Lsg in Hi. lia. }
    apply Nat.ltb_ge in E2.
    destruct (py_index_in_range line (Z.of_nat i + (Z.of_nat signal_period - 1))%Z)
      as [m Hm]; [lia|].
    destruct (py_index_in_range sg (Z.of_nat i)) as [s Hs']; [lia|].
    rewrite Hm. cbn [mbind res_bind]. rewrite Hs'. cbn [mbind res_bind].
    now eexists. }
  rewrite Hhist. cbn [mbind res_bind]. eexists. split; [reflexivity|].
  cbn [macd_line signal_line histogram].
  rewrite length_seq in Lline, Lhist.
  split; [lia|]. split; [exact Lsg|]. split; [exact Lhist|].
  intros h m s Hh Hm Hsg'.
  rewrite last_lookup in Hh, Hm, Hsg'.
  apply mapM_res_inv in Hhist.
  destruct (Forall2_lookup_r _ _ _ _ _ Hhist Hh) as (i & Hi & Hgi).
  apply lookup_seq in Hi as [-> Hi]. cbn [Nat.add] in Hgi.
  rewrite Lhist in Hgi, Hi.
  destruct (length line <? signal_period)%nat eqn:E2; [rewrite Lsg in Hi; lia|].
  apply Nat.ltb_ge in E2.
  destruct (py_index line _) as [m'|] eqn:Em; [|discriminate].
  cbn [mbind res_bind] in Hgi.
  destruct (py_index sg _) as [s'|] eqn:Es; [|discriminate].
  cbn [mbind res_bind] in Hgi. injection Hgi as <-.
  apply py_index_nonneg_lookup in Em; [|lia].
  apply py_index_nonneg_lookup in Es; [|lia].
  rewrite Nat2Z.id in Es.
  replace (Z.to_nat (Z.of_nat (pred (length sg)) + (Z.of_nat signal_period - 1)))
    with (pred (length line)) in Em by lia.
  congruence.
Qed.

Lemma macd_signal_is_ema (prices : list Q)
    (fast_period slow_period signal_period : nat) (r : MacdResult) :
  (1 <= signal_period)%nat ->
  macd prices fast_period slow_period signal_period = Ok r ->
  exponential_moving_average (macd_line r) signal_period = Ok (signal_line r).
Proof.
  intros Hsp. unfold macd. destruct (length prices <? slow_period)%nat.
  - intros [= <-]. cbn [macd_line signal_line].
    destruct signal_period; [lia | reflexivity].
  - match goal with
    | |- (mbind _ ?m = Ok _) -> _ =>
        destruct m as [fast_ema|]; cbn [mbind res_bind]; [|discriminate]
    end.
    match goal with
    | |- (mbind _ ?m = Ok _) -> _ =>
        destruct m as [slow_ema|]; cbn [mbind res_bind]; [|discriminate]
    end.
    cbv zeta.
    match goal with
    | |- (mbind _ ?m = Ok _) -> _ =>
        destruct m as [line|]; cbn [mbind res_bind]; [|discriminate]
    end.
    match goal with
    | |- (mbind _ ?m = Ok _) -> _ =>
        destruct m as [sig|] eqn:Esig; cbn [mbind res_bind]; [|discriminate]
    end.
    cbv zeta.
    match goal with
    | |- (mbind _ ?m = Ok _) -> _ =>
        destruct m as [hist|]; cbn [mbind res_bind]; [|discriminate]
    end.
    intros [= <-]. exact Esig.
Qed.

(** MACD: with windows [1 <= fast <= slow] and [1 <= signal] the call
    returns; the MACD line has [len - slow + 1] values, the signal line is
    the EMA of the MACD line over the signal window and so has
    [len(macd) - signal + 1] values (each empty while the input is too
    short), the histogram is as long as the signal line, and the latest
    histogram value is the latest MACD value minus the latest signal value. *)
Theorem macd_lengths_and_latest_histogram (prices : list Q)
    (fast_period slow_period signal_period : nat) :
  (1 <= fast_period)%nat -> (fast_period <= slow_period)%nat ->
  (1 <= signal_period)%nat ->
  exists r,
    macd prices fast_period slow_period signal_period = Ok r
    /\ length (macd_line r) = (if (length prices <? slow_period)%nat then 0
                              else length prices - slow_period + 1)%nat
    /\ exponential_moving_average (macd_line r) signal_period = Ok (signal_line r)
    /\ length (signal_line r)
       = (if (length (macd_line r) <? signal_period)%nat then 0
          else length (macd_line r) - signal_period + 1)%nat
    /\ length (histogram r) = length (signal_line r)
    /\ forall h m s,
         last (histogram r) = Some h -> last (macd_line r) = Some m ->
         last (signal_line r) = Some s -> h = (m - s)%Q.
Proof.
  intros Hf Hfs Hsp.
  destruct (macd_shape prices fast_period slow_period signal_period Hf Hfs Hsp)
    as (r & Hr & L1 & L2 & L3 & Hlast).
  exists r. split; [exact Hr|]. split; [exact L1|].
  split; [exact (macd_signal_is_ema _ _ _ _ _ Hsp Hr)|].
  split; [exact L2|]. split; [exact L3 | exact Hlast].
Qed.

Lemma macd_lengths_and_latest_histogram_witness :
  exists r,
    macd (map (fun i => inject_Z (Z.of_nat i)) (seq 10 40)) 12 26 9 = Ok r
    /\ length (macd_line r) = 15%nat
    /\ exponential_moving_average (macd_line r) 9 = Ok (signal_line r)
    /\ length (signal_line r) = 7%nat
    /\ length (histogram r) = 7%nat.
Proof.
  destruct (macd_lengths_and_latest_histogram
              (map (fun i => inject_Z (Z.of_nat i)) (seq 10 40)) 12 26 9)
    as (r & Hr & L1 & He & L2 & L3 & _); [lia | lia | lia |].
  exists r. split; [exact Hr|].
  assert (E1 : length (macd_line r) = 15%nat) by exact L1.
  rewrite E1 in L2. cbn in L2. rewrite L2 in L3. auto.
Defined.

Lemma mapM_res_project {A B C} (g : A -> res B) (h : A -> B -> C) (p : C -> B)
    (l : list A) (k : list C) :
  (forall x b, p (h x b) = b) ->
  mapM (fun x => b ← g x; Ok (h x b)) l = Ok k ->
  mapM g l = Ok (map p k).
Proof.
  intros Hp. revert k. induction l as [|x l IH]; intros k H.
  - cbn in H. injection H as <-. reflexivity.
  - cbn in H |- *. destruct (g x) as [b|]; [|discriminate]. cbn in H |- *.
    destruct (mapM (fun x => b ← g x; Ok (h x b)) l) as [k'|] eqn:E; [|discriminate].
    cbn in H. injection H as <-. rewrite (IH k' eq_refl). cbn.
    now rewrite Hp.
Qed.

Lemma bollinger_bands_exact (np_std : list Q -> Q) (prices : list Q)
    (period : nat) (std_dev : Q) :
  (1 <= period)%nat ->
  exists r,
    bollinger_bands np_std prices period std_dev = Ok r
    /\ simple_moving_average prices period = Ok (middle r)
    /\ length (upper r) = length (middle r)
    /\ length (lower r) = length (middle r)
    /\ forall i u m l,
         upper r !! i = Some u -> middle r !! i = Some m -> lower r !! i = Some l ->
         (u + l == 2 * m)%Q
         /\ ((0 <= std_dev)%Q -> (forall window, (0 <= np_std window)%Q) ->
             (l <= m)%Q /\ (m <= u)%Q).
Proof.
  intros Hp.
  destruct (bollinger_bands_Ok np_std prices period std_dev Hp) as (r & Hr).
  exists r. split; [exact Hr|].
  unfold bollinger_bands in Hr. unfold simple_moving_average.
  destruct (length prices <? period)%nat.
  { injection Hr as <-. cbn. repeat split; try reflexivity.
    all: rewrite lookup_nil in *; discriminate. }
  destruct (mapM _ _) as [bands|] eqn:Eb in Hr; [|discriminate].
  cbn [mbind res_bind] in Hr. injection Hr as <-. cbn [upper middle lower].
  split.
  { apply (mapM_res_project
             (fun i => py_div (py_sum (slice prices i period)) (Q_of_nat period))
             (fun i sma =>
                ((sma + std_dev * np_std (slice prices i period))%Q, sma,
                 (sma - std_dev * np_std (slice prices i period))%Q))
             (fun b => snd (fst b))); [reflexivity | exact Eb]. }
  split; [now rewrite !length_map|]. split; [now rewrite !length_map|].
  intros i u m l Hu Hm Hl.
  rewrite list_lookup_fmap in Hu, Hm, Hl.
  destruct (bands !! i) as [[[u' m'] l']|] eqn:Ebi; [|discriminate].
  cbn in Hu, Hm, Hl. injection Hu as <-. injection Hm as <-. injection Hl as <-.
  apply mapM_res_inv in Eb.
  destruct (Forall2_lookup_r _ _ _ _ _ Eb Ebi) as (x & _ & Hx). cbv zeta in Hx.
  destruct (py_div _ _) as [sma|]; [|discriminate].
  cbn [mbind res_bind] in Hx. injection Hx as <- <- <-.
  split; [ring|].
  intros Hk Hstd. specialize (Hstd (slice prices x period)).
  pose proof (Qmult_le_0_compat _ _ Hk Hstd). split; lra.
Qed.

(** Bollinger bands: for a window of at least one price the call returns
    three series of equal length, and the middle band is the SMA of the same
    window.  With a non-negative width factor, a non-negative standard
    deviation and prices of a magnitude the float arithmetic handles without
    overflow, the bands are ordered at every index: lower, middle, upper. *)
Theorem bollinger_bands_shape (np_std : list Q -> Q) (prices : list Q)
    (period : nat) (std_dev : Q) :
  (1 <= period)%nat ->
  exists r,
    bollinger_bands np_std prices period std_dev = Ok r
    /\ simple_moving_average prices period = Ok (middle r)
    /\ length (upper r) = length (middle r)
    /\ length (lower r) = length (middle r)
    /\ ((0 <= std_dev)%Q -> (forall window, (0 <= np_std window)%Q) ->
        Forall float_safe prices ->
        forall i u m l,
          upper r !! i = Some u -> middle r !! i = Some m ->
          lower r !! i = Some l ->
          (l <= m)%Q /\ (m <= u)%Q).
Proof.
  intros Hp.
  destruct (bollinger_bands_exact np_std prices period std_dev Hp)
    as (r & Hr & Hm & Lu & Ll & Hb).
  exists r. split; [exact Hr|]. split; [exact Hm|]. split; [exact Lu|].
  split; [exact Ll|].
  intros Hs Hn _ i u m l Hu Hm' Hl.
  exact (proj2 (Hb i u m l Hu Hm' Hl) Hs Hn).
Qed.

Lemma bollinger_bands_shape_witness :
  exists r,
    bollinger_bands np_std_6 [10; 12; 14; 16]%Q 2 2 = Ok r
    /\ simple_moving_average [10; 12; 14; 16]%Q 2 = Ok (middle r)
    /\ length (upper r) = length (middle r).
Proof.
  destruct (bollinger_bands_shape np_std_6 [10; 12; 14; 16]%Q 2 2)
    as (r & Hr & Hm & Lu & _); [lia|].
  exists r. split; [exact Hr|]. split; [exact Hm | exact Lu].
Defined.

Lemma fold_left_max_ge (xs : list Q) (x0 : Q) :
  let m := fold_left (fun m y => if Qlt_le_dec m y then y else m) xs x0 in
  (x0 <= m)%Q /\ forall y, y ∈ xs -> (y <= m)%Q.
Proof.
  revert x0. induction xs as [|x xs IH]; intros x0; cbn [fold_left].
  - split; [apply Qle_refl|]. intros y Hy. now apply elem_of_nil in Hy.
  - destruct (Qlt_le_dec x0 x) as [Hlt|Hle].
    + destruct (IH x) as [A B]. split; [lra|].
      intros y Hy. apply elem_of_cons in Hy as [->|Hy]; [exact A | now apply B].
    + destruct (IH x0) as [A B]. split; [exact A|].
      intros y Hy. apply elem_of_cons in Hy as [->|Hy]; [lra | now apply B].
Qed.

Lemma fold_left_min_le (xs : list Q) (x0 : Q) :
  let m := fold_left (fun m y => if Qlt_le_dec y m then y else m) xs x0 in
  (m <= x0)%Q /\ forall y, y ∈ xs -> (m <= y)%Q.
Proof.
  revert x0. induction xs as [|x xs IH]; intros x0; cbn [fold_left].
  - split; [apply Qle_refl|]. intros y Hy. now apply elem_of_nil in Hy.
  - destruct (Qlt_le_dec x x0) as [Hlt|Hle].
    + destruct (IH x) as [A B]. split; [lra|].
      intros y Hy. apply elem_of_cons in Hy as [->|Hy]; [exact A | now apply B].
    + destruct (IH x0) as [A B]. split; [exact A|].
      intros y Hy. apply elem_of_cons in Hy as [->|Hy]; [lra | now apply B].
Qed.

Lemma py_max_ge (l : list Q) (m y : Q) : py_max l = Ok m -> y ∈ l -> (y <= m)%Q.
Proof.
  destruct l as [|x xs]; [discriminate|]. cbn [py_max]. intros [= <-] Hy.
  destruct (fold_left_max_ge xs x) as [A B].
  apply elem_of_cons in Hy as [->|Hy]; [exact A | now apply B].
Qed.

Lemma py_min_le (l : list Q) (m y : Q) : py_min l = Ok m -> y ∈ l -> (m <= y)%Q.
Proof.
  destruct l as [|x xs]; [discriminate|]. cbn [py_min]. intros [= <-] Hy.
  destruct (fold_left_min_le xs x) as [A B].
  apply elem_of_cons in Hy as [->|Hy]; [exact A | now apply B].
Qed.

Lemma slice_elem {A} (l : list A) (i n j : nat) (x : A) :
  (i <= j)%nat -> (j < i + n)%nat -> l !! j = Some x -> x ∈ slice l i n.
Proof.
  intros H1 H2 Hx. unfold slice. apply list_elem_of_lookup. exists (j - i)%nat.
  rewrite lookup_take_lt by lia. rewrite lookup_drop.
  now replace (i + (j - i))%nat with j by lia.
Qed.

(** One [%K] value lies between 0 and 100 when, on the bar the window ends
    with, the close lies between the low and the high. *)
Lemma stochastic_k_range (high_prices low_prices close_prices : list Q)
    (k_period i : nat) (k h l c : Q) :
  (1 <= k_period)%nat ->
  high_prices !! (i + k_period - 1)%nat = Some h ->
  low_prices !! (i + k_period - 1)%nat = Some l ->
  close_prices !! (i + k_period - 1)%nat = Some c ->
  (l <= c)%Q -> (c <= h)%Q ->
  stochastic_k high_prices low_prices close_prices k_period i = Ok k ->
  (0 <= k)%Q /\ (k <= 100)%Q.
Proof.
  intros Hk Hh Hl Hc Hlc Hch. unfold stochastic_k.
  destruct (py_max _) as [hh|] eqn:Emax; [|discriminate]. cbn [mbind res_bind].
  destruct (py_min _) as [ll|] eqn:Emin; [|discriminate]. cbn [mbind res_bind].
  destruct (py_index close_prices _) as [c'|] eqn:Ec; [|discriminate].
  cbn [mbind res_bind].
  apply py_index_nonneg_lookup in Ec; [|lia].
  replace (Z.to_nat (Z.of_nat i + Z.of_nat k_period - 1)) with (i + k_period - 1)%nat
    in Ec by lia.
  assert (c' = c) by congruence. subst c'.
  assert (Hhh : (h <= hh)%Q).
  { apply (py_max_ge _ _ _ Emax). apply (slice_elem _ _ _ (i + k_period - 1)); [lia|lia|exact Hh]. }
  assert (Hll : (ll <= l)%Q).
  { apply (py_min_le _ _ _ Emin). apply (slice_elem _ _ _ (i + k_period - 1)); [lia|lia|exact Hl]. }
  destruct (Qeq_bool (hh - ll) 0) eqn:E.
  { intros [= <-]. split; vm_compute; discriminate. }
  apply Qeq_bool_false in E.
  rewrite (py_div_Ok _ _ E). cbn [mbind res_bind]. intros [= <-].
  assert (Hpos : (0 < hh - ll)%Q) by lra.
  assert (H0 : (0 <= (c - ll) / (hh - ll))%Q) by (apply Qdiv_nonneg; lra).
  assert (H1 : ((c - ll) / (hh - ll) <= 1)%Q) by (apply Qle_shift_div_r; lra).
  split; lra.
Qed.

Lemma stochastic_oscillator_range (high_prices low_prices close_prices : list Q)
    (k_period d_period : nat) :
  (1 <= k_period)%nat -> (1 <= d_period)%nat ->
  length high_prices = length close_prices ->
  length low_prices = length close_prices ->
  (forall j h l c,
     high_prices !! j = Some h -> low_prices !! j = Some l ->
     close_prices !! j = Some c -> (l <= c)%Q /\ (c <= h)%Q) ->
  exists r,
    stochastic_oscillator high_prices low_prices close_prices k_period d_period = Ok r
    /\ length (k_values r) = (if (length close_prices <? k_period)%nat then 0
                             else length close_prices - k_period + 1)%nat
    /\ Forall (fun v => (0 <= v)%Q /\ (v <= 100)%Q) (k_values r)
    /\ Forall (fun v => (0 <= v)%Q /\ (v <= 100)%Q) (d_values r).
Proof.
  intros Hk Hd Hlh Hll Hbars. unfold stochastic_oscillator.
  destruct (length close_prices <? k_period)%nat eqn:E.
  { eexists. split; [reflexivity|]. cbn. repeat split; constructor. }
  apply Nat.ltb_ge in E.
  destruct (mapM_res_Ok
              (stochastic_k high_prices low_prices close_prices k_period)
              (seq 0 (length close_prices - k_period + 1))) as (ks & Hks & Lks).
  { intros i Hi. apply elem_of_seq in Hi. apply stochastic_k_Ok; try assumption. lia. }
  rewrite Hks. cbn [mbind res_bind].
  assert (Hrange : Forall (fun v => (0 <= v)%Q /\ (v <= 100)%Q) ks).
  { apply Forall_forall. intros k Hin.
    destruct (mapM_res_elem _ _ _ _ Hks Hin) as (i & Hi & Hki).
    apply elem_of_seq in Hi.
    destruct (lookup_lt_is_Some_2 high_prices (i + k_period - 1)) as [h Hh]; [lia|].
    destruct (lookup_lt_is_Some_2 low_prices (i + k_period - 1)) as [l Hl]; [lia|].
    destruct (lookup_lt_is_Some_2 close_prices (i + k_period - 1)) as [c Hc]; [lia|].
    destruct (Hbars _ _ _ _ Hh Hl Hc) as [Hlc Hch].
    exact (stochastic_k_range _ _ _ _ _ _ _ _ _ Hk Hh Hl Hc Hlc Hch Hki). }
  destruct (simple_moving_average_shape ks d_period 0 100 Hd Hrange) as (ds & Hds & _ & Hdr).
  rewrite Hds. cbn [mbind res_bind]. eexists. split; [reflexivity|].
  cbn [k_values d_values]. rewrite length_seq in Lks.
  split; [exact Lks|]. split; [exact Hrange | exact Hdr].
Qed.

(** Stochastic oscillator: on three price lists of one length in which every
    close lies between its bar's low and high, with highs and lows of a
    magnitude the float arithmetic handles without overflow and windows of
    at least one bar, the call returns [len - k_period + 1] values of [%K]
    (none while the input is shorter than the window), and every [%K] and
    every [%D] value lies between 0 and 100. *)
Theorem stochastic_length_and_range (high_prices low_prices close_prices : list Q)
    (k_period d_period : nat) :
  (1 <= k_period)%nat -> (1 <= d_period)%nat ->
  length high_prices = length close_prices ->
  length low_prices = length close_prices ->
  Forall float_safe high_prices -> Forall float_safe low_prices ->
  (forall j h l c,
     high_prices !! j = Some h -> low_prices !! j = Some l ->
     close_prices !! j = Some c -> (l <= c)%Q /\ (c <= h)%Q) ->
  exists r,
    stochastic_oscillator high_prices low_prices close_prices k_period d_period = Ok r
    /\ length (k_values r) = (if (length close_prices <? k_period)%nat then 0
                             else length close_prices - k_period + 1)%nat
    /\ Forall (fun v => (0 <= v)%Q /\ (v <= 100)%Q) (k_values r)
    /\ Forall (fun v => (0 <= v)%Q /\ (v <= 100)%Q) (d_values r).
Proof.
  intros Hk Hd Hlh Hll _ _ Hbars.
  exact (stochastic_oscillator_range high_prices low_prices close_prices
           k_period d_period Hk Hd Hlh Hll Hbars).
Qed.

Lemma stochastic_length_and_range_witness :
  exists r,
    stochastic_oscillator [12; 13; 15]%Q [9; 11; 12]%Q [10; 12; 14]%Q 2 1 = Ok r
    /\ length (k_values r) = 2%nat
    /\ Forall (fun v => (0 <= v)%Q /\ (v <= 100)%Q) (k_values r).
Proof.
  destruct (stochastic_length_and_range [12; 13; 15]%Q [9; 11; 12]%Q [10; 12; 14]%Q 2 1)
    as (r & Hr & L & K & _); [lia | lia | reflexivity | reflexivity | | | |].
  - repeat constructor; vm_compute; discriminate.
  - repeat constructor; vm_compute; discriminate.
  - intros [|[|[|j]]] h l c Hh Hl Hc; cbn in Hh, Hl, Hc;
      try discriminate; injection Hh as <-; injection Hl as <-; injection Hc as <-;
      split; vm_compute; discriminate.
  - exists r. split; [exact Hr|]. split; [exact L | exact K].
Defined.

Lemma list_upper_bound (l : list Q) : exists hi, Forall (fun x => (x <= hi)%Q) l.
Proof.
  induction l as [|x l [hi IH]].
  - exists 0%Q. constructor.
  - exists (Qmax x hi). constructor; [apply Q.le_max_l|].
    eapply Forall_impl; [exact IH|]. intros y Hy. cbn in Hy.
    pose proof (Q.le_max_r x hi). lra.
Qed.

Lemma true_range_nonneg (high_prices low_prices close_prices : list Q) (i : nat)
    (tr : Q) :
  true_range high_prices low_prices close_prices i = Ok tr -> (0 <= tr)%Q.
Proof.
  unfold true_range.
  destruct (py_index high_prices _) as [h|]; [|discriminate]. cbn [mbind res_bind].
  destruct (py_index low_prices _) as [l|]; [|discriminate]. cbn [mbind res_bind].
  destruct (py_index close_prices _) as [c|]; [|discriminate]. cbn [mbind res_bind].
  intros [= <-].
  eapply Qle_trans; [apply (Qabs_nonneg (l - c))|].
  apply Q.le_max_r.
Qed.

(** ATR: on three price lists of one length, for a period of at least one,
    the call returns [len - period] values (none while there are fewer than
    [period + 1] bars), and none of them is negative, even on bars whose high
    is below their low. *)
Theorem atr_length_and_nonneg (high_prices low_prices close_prices : list Q)
    (period : nat) :
  (1 <= period)%nat ->
  length high_prices = length close_prices ->
  length low_prices = length close_prices ->
  exists values,
    average_true_range high_prices low_prices close_prices period = Ok values
    /\ length values = (length close_prices - period)%nat
    /\ Forall (fun v => (0 <= v)%Q) values.
Proof.
  intros Hp Hlh Hll. unfold average_true_range.
  destruct (length close_prices <? period + 1)%nat eqn:E.
  { apply Nat.ltb_lt in E. exists []. split; [reflexivity|].
    split; [cbn; lia | constructor]. }
  apply Nat.ltb_ge in E.
  destruct (mapM_res_Ok
              (true_range high_prices low_prices close_prices)
              (seq 1 (length close_prices - 1))) as (trs & Htrs & Ltrs).
  { intros i Hi. apply elem_of_seq in Hi. unfold true_range.
    destruct (py_index_in_range high_prices (Z.of_nat i)) as [h Hh]; [lia|].
    destruct (py_index_in_range low_prices (Z.of_nat i)) as [l Hl]; [lia|].
    destruct (py_index_in_range close_prices (Z.of_nat i - 1)) as [c Hc]; [lia|].
    rewrite Hh. cbn [mbind res_bind]. rewrite Hl. cbn [mbind res_bind].
    rewrite Hc. cbn [mbind res_bind]. now eexists. }
  rewrite Htrs. cbn [mbind res_bind]. rewrite length_seq in Ltrs.
  assert (Hnn : Forall (fun v => (0 <= v)%Q) trs).
  { apply Forall_forall. intros tr Hin.
    destruct (mapM_res_elem _ _ _ _ Htrs Hin) as (i & _ & Hi).
    exact (true_range_nonneg _ _ _ _ _ Hi). }
  destruct (list_upper_bound trs) as [hi Hhi].
  destruct (exponential_moving_average_shape trs period 0 hi Hp) as (values & Hv & Lv & Bv & _).
  { apply Forall_forall. intros x Hx. split.
    - exact (proj1 (Forall_forall _ _) Hnn x Hx).
    - exact (proj1 (Forall_forall _ _) Hhi x Hx). }
  exists values. split; [exact Hv|]. split.
  - rewrite Lv, Ltrs.
    replace (length close_prices - 1 <? period)%nat with false
      by (symmetry; apply Nat.ltb_ge; lia).
    lia.
  - eapply Forall_impl; [exact Bv|]. intros v [Hv0 _]. exact Hv0.
Qed.

Lemma atr_length_and_nonneg_witness :
  exists values,
    average_true_range [12; 13; 15]%Q [9; 11; 12]%Q [10; 12; 14]%Q 1 = Ok values
    /\ length values = 2%nat
    /\ Forall (fun v => (0 <= v)%Q) values.
Proof.
  apply (atr_length_and_nonneg [12; 13; 15]%Q [9; 11; 12]%Q [10; 12; 14]%Q 1);
    [lia | reflexivity | reflexivity].
Defined.

(** *** Lengths and signs of the moving averages, range of the RSI *)

Lemma list_bounds (l : list Q) :
  exists lo hi, Forall (fun x => (lo <= x)%Q /\ (x <= hi)%Q) l.
Proof.
  induction l as [|a l (lo & hi & IH)].
  - exists 0%Q, 0%Q. constructor.
  - exists (Qmin a lo), (Qmax a hi). constructor.
    + split; [apply Q.le_min_l | apply Q.le_max_l].
    + eapply Forall_impl; [exact IH|]. cbn beta. intros x [A B]. split.
      * eapply Qle_trans; [apply Q.le_min_r | exact A].
      * eapply Qle_trans; [exact B | apply Q.le_max_r].
Qed.

Lemma nonneg_with_upper_bound (l : list Q) :
  Forall (fun x => (0 <= x)%Q) l ->
  exists hi, Forall (fun x => (0 <= x)%Q /\ (x <= hi)%Q) l.
Proof.
  intros Hnn. destruct (list_upper_bound l) as (hi & Hhi). exists hi.
  apply Forall_forall. intros x Hx.
  rewrite Forall_forall in Hnn, Hhi. split; [now apply Hnn | now apply Hhi].
Qed.

Lemma simple_moving_average_period_zero (prices : list Q) :
  simple_moving_average prices 0 = Raise ZeroDivisionError.
Proof.
  unfold simple_moving_average. rewrite Nat.sub_0_r, Nat.add_1_r. reflexivity.
Qed.

Lemma exponential_moving_average_period_zero (prices : list Q) :
  exponential_moving_average prices 0 = Raise ZeroDivisionError.
Proof. reflexivity. Qed.

(** SMA: a window of zero prices is refused with [ZeroDivisionError].  For a
    window of at least one price the call returns one value per full window
    ([len - period + 1] of them, none while the input is shorter than the
    window), and none of the values is negative when no price is. *)
Theorem sma_one_value_per_window (prices : list Q) (period : nat) :
  (period = 0%nat ->
   simple_moving_average prices period = Raise ZeroDivisionError)
  /\ ((1 <= period)%nat ->
      exists values,
        simple_moving_average prices period = Ok values
        /\ length values = (if (length prices <? period)%nat then 0
                            else length prices - period + 1)%nat
        /\ (Forall (fun p => (0 <= p)%Q) prices ->
            Forall (fun v => (0 <= v)%Q) values)).
Proof.
  split.
  - intros ->. apply simple_moving_average_period_zero.
  - intros Hp.
    destruct (simple_moving_average_Ok prices period Hp) as (values & Hv & Hlen).
    exists values. split; [exact Hv|]. split; [exact Hlen|].
    intros Hnn. destruct (nonneg_with_upper_bound prices Hnn) as (hi & Hb).
    destruct (simple_moving_average_shape prices period 0 hi Hp Hb)
      as (values' & Hv' & _ & Hr).
    rewrite Hv in Hv'. injection Hv' as <-.
    eapply Forall_impl; [exact Hr|]. cbn beta. now intros v [H0 _].
Qed.

Lemma sma_one_value_per_window_witness :
  simple_moving_average [10; 11; 12]%Q 0 = Raise ZeroDivisionError
  /\ exists values,
       simple_moving_average [10; 11; 12; 13]%Q 2 = Ok values
       /\ length values = 3%nat
       /\ Forall (fun v => (0 <= v)%Q) values.
Proof.
  split.
  - apply (proj1 (sma_one_value_per_window [10; 11; 12]%Q 0)). reflexivity.
  - destruct (proj2 (sma_one_value_per_window [10; 11; 12; 13]%Q 2))
      as (values & H & L & N); [lia|].
    exists values. split; [exact H|]. split; [exact L|].
    apply N. repeat constructor; vm_compute; discriminate.
Defined.

(** EMA: a window of zero prices is refused with [ZeroDivisionError].  For a
    window of at least one price the call returns [len - period + 1] values
    (none while the input is shorter than the window); the first one is the
    value the SMA of the same window starts with; and none of the values is
    negative when no price is. *)
Theorem ema_length_seed_and_sign (prices : list Q) (period : nat) :
  (period = 0%nat ->
   exponential_moving_average prices period = Raise ZeroDivisionError)
  /\ ((1 <= period)%nat ->
      exists values,
        exponential_moving_average prices period = Ok values
        /\ length values = (if (length prices <? period)%nat then 0
                            else length prices - period + 1)%nat
        /\ ((period <= length prices)%nat ->
            exists sma_values,
              simple_moving_average prices period = Ok sma_values
              /\ head values = head sma_values)
        /\ (Forall (fun p => (0 <= p)%Q) prices ->
            Forall (fun v => (0 <= v)%Q) values)).
Proof.
  split.
  - intros ->. apply exponential_moving_average_period_zero.
  - intros Hp.
    destruct (list_bounds prices) as (lo & hi & Hb).
    destruct (exponential_moving_average_shape prices period lo hi Hp Hb)
      as (values & Hv & Hlen & _ & Hseed).
    exists values. split; [exact Hv|]. split; [exact Hlen|]. split.
    + intros Hlong. destruct (Hseed Hlong) as (sma_values & Hs & Hh & _).
      exists sma_values. now split.
    + intros Hnn. destruct (nonneg_with_upper_bound prices Hnn) as (hi' & Hb').
      destruct (exponential_moving_average_shape prices period 0 hi' Hp Hb')
        as (values' & Hv' & _ & Hr & _).
      rewrite Hv in Hv'. injection Hv' as <-.
      eapply Forall_impl; [exact Hr|]. cbn beta. now intros v [H0 _].
Qed.

Lemma ema_length_seed_and_sign_witness :
  exponential_moving_average [10; 11; 12]%Q 0 = Raise ZeroDivisionError
  /\ exists values,
       exponential_moving_average [10; 11; 12; 13; 14]%Q 3 = Ok values
       /\ length values = 3%nat
       /\ Forall (fun v => (0 <= v)%Q) values.
Proof.
  split.
  - apply (proj1 (ema_length_seed_and_sign [10; 11; 12]%Q 0)). reflexivity.
  - destruct (proj2 (ema_length_seed_and_sign [10; 11; 12; 13; 14]%Q 3))
      as (values & H & L & _ & N); [lia|].
    exists values. split; [exact H|]. split; [exact L|].
    apply N. repeat constructor; vm_compute; discriminate.
Defined.

(** RSI: for a period of at least one and prices of a magnitude the float
    arithmetic handles without overflow, the call returns [len - period]
    values (none while there are fewer than [period + 1] prices), and every
    value lies between 0 and 100. *)
Theorem rsi_in_range_on_bounded_prices (prices : list Q) (period : nat) :
  (1 <= period)%nat ->
  Forall float_safe prices ->
  exists values,
    relative_strength_index prices period = Ok values
    /\ length values = (length prices - period)%nat
    /\ Forall (fun v => (0 <= v)%Q /\ (v <= 100)%Q) values.
Proof. intros Hp _. exact (relative_strength_index_shape prices period Hp). Qed.

Lemma rsi_in_range_on_bounded_prices_witness :
  exists values,
    relative_strength_index [10; 12; 11; 13; 12]%Q 2 = Ok values
    /\ length values = 3%nat
    /\ Forall (fun v => (0 <= v)%Q /\ (v <= 100)%Q) values.
Proof.
  apply (rsi_in_range_on_bounded_prices [10; 12; 11; 13; 12]%Q 2).
  - lia.
  - repeat constructor; vm_compute; discriminate.
Defined.

Lemma obv_loop_length (prev : Q) (acc : Z) (cv : list (Q * Z)) :
  length (obv_loop prev acc cv) = length cv.
Proof.
  revert prev acc. induction cv as [|[c v] rest IH]; intros prev acc; cbn;
    [reflexivity | now rewrite IH].
Qed.

(** The update the OBV applies from one bar to the next. *)
Lemma obv_loop_step (prev : Q) (acc : Z) (cv : list (Q * Z)) (i : nat)
    (a b v : Z) (c0 c1 : Q) :
  (acc :: obv_loop prev acc cv) !! i = Some a ->
  (acc :: obv_loop prev acc cv) !! S i = Some b ->
  (prev :: map fst cv) !! i = Some c0 ->
  cv !! i = Some (c1, v) ->
  b = (if Qlt_le_dec c0 c1 then a + v
       else if Qlt_le_dec c1 c0 then a - v else a)%Z.
Proof.
  revert prev acc i a c0. induction cv as [|[c v'] rest IH]; intros prev acc i a c0.
  - intros _ _ _ H. now rewrite lookup_nil in H.
  - destruct i as [|i].
    + cbn. intros [= <-] Hb [= <-] [= <- <-]. now injection Hb as <-.
    + cbn [obv_loop map fst]. intros Ha Hb Hc0 Hcv.
      exact (IH c _ i a c0 Ha Hb Hc0 Hcv).
Qed.

(** OBV: the call raises [ValueError] exactly when the two lists differ in
    length.  Otherwise it returns a series that starts at 0 and has one value
    per bar (a single 0 for no bar at all); from each bar to the next the
    value goes up by the bar's volume when the close rose, down by it when the
    close fell, and stays when the close is unchanged. *)
Theorem obv_shape (close_prices : list Q) (volumes : list Z) :
  (length close_prices <> length volumes ->
   on_balance_volume close_prices volumes = Raise ValueError)
  /\ (length close_prices = length volumes ->
      exists obv,
        on_balance_volume close_prices volumes = Ok obv
        /\ length obv = Nat.max 1 (length close_prices)
        /\ head obv = Some 0%Z
        /\ forall i a b c0 c1 v,
             obv !! i = Some a -> obv !! S i = Some b ->
             close_prices !! i = Some c0 -> close_prices !! S i = Some c1 ->
             volumes !! S i = Some v ->
             b = (if Qlt_le_dec c0 c1 then a + v
                  else if Qlt_le_dec c1 c0 then a - v else a)%Z).
Proof.
  unfold on_balance_volume. split.
  - intros Hne. apply Nat.eqb_neq in Hne. now rewrite Hne.
  - intros Heq. rewrite (proj2 (Nat.eqb_eq _ _) Heq). cbn [negb].
    destruct close_prices as [|c0 cs]; destruct volumes as [|v0 vs];
      try discriminate Heq.
    + exists [0%Z]. cbn. repeat split. intros i a b c0 c1 v _ Hb.
      destruct i; discriminate Hb.
    + cbn [zip zip_with]. eexists. split; [reflexivity|].
      cbn [length] in Heq. injection Heq as Heq.
      split; [cbn [length]; rewrite obv_loop_length, length_zip_with; lia|].
      split; [reflexivity|].
      intros i a b c c1 v Ha Hb Hc Hc1 Hv.
      change (cs !! i = Some c1) in Hc1. change (vs !! i = Some v) in Hv.
      apply (obv_loop_step c0 0%Z (zip cs vs) i a b v c c1 Ha Hb).
      * rewrite fst_zip by lia. exact Hc.
      * apply lookup_zip_with_Some. exists c1, v. auto.
Qed.

Lemma obv_shape_witness :
  on_balance_volume [10; 11]%Q [100]%Z = Raise ValueError
  /\ exists obv, on_balance_volume [10; 11; 9]%Q [100; 200; 300]%Z = Ok obv
                 /\ length obv = 3%nat.
Proof.
  split.
  - apply (proj1 (obv_shape [10; 11]%Q [100]%Z)). cbn. lia.
  - destruct (proj2 (obv_shape [10; 11; 9]%Q [100; 200; 300]%Z) eq_refl)
      as (obv & H & L & _).
    exists obv. split; [exact H | exact L].
Defined.

(** * Further properties of the calculator *)

Lemma dt_leb_total (a b : datetime) : dt_leb a b = true \/ dt_leb b a = true.
Proof.
  unfold dt_leb.
  destruct (dt_year a <? dt_year b)%Z eqn:E1; [now left|].
  destruct (dt_year b <? dt_year a)%Z eqn:E2; [now right|].
  apply Z.ltb_ge in E1, E2.
  assert (Heq : dt_year a = dt_year b) by lia. rewrite Heq, Z.eqb_refl. cbn.
  destruct (dt_rest a <=? dt_rest b)%Z eqn:E3; [now left|].
  right. apply Z.leb_gt in E3. apply Z.leb_le. lia.
Qed.

Lemma dt_leb_trans (a b c : datetime) :
  dt_leb a b = true -> dt_leb b c = true -> dt_leb a c = true.
Proof.
  unfold dt_leb. intros H1 H2.
  apply orb_true_iff in H1. apply orb_true_iff in H2. apply orb_true_iff.
  destruct H1 as [H1|H1], H2 as [H2|H2].
  - left. apply Z.ltb_lt in H1, H2. apply Z.ltb_lt. lia.
  - apply andb_true_iff in H2 as [H2 _]. apply Z.eqb_eq in H2.
    left. apply Z.ltb_lt in H1. apply Z.ltb_lt. lia.
  - apply andb_true_iff in H1 as [H1 _]. apply Z.eqb_eq in H1.
    left. apply Z.ltb_lt in H2. apply Z.ltb_lt. lia.
  - apply andb_true_iff in H1 as [H1 H1']. apply andb_true_iff in H2 as [H2 H2'].
    apply Z.eqb_eq in H1, H2. apply Z.leb_le in H1', H2'.
    right. apply andb_true_iff. split; [apply Z.eqb_eq | apply Z.leb_le]; lia.
Qed.

Lemma insert_by_timestamp_perm (x : OHLCV.t) (l : list OHLCV.t) :
  insert_by_timestamp x l ≡ₚ x :: l.
Proof.
  induction l as [|y ys IH]; cbn; [reflexivity|].
  destruct (dt_leb _ _); [reflexivity|].
  rewrite IH. apply Permutation_swap.
Qed.

Lemma insert_by_timestamp_sorted (x : OHLCV.t) (l : list OHLCV.t) :
  Sorted timestamp_le l -> Sorted timestamp_le (insert_by_timestamp x l).
Proof.
  induction l as [|y ys IH]; intros Hs; cbn.
  - repeat constructor.
  - destruct (dt_leb (OHLCV.timestamp x) (OHLCV.timestamp y)) eqn:E.
    + constructor; [exact Hs|]. constructor. exact E.
    + assert (Hyx : timestamp_le y x).
      { destruct (dt_leb_total (OHLCV.timestamp x) (OHLCV.timestamp y)) as [H|H];
          [congruence | exact H]. }
      inversion Hs as [|? ? Hs' Hhd]; subst.
      constructor; [now apply IH|].
      destruct ys as [|z zs]; cbn.
      * constructor. exact Hyx.
      * destruct (dt_leb (OHLCV.timestamp x) (OHLCV.timestamp z));
          constructor; [exact Hyx|]. now inversion Hhd.
Qed.

(** The calculator arranges the bars it is given in chronological order and
    keeps every one of them: whatever the order of the input, its bar list
    is a permutation of the input in which no bar comes before an earlier
    one, and its five price, volume and timestamp arrays have one entry per
    bar. *)
Theorem calculator_sorts_and_keeps_bars (ohlcv_data : list OHLCV.t) :
  let self := IndicatorCalculator.__init__ ohlcv_data in
  IndicatorCalculator.ohlcv_data self ≡ₚ ohlcv_data
  /\ StronglySorted timestamp_le (IndicatorCalculator.ohlcv_data self)
  /\ length (IndicatorCalculator.close_prices self) = length ohlcv_data
  /\ length (IndicatorCalculator.high_prices self) = length ohlcv_data
  /\ length (IndicatorCalculator.low_prices self) = length ohlcv_data
  /\ length (IndicatorCalculator.volumes self) = length ohlcv_data
  /\ length (IndicatorCalculator.timestamps self) = length ohlcv_data.
Proof.
  cbn. split; [|split].
  - induction ohlcv_data as [|x l IH]; cbn; [reflexivity|].
    rewrite insert_by_timestamp_perm. now rewrite IH.
  - apply Sorted_StronglySorted.
    + intros a b c. apply dt_leb_trans.
    + induction ohlcv_data as [|x l IH]; cbn; [constructor|].
      now apply insert_by_timestamp_sorted.
  - rewrite !length_map, length_sorted_by_timestamp. repeat split.
Qed.

(** The SMA and RSI queries return their series aligned with timestamps: on
    a calculator built from at least one bar, for a window of at least one
    bar, the [values] and the [timestamps] stored in the result's metadata
    have the same length, whether or not there is enough history for a
    value. *)
Theorem sma_rsi_series_aligned_with_timestamps (ohlcv_data : list OHLCV.t)
    (period : nat) :
  ohlcv_data <> [] -> (1 <= period)%nat ->
  let self := IndicatorCalculator.__init__ ohlcv_data in
  (exists d values ts,
     calculate_sma self period = Ok d
     /\ IndicatorData.metadata d !! "values" = Some (PFloats values)
     /\ IndicatorData.metadata d !! "timestamps" = Some (PTimes ts)
     /\ length values = length ts)
  /\ (exists d values ts,
        calculate_rsi self period = Ok d
        /\ IndicatorData.metadata d !! "values" = Some (PFloats values)
        /\ IndicatorData.metadata d !! "timestamps" = Some (PTimes ts)
        /\ length values = length ts).
Proof.
  intros Hne Hp self.
  destruct (calculator_last_timestamp ohlcv_data Hne) as [t Ht]. fold self in Ht.
  assert (Hlen : length (IndicatorCalculator.close_prices self)
                 = length (IndicatorCalculator.timestamps self)).
  { unfold self. cbn. now rewrite !length_map. }
  split.
  - destruct (simple_moving_average_Ok (IndicatorCalculator.close_prices self)
                period Hp) as (values & Hv & Lv).
    unfold calculate_sma. rewrite Hv. cbn [mbind res_bind]. rewrite Ht.
    cbn [mbind res_bind]. eexists. eexists. eexists.
    split; [reflexivity|]. split; [reflexivity|]. split; [reflexivity|].
    rewrite Lv, length_drop, <- Hlen.
    destruct (length (IndicatorCalculator.close_prices self) <? period)%nat eqn:E;
      [apply Nat.ltb_lt in E | apply Nat.ltb_ge in E]; lia.
  - destruct (relative_strength_index_shape (IndicatorCalculator.close_prices self)
                period Hp) as (values & Hv & Lv & _).
    unfold calculate_rsi. rewrite Hv. cbn [mbind res_bind]. rewrite Ht.
    cbn [mbind res_bind]. eexists. eexists. eexists.
    split; [reflexivity|]. split; [reflexivity|]. split; [reflexivity|].
    rewrite Lv, length_drop, <- Hlen. reflexivity.
Qed.

Lemma sma_rsi_series_aligned_with_timestamps_witness :
  exists d values ts,
    calculate_sma (IndicatorCalculator.__init__ (bars_from 2020 [10; 11; 12]%Q)) 2 = Ok d
    /\ IndicatorData.metadata d !! "values" = Some (PFloats values)
    /\ IndicatorData.metadata d !! "timestamps" = Some (PTimes ts)
    /\ length values = length ts.
Proof.
  apply (sma_rsi_series_aligned_with_timestamps (bars_from 2020 [10; 11; 12]%Q) 2);
    [discriminate | lia].
Defined.

(** * Further properties of the strategies *)

Lemma py_index_minus1_last {A} (l : list A) (x : A) :
  py_index l (-1) = Ok x -> last l = Some x.
Proof.
  unfold py_index. cbn [Z.ltb Z.compare].
  destruct (_ || _)%bool eqn:E; [discriminate|].
  apply orb_false_iff in E as [E1 E2]. apply Z.ltb_ge in E1.
  destruct (l !! _) as [y|] eqn:El; [|discriminate]. intros [= <-].
  rewrite last_lookup. rewrite <- El. f_equal. lia.
Qed.

Lemma crossover_cases (prev_a prev_b cur_a cur_b : Q) :
  crossover prev_a prev_b cur_a cur_b <> HOLD.
Proof.
  unfold crossover. destruct (_ && _)%bool; [discriminate|].
  destruct (_ && _)%bool; discriminate.
Qed.

Lemma not_NO_SIGNAL_not_HOLD (t : SignalType) :
  t <> HOLD -> bool_decide (t <> NO_SIGNAL) = true -> t = BUY \/ t = SELL.
Proof.
  intros Hh Hn. apply bool_decide_eq_true in Hn.
  destruct t; [now left | now right | congruence | congruence].
Qed.

(** Opens the outermost [bind] of a strategy body; the branch in which the
    bound computation raised is closed. *)
Ltac bind_head x E :=
  match goal with
  | |- (mbind _ ?m = Ok _) -> _ =>
      destruct m as [x|] eqn:E; cbn [mbind res_bind]; [|discriminate]
  end.

Ltac no_signal :=
  intros [= <-]; split; [cbn; lia | intros ? Hin; now apply elem_of_nil in Hin].

Lemma sma_strategy_step_signals self current_data signals :
  SimpleMovingAverageStrategy_generate_signals self current_data = Ok signals ->
  step_signals self current_data signals.
Proof.
  unfold SimpleMovingAverageStrategy_generate_signals.
  destruct (StrategySelf.indicator_calculator self) as [calc|]; [|no_signal].
  cbv zeta.
  bind_head last_bar Elast. bind_head short_ind Eshort. bind_head long_ind Elong.
  destruct (_ || _)%bool; [no_signal|].
  bind_head short_sma Es. bind_head long_sma El. bind_head signal_type Etype.
  destruct (bool_decide (signal_type <> NO_SIGNAL)) eqn:Ens; [|no_signal].
  intros [= <-]. split; [cbn; lia|].
  intros signal Hin. apply list_elem_of_singleton in Hin as ->.
  cbn [Signal.signal_type Signal.symbol Signal.confidence Signal.price Signal.timestamp].
  split.
  { apply not_NO_SIGNAL_not_HOLD; [|exact Ens].
    destruct (_ && _)%bool in Etype.
    - destruct (py_index _ (-2)) in Etype; destruct (py_index _ (-2)) in Etype;
        cbn [mbind res_bind] in Etype; try discriminate Etype.
      injection Etype as <-. apply crossover_cases.
    - injection Etype as <-. discriminate. }
  split; [reflexivity|].
  split; [discriminate|]. split; [discriminate|].
  exists last_bar. split; [now apply py_index_minus1_last|]. split; reflexivity.
Qed.

Lemma rsi_values_in_range (prices : list Q) (period : nat) (values : list Q) :
  relative_strength_index prices period = Ok values ->
  Forall (fun v => (0 <= v)%Q /\ (v <= 100)%Q) values.
Proof.
  destruct period as [|p].
  - unfold relative_strength_index. destruct (_ <? _)%nat.
    + intros [= <-]. constructor.
    + cbv zeta. rewrite (py_div_zero _ (Q_of_nat 0)) by reflexivity. discriminate.
  - intros H. destruct (relative_strength_index_shape prices (S p)) as (v & Hv & _ & Hr); [lia|].
    rewrite H in Hv. now injection Hv as <-.
Qed.

Lemma calculate_rsi_values_in_range calc period ind :
  calculate_rsi calc period = Ok ind ->
  Forall (fun v => (0 <= v)%Q /\ (v <= 100)%Q)
         (IndicatorData.metadata_floats ind "values").
Proof.
  unfold calculate_rsi.
  destruct (relative_strength_index _ _) as [values|] eqn:Ev; [|discriminate].
  cbn [mbind res_bind].
  destruct (py_index _ _) as [ts|]; [|discriminate]. cbn [mbind res_bind].
  intros [= <-]. exact (rsi_values_in_range _ _ _ Ev).
Qed.

Lemma rsi_confidence_range (rsi : Q) :
  (0 <= rsi)%Q -> (rsi <= 100)%Q ->
  (0 <= Qabs (50 - rsi) / 50)%Q /\ (Qabs (50 - rsi) / 50 <= 1)%Q.
Proof.
  intros H0 H1. split.
  - apply Qdiv_nonneg; [apply Qabs_nonneg | reflexivity].
  - apply Qle_shift_div_r; [reflexivity|].
    apply Qabs_Qle_condition. split; lra.
Qed.

Lemma rsi_strategy_step_signals self current_data signals :
  RSIStrategy_generate_signals self current_data = Ok signals ->
  step_signals self current_data signals.
Proof.
  unfold RSIStrategy_generate_signals.
  destruct (StrategySelf.indicator_calculator self) as [calc|]; [|no_signal].
  cbv zeta.
  bind_head last_bar Elast. bind_head rsi_ind Eind.
  destruct (is_empty _); [no_signal|].
  bind_head current_rsi Ersi.
  destruct (bool_decide _) eqn:Ens; [|no_signal].
  intros [= <-]. split; [cbn; lia|].
  intros signal Hin. apply list_elem_of_singleton in Hin as ->.
  cbn [Signal.signal_type Signal.symbol Signal.confidence Signal.price Signal.timestamp].
  split.
  { apply not_NO_SIGNAL_not_HOLD; [|exact Ens].
    destruct (Qle_bool _ _); [discriminate|]. destruct (Qle_bool _ _); discriminate. }
  split; [reflexivity|].
  assert (Hr : (0 <= current_rsi)%Q /\ (current_rsi <= 100)%Q).
  { pose proof (calculate_rsi_values_in_range _ _ _ Eind) as Hall.
    apply py_index_minus1_last, last_Some_elem_of in Ersi.
    exact (proj1 (Forall_forall _ _) Hall _ Ersi). }
  destruct (rsi_confidence_range current_rsi (proj1 Hr) (proj2 Hr)) as [C0 C1].
  split; [exact C0|]. split; [exact C1|].
  exists last_bar. split; [now apply py_index_minus1_last|]. split; reflexivity.
Qed.

Lemma macd_strategy_step_signals self current_data signals :
  MACDStrategy_generate_signals self current_data = Ok signals ->
  step_signals self current_data signals.
Proof.
  unfold MACDStrategy_generate_signals.
  destruct (StrategySelf.indicator_calculator self) as [calc|]; [|no_signal].
  cbv zeta.
  bind_head last_bar Elast. bind_head macd_ind Eind.
  destruct (_ || _)%bool; [no_signal|].
  bind_head current_macd E1. bind_head current_signal E2.
  bind_head prev_macd E3. bind_head prev_signal E4.
  destruct (bool_decide _) eqn:Ens; [|no_signal].
  bind_head hist E5.
  intros [= <-]. split; [cbn; lia|].
  intros signal Hin. apply list_elem_of_singleton in Hin as ->.
  cbn [Signal.signal_type Signal.symbol Signal.confidence Signal.price Signal.timestamp].
  split.
  { apply not_NO_SIGNAL_not_HOLD; [apply crossover_cases | exact Ens]. }
  split; [reflexivity|].
  split; [discriminate|]. split; [discriminate|].
  exists last_bar. split; [now apply py_index_minus1_last|]. split; reflexivity.
Qed.

(** The decision of the multi-indicator vote, when it is not NO_SIGNAL,
    carries a confidence between 0.6 and 1. *)
Lemma multi_decision_confidence (rsi macd signal_line bb_upper bb_lower sma_20 price : Q)
    (buy_signals sell_signals total_signals : Q) (signal_type : SignalType)
    (confidence : Q) :
  multi_votes rsi macd signal_line bb_upper bb_lower sma_20 price
  = (buy_signals, sell_signals, total_signals) ->
  multi_decision buy_signals sell_signals total_signals = (signal_type, confidence) ->
  signal_type <> HOLD
  /\ (signal_type <> NO_SIGNAL -> (6 # 10 <= confidence)%Q /\ (confidence <= 1)%Q).
Proof.
  intros Hv Hd.
  pose proof (multi_votes_total rsi macd signal_line bb_upper bb_lower sma_20 price) as Ht.
  rewrite Hv in Ht. destruct Ht as (Ht & Hb & Hs & Hsum).
  assert (Hpos : (0 < total_signals)%Q) by (rewrite Ht; reflexivity).
  unfold multi_decision in Hd.
  destruct (Qle_bool (6 # 10) (buy_signals / total_signals)) eqn:Eb.
  { injection Hd as <- <-. split; [discriminate|]. intros _.
    apply Qle_bool_iff in Eb. split; [exact Eb|].
    apply Qle_shift_div_r; [exact Hpos | lra]. }
  destruct (Qle_bool (6 # 10) (sell_signals / total_signals)) eqn:Es.
  { injection Hd as <- <-. split; [discriminate|]. intros _.
    apply Qle_bool_iff in Es. split; [exact Es|].
    apply Qle_shift_div_r; [exact Hpos | lra]. }
  injection Hd as <- <-. split; [discriminate | congruence].
Qed.

Lemma multi_strategy_step_signals np_std self current_data signals :
  MultiIndicatorStrategy_generate_signals np_std self current_data = Ok signals ->
  step_signals self current_data signals
  /\ forall signal, signal ∈ signals -> (6 # 10 <= Signal.confidence signal)%Q.
Proof.
  unfold MultiIndicatorStrategy_generate_signals.
  destruct (StrategySelf.indicator_calculator self) as [calc|].
  2:{ intros [= <-]. split; [split; [cbn; lia|]|];
        intros ? Hin; now apply elem_of_nil in Hin. }
  cbv zeta.
  bind_head last_bar Elast. bind_head sma_ind E1. bind_head rsi_ind E2.
  bind_head macd_ind E3. bind_head bb_ind E4.
  assert (Hnone : step_signals self current_data []
                  /\ forall signal, signal ∈ @nil Signal.t ->
                       (6 # 10 <= Signal.confidence signal)%Q).
  { split; [split; [cbn; lia|]|]; intros ? Hin; now apply elem_of_nil in Hin. }
  destruct (negb _); [intros [= <-]; exact Hnone|].
  destruct (IndicatorData.value_get sma_ind "sma") as [sma_20|];
    [|intros [= <-]; exact Hnone].
  destruct (IndicatorData.value_get rsi_ind "rsi") as [rsi|];
    [|intros [= <-]; exact Hnone].
  destruct (IndicatorData.value_get macd_ind "macd") as [macd|];
    [|intros [= <-]; exact Hnone].
  destruct (IndicatorData.value_get macd_ind "signal") as [signal_line|];
    [|intros [= <-]; exact Hnone].
  destruct (IndicatorData.value_get bb_ind "upper") as [bb_upper|];
    [|intros [= <-]; exact Hnone].
  destruct (IndicatorData.value_get bb_ind "lower") as [bb_lower|];
    [|intros [= <-]; exact Hnone].
  destruct (multi_votes _ _ _ _ _ _ _) as [[buy_signals sell_signals] total_signals] eqn:Ev.
  destruct (multi_decision _ _ _) as [signal_type confidence] eqn:Ed.
  destruct (multi_decision_confidence _ _ _ _ _ _ _ _ _ _ _ _ Ev Ed) as [Hh Hc].
  destruct (bool_decide _) eqn:Ens; [|intros [= <-]; exact Hnone].
  intros [= <-].
  assert (Hn : signal_type <> NO_SIGNAL) by now apply bool_decide_eq_true in Ens.
  destruct (Hc Hn) as [C0 C1].
  split.
  - split; [cbn; lia|].
    intros signal Hin. apply list_elem_of_singleton in Hin as ->.
    cbn [Signal.signal_type Signal.symbol Signal.confidence Signal.price Signal.timestamp].
    split; [now apply not_NO_SIGNAL_not_HOLD|].
    split; [reflexivity|].
    split; [lra|]. split; [exact C1|].
    exists last_bar. split; [now apply py_index_minus1_last|]. split; reflexivity.
  - intros signal Hin. apply list_elem_of_singleton in Hin as ->. exact C0.
Qed.

(** Every strategy of the registry hands the engine, at each step, at most
    one signal; it is a BUY or a SELL (never HOLD or NO_SIGNAL) for the
    configured symbol, priced and dated by the last bar of the data passed
    in, with a confidence between 0 and 1. *)
Theorem registry_strategies_emit_step_signals (np_std : list Q -> Q)
    (strategy_name : string) (config : StrategyConfig.t)
    (data_provider : DataProvider) (strategy : TradingStrategy.t)
    (self : StrategySelf.t) (current_data : list OHLCV.t)
    (signals : list Signal.t) :
  create_strategy np_std strategy_name config data_provider = Ok strategy ->
  TradingStrategy.generate_signals strategy self current_data = Ok signals ->
  step_signals self current_data signals.
Proof.
  unfold create_strategy. intros Hc Hg.
  repeat (destruct (bool_decide _) in Hc; [injection Hc as <-; cbn in Hg|]).
  - now apply sma_strategy_step_signals.
  - now apply rsi_strategy_step_signals.
  - now apply macd_strategy_step_signals.
  - exact (proj1 (multi_strategy_step_signals np_std _ _ _ Hg)).
  - discriminate Hc.
Qed.

Lemma registry_strategies_emit_step_signals_witness :
  exists signal,
    SimpleMovingAverageStrategy_generate_signals crossing_self series_up = Ok [signal]
    /\ step_signals crossing_self series_up [signal]
    /\ Signal.signal_type signal = BUY
    /\ (Signal.price signal == 3)%Q.
Proof.
  assert (H : exists signal,
             SimpleMovingAverageStrategy_generate_signals crossing_self series_up
             = Ok [signal]
             /\ Signal.signal_type signal = BUY
             /\ (Signal.price signal == 3)%Q).
  { eexists. split; [vm_compute; reflexivity|]. split; reflexivity. }
  destruct H as (signal & H & Ht & Hp). exists signal.
  split; [exact H|]. split; [|split; [exact Ht | exact Hp]].
  apply (registry_strategies_emit_step_signals np_std_6 "sma_crossover"
           sma_1_2_config (series_provider series_up)
           (SimpleMovingAverageStrategy sma_1_2_config (series_provider series_up))
           crossing_self series_up [signal]).
  - reflexivity.
  - exact H.
Defined.

(** The factory knows exactly four names; any other name is refused with
    [ValueError], and a strategy it builds starts with the given
    configuration and provider and without a calculator, so that it emits
    nothing until it is initialized. *)
Theorem create_strategy_registry (np_std : list Q -> Q) (strategy_name : string)
    (config : StrategyConfig.t) (data_provider : DataProvider) :
  (strategy_name ∉ ["sma_crossover"; "rsi"; "macd"; "multi_indicator"] ->
   create_strategy np_std strategy_name config data_provider = Raise ValueError)
  /\ (strategy_name ∈ ["sma_crossover"; "rsi"; "macd"; "multi_indicator"] ->
      exists strategy,
        create_strategy np_std strategy_name config data_provider = Ok strategy
        /\ TradingStrategy.self strategy = StrategySelf.__init__ config data_provider
        /\ forall current_data,
             TradingStrategy.generate_signals strategy
               (TradingStrategy.self strategy) current_data = Ok []).
Proof.
  unfold create_strategy. split.
  - intros Hnot. rewrite !not_elem_of_cons in Hnot.
    destruct Hnot as (H1 & H2 & H3 & H4 & _).
    rewrite !bool_decide_eq_false_2 by assumption. reflexivity.
  - intros Hin. rewrite !elem_of_cons, elem_of_nil in Hin.
    destruct Hin as [->|[->|[->|[->|[]]]]];
      (eexists; split; [reflexivity|]; split; [reflexivity|]; intros; reflexivity).
Qed.

Lemma create_strategy_registry_witness :
  create_strategy np_std_6 "momentum"
    (StrategySelf.config declining_self) (series_provider []) = Raise ValueError
  /\ exists strategy,
       create_strategy np_std_6 "rsi"
         (StrategySelf.config declining_self) (series_provider []) = Ok strategy.
Proof.
  split.
  - apply (proj1 (create_strategy_registry np_std_6 "momentum"
                    (StrategySelf.config declining_self) (series_provider []))).
    rewrite !not_elem_of_cons. repeat split; try discriminate. apply not_elem_of_nil.
  - destruct (proj2 (create_strategy_registry np_std_6 "rsi"
                       (StrategySelf.config declining_self) (series_provider [])))
      as (strategy & H & _).
    + rewrite !elem_of_cons. right. now left.
    + now exists strategy.
Defined.

(** Rewrites the series read back from a freshly built query result. *)
Ltac read_series key series :=
  match goal with
  | |- context [IndicatorData.metadata_floats ?d key] =>
      change (IndicatorData.metadata_floats d key) with series
  end.

Ltac read_value key value :=
  match goal with
  | |- context [IndicatorData.value_get ?d key] =>
      change (IndicatorData.value_get d key) with value
  end.

Lemma macd_signal_length (n line sig : nat) :
  line = (if (n <? 26)%nat then 0 else n - 26 + 1)%nat ->
  sig = (if (line <? 9)%nat then 0 else line - 9 + 1)%nat ->
  sig = (n - 33)%nat.
Proof.
  intros -> ->.
  destruct (Nat.ltb_spec n 26) as [H1|H1].
  - reflexivity || (cbn; lia).
  - destruct (Nat.ltb_spec (n - 26 + 1) 9); lia.
Qed.

Lemma macd_strategy_needs_35_bars self ohlcv_data current_data :
  StrategySelf.indicator_calculator self
  = Some (IndicatorCalculator.__init__ ohlcv_data) ->
  ohlcv_data <> [] -> current_data <> [] ->
  (length ohlcv_data < 35)%nat ->
  MACDStrategy_generate_signals self current_data = Ok [].
Proof.
  intros Hcalc Hne Hdata Hlen.
  destruct (py_index_last current_data Hdata) as [last_bar Hlast].
  destruct (calculator_last_timestamp ohlcv_data Hne) as [ts Hts].
  destruct (macd_shape
              (IndicatorCalculator.close_prices (IndicatorCalculator.__init__ ohlcv_data))
              12 26 9) as (r & Hr & L1 & L2 & _); [lia | lia | lia |].
  assert (Hc : length (IndicatorCalculator.close_prices
                         (IndicatorCalculator.__init__ ohlcv_data))
               = length ohlcv_data).
  { cbn. now rewrite length_map, length_sorted_by_timestamp. }
  rewrite Hc in L1.
  unfold MACDStrategy_generate_signals. rewrite Hcalc. cbv zeta.
  rewrite Hlast. cbn [mbind res_bind].
  unfold calculate_macd. rewrite Hr. cbn [mbind res_bind].
  rewrite Hts. cbn [mbind res_bind].
  read_series "macd_line" (macd_line r). read_series "signal_line" (signal_line r).
  assert (Hshort : (length (signal_line r) <? 2)%nat = true).
  { apply Nat.ltb_lt. rewrite (macd_signal_length _ _ _ L1 L2). lia. }
  rewrite Hshort, orb_true_r. reflexivity.
Qed.

Lemma sma_strategy_needs_long_window self ohlcv_data current_data :
  let short_period :=
    StrategyConfig.get_nat (StrategySelf.config self) "short_period" 5 in
  let long_period :=
    StrategyConfig.get_nat (StrategySelf.config self) "long_period" 20 in
  StrategySelf.indicator_calculator self
  = Some (IndicatorCalculator.__init__ ohlcv_data) ->
  ohlcv_data <> [] -> current_data <> [] ->
  (1 <= short_period)%nat -> (1 <= long_period)%nat ->
  (length ohlcv_data < long_period + 1)%nat ->
  SimpleMovingAverageStrategy_generate_signals self current_data = Ok [].
Proof.
  intros short_period long_period Hcalc Hne Hdata Hs Hl Hlen.
  destruct (py_index_last current_data Hdata) as [last_bar Hlast].
  destruct (calculator_last_timestamp ohlcv_data Hne) as [ts Hts].
  set (closes := IndicatorCalculator.close_prices (IndicatorCalculator.__init__ ohlcv_data)).
  assert (Hc : length closes = length ohlcv_data).
  { unfold closes. cbn. now rewrite length_map, length_sorted_by_timestamp. }
  destruct (simple_moving_average_Ok closes short_period Hs) as (sv & Hsv & Lsv).
  destruct (simple_moving_average_Ok closes long_period Hl) as (lv & Hlv & Llv).
  unfold SimpleMovingAverageStrategy_generate_signals. rewrite Hcalc. cbv zeta.
  rewrite Hlast. cbn [mbind res_bind].
  fold short_period long_period.
  unfold calculate_sma. fold closes. rewrite Hsv. cbn [mbind res_bind].
  rewrite Hts. cbn [mbind res_bind]. rewrite Hlv. cbn [mbind res_bind].
  read_series "values" sv. read_series "values" lv.
  destruct (is_empty sv || is_empty lv)%bool eqn:Ee; [reflexivity|].
  apply orb_false_iff in Ee as [Es El].
  destruct (py_index_last sv) as [s Hs']; [destruct sv; [discriminate Es | discriminate]|].
  destruct (py_index_last lv) as [l Hl']; [destruct lv; [discriminate El | discriminate]|].
  rewrite Hs', Hl'. cbn [mbind res_bind].
  assert (Hlong : (2 <=? length lv)%nat = false).
  { apply Nat.leb_gt. rewrite Llv, Hc.
    destruct (Nat.ltb_spec (length ohlcv_data) long_period); lia. }
  rewrite Hlong, andb_false_r. cbn [mbind res_bind]. reflexivity.
Qed.

Lemma rsi_strategy_needs_period_plus_one self ohlcv_data current_data :
  let rsi_period := StrategyConfig.get_nat (StrategySelf.config self) "rsi_period" 14 in
  StrategySelf.indicator_calculator self
  = Some (IndicatorCalculator.__init__ ohlcv_data) ->
  ohlcv_data <> [] -> current_data <> [] ->
  (1 <= rsi_period)%nat ->
  (length ohlcv_data < rsi_period + 1)%nat ->
  RSIStrategy_generate_signals self current_data = Ok [].
Proof.
  intros rsi_period Hcalc Hne Hdata Hp Hlen.
  destruct (py_index_last current_data Hdata) as [last_bar Hlast].
  destruct (calculator_last_timestamp ohlcv_data Hne) as [ts Hts].
  set (closes := IndicatorCalculator.close_prices (IndicatorCalculator.__init__ ohlcv_data)).
  assert (Hc : length closes = length ohlcv_data).
  { unfold closes. cbn. now rewrite length_map, length_sorted_by_timestamp. }
  destruct (relative_strength_index_shape closes rsi_period Hp) as (values & Hv & Lv & _).
  unfold RSIStrategy_generate_signals. rewrite Hcalc. cbv zeta.
  rewrite Hlast. cbn [mbind res_bind]. fold rsi_period.
  unfold calculate_rsi. fold closes. rewrite Hv. cbn [mbind res_bind].
  rewrite Hts. cbn [mbind res_bind].
  read_series "values" values.
  destruct values; [reflexivity|]. cbn [length] in Lv. rewrite Hc in Lv. lia.
Qed.

Lemma multi_strategy_needs_34_bars np_std self ohlcv_data current_data :
  StrategySelf.indicator_calculator self
  = Some (IndicatorCalculator.__init__ ohlcv_data) ->
  ohlcv_data <> [] -> current_data <> [] ->
  (length ohlcv_data < 34)%nat ->
  MultiIndicatorStrategy_generate_signals np_std self current_data = Ok [].
Proof.
  intros Hcalc Hne Hdata Hlen.
  destruct (py_index_last current_data Hdata) as [last_bar Hlast].
  destruct (calculator_last_timestamp ohlcv_data Hne) as [ts Hts].
  set (calc := IndicatorCalculator.__init__ ohlcv_data) in *.
  set (closes := IndicatorCalculator.close_prices calc).
  assert (Hc : length closes = length ohlcv_data).
  { unfold closes, calc. cbn. now rewrite length_map, length_sorted_by_timestamp. }
  destruct (simple_moving_average_Ok closes 20) as (sv & Hsv & _); [lia|].
  destruct (relative_strength_index_Ok closes 14) as (rv & Hrv); [lia|].
  destruct (macd_shape closes 12 26 9)
    as (r & Hr & L1 & L2 & _); [lia | lia | lia |].
  destruct (bollinger_bands_Ok np_std closes 20 2) as (bb & Hbb); [lia|].
  unfold MultiIndicatorStrategy_generate_signals. rewrite Hcalc. cbv zeta.
  rewrite Hlast. cbn [mbind res_bind].
  unfold calculate_sma, calculate_rsi, calculate_macd, calculate_bollinger_bands.
  fold closes. rewrite Hsv. cbn [mbind res_bind]. rewrite Hts. cbn [mbind res_bind].
  rewrite Hrv. cbn [mbind res_bind]. rewrite Hr. cbn [mbind res_bind].
  rewrite Hbb. cbn [mbind res_bind].
  read_value "signal" (last (signal_line r)).
  assert (Hnone : last (signal_line r) = None).
  { rewrite Hc in L1.
    assert (L0 : length (signal_line r) = 0%nat).
    { rewrite (macd_signal_length _ _ _ L1 L2). lia. }
    destruct (signal_line r); [reflexivity | discriminate L0]. }
  rewrite Hnone.
  match goal with
  | |- (if negb (forallb truthy [?a; ?b; ?c; None; ?d; ?e]) then _ else _) = _ =>
      replace (forallb truthy [a; b; c; None; d; e]) with false
        by (cbn [forallb truthy]; destruct (truthy a), (truthy b), (truthy c); reflexivity)
  end.
  reflexivity.
Qed.

Lemma calculator_without_bars :
  IndicatorCalculator.close_prices (IndicatorCalculator.__init__ []) = []
  /\ py_index (IndicatorCalculator.timestamps (IndicatorCalculator.__init__ []))
              (-1) = Raise IndexError.
Proof. split; reflexivity. Qed.

Lemma strategies_raise_without_bars np_std self current_data :
  StrategySelf.indicator_calculator self = Some (IndicatorCalculator.__init__ []) ->
  current_data <> [] ->
  let short_period :=
    StrategyConfig.get_nat (StrategySelf.config self) "short_period" 5 in
  MACDStrategy_generate_signals self current_data = Raise IndexError
  /\ MultiIndicatorStrategy_generate_signals np_std self current_data
     = Raise IndexError
  /\ ((1 <= short_period)%nat ->
      SimpleMovingAverageStrategy_generate_signals self current_data
      = Raise IndexError)
  /\ RSIStrategy_generate_signals self current_data = Raise IndexError.
Proof.
  intros Hcalc Hdata short_period.
  destruct (py_index_last current_data Hdata) as [last_bar Hlast].
  split; [|split; [|split]].
  - unfold MACDStrategy_generate_signals. rewrite Hcalc. cbv zeta.
    rewrite Hlast. reflexivity.
  - unfold MultiIndicatorStrategy_generate_signals. rewrite Hcalc. cbv zeta.
    rewrite Hlast. reflexivity.
  - intros Hs. unfold SimpleMovingAverageStrategy_generate_signals.
    rewrite Hcalc. cbv zeta. rewrite Hlast. cbn [mbind res_bind].
    fold short_period. unfold calculate_sma, simple_moving_average.
    cbn [IndicatorCalculator.close_prices IndicatorCalculator.__init__
         sorted_by_timestamp foldr map fmap list_fmap length].
    destruct short_period; [lia | reflexivity].
  - unfold RSIStrategy_generate_signals. rewrite Hcalc. cbv zeta.
    rewrite Hlast. cbn [mbind res_bind].
    unfold calculate_rsi, relative_strength_index.
    cbn [IndicatorCalculator.close_prices IndicatorCalculator.__init__
         sorted_by_timestamp foldr map fmap list_fmap length].
    rewrite Nat.add_1_r. reflexivity.
Qed.

(** Warm-up: for a strategy whose window parameters are absent or integers,
    called on at least one bar.  With a calculator built from at least one
    bar, too little history gives no signal and no exception: below 35 bars
    for the MACD strategy, below 34 for the multi-indicator strategy, below
    [long_period + 1] for the SMA crossover and below [rsi_period + 1] for
    the RSI strategy (windows of at least one bar).  With a calculator built
    from no bar at all, every strategy raises [IndexError] instead. *)
Theorem strategies_need_history (np_std : list Q -> Q) (self : StrategySelf.t)
    (ohlcv_data current_data : list OHLCV.t) :
  StrategySelf.indicator_calculator self
  = Some (IndicatorCalculator.__init__ ohlcv_data) ->
  current_data <> [] ->
  let config := StrategySelf.config self in
  int_or_absent config "short_period" ->
  int_or_absent config "long_period" ->
  int_or_absent config "rsi_period" ->
  let short_period := StrategyConfig.get_nat config "short_period" 5 in
  let long_period := StrategyConfig.get_nat config "long_period" 20 in
  let rsi_period := StrategyConfig.get_nat config "rsi_period" 14 in
  (ohlcv_data <> [] ->
   ((length ohlcv_data < 35)%nat ->
    MACDStrategy_generate_signals self current_data = Ok [])
   /\ ((length ohlcv_data < 34)%nat ->
       MultiIndicatorStrategy_generate_signals np_std self current_data = Ok [])
   /\ ((1 <= short_period)%nat -> (1 <= long_period)%nat ->
       (length ohlcv_data < long_period + 1)%nat ->
       SimpleMovingAverageStrategy_generate_signals self current_data = Ok [])
   /\ ((1 <= rsi_period)%nat -> (length ohlcv_data < rsi_period + 1)%nat ->
       RSIStrategy_generate_signals self current_data = Ok []))
  /\ (ohlcv_data = [] ->
      MACDStrategy_generate_signals self current_data = Raise IndexError
      /\ MultiIndicatorStrategy_generate_signals np_std self current_data
         = Raise IndexError
      /\ ((1 <= short_period)%nat ->
          SimpleMovingAverageStrategy_generate_signals self current_data
          = Raise IndexError)
      /\ RSIStrategy_generate_signals self current_data = Raise IndexError).
Proof.
  intros Hcalc Hdata config _ _ _ short_period long_period rsi_period.
  split.
  - intros Hne. split; [|split; [|split]].
    + now apply macd_strategy_needs_35_bars.
    + now apply multi_strategy_needs_34_bars.
    + now apply sma_strategy_needs_long_window.
    + now apply rsi_strategy_needs_period_plus_one.
  - intros ->. exact (strategies_raise_without_bars np_std self current_data
                        Hcalc Hdata).
Qed.

Lemma strategies_need_history_witness :
  MACDStrategy_generate_signals short_history_self short_history_bars = Ok []
  /\ MultiIndicatorStrategy_generate_signals np_std_6 short_history_self
       short_history_bars = Ok []
  /\ SimpleMovingAverageStrategy_generate_signals short_history_self
       short_history_bars = Ok []
  /\ RSIStrategy_generate_signals short_history_self short_history_bars = Ok [].
Proof.
  destruct (strategies_need_history np_std_6 short_history_self
              short_history_bars short_history_bars)
    as ((H1 & H2 & H3 & H4) & _);
    [reflexivity | discriminate | exact I | exact I | exact I | discriminate |].
  split; [apply H1; vm_compute; lia|].
  split; [apply H2; vm_compute; lia|].
  split; [apply H3; vm_compute; lia|].
  apply H4; vm_compute; lia.
Defined.

(** Every signal of the multi-indicator strategy carries a confidence of at
    least 0.6 (and at most 1): it is the winning vote fraction. *)
Theorem multi_signal_confidence_at_least_06 (np_std : list Q -> Q)
    (self : StrategySelf.t) (current_data : list OHLCV.t)
    (signals : list Signal.t) (signal : Signal.t) :
  MultiIndicatorStrategy_generate_signals np_std self current_data = Ok signals ->
  signal ∈ signals ->
  (6 # 10 <= Signal.confidence signal)%Q /\ (Signal.confidence signal <= 1)%Q.
Proof.
  intros H Hin.
  destruct (multi_strategy_step_signals np_std self current_data signals H) as [Hs Hc].
  split; [now apply Hc|].
  destruct (proj2 Hs signal Hin) as (_ & _ & _ & C1 & _). exact C1.
Qed.

Lemma multi_signal_confidence_at_least_06_witness :
  exists signal,
    MultiIndicatorStrategy_generate_signals np_std_6 rebound_self rebound_bars
    = Ok [signal]
    /\ (6 # 10 <= Signal.confidence signal)%Q /\ (Signal.confidence signal <= 1)%Q.
Proof.
  assert (H : exists signal,
             MultiIndicatorStrategy_generate_signals np_std_6 rebound_self
               rebound_bars = Ok [signal]).
  { eexists. vm_compute. reflexivity. }
  destruct H as (signal & H). exists signal. split; [exact H|].
  apply (multi_signal_confidence_at_least_06 np_std_6 rebound_self rebound_bars
           [signal] signal H).
  constructor.
Defined.

(** * Further properties of the engine *)

Lemma positions_positive_init config data_provider :
  positions_positive (BacktestEngine.__init__ config data_provider).
Proof. intros symbol position H. cbn in H. now rewrite lookup_empty in H. Qed.

Lemma positions_positive_mark self current_ohlcv :
  positions_positive self ->
  positions_positive (_update_portfolio_values self current_ohlcv).
Proof.
  intros H symbol position Hl. cbn in Hl. rewrite lookup_fmap in Hl.
  destruct (BacktestEngine.positions self !! symbol) as [p|] eqn:E; [|discriminate].
  cbn in Hl. injection Hl as <-. cbn. exact (H _ _ E).
Qed.

Lemma positions_positive_insert self symbol position :
  positions_positive self -> (0 < BacktestPosition.quantity position)%Q ->
  forall s p, <[symbol := position]> (BacktestEngine.positions self) !! s = Some p ->
              (0 < BacktestPosition.quantity p)%Q.
Proof.
  intros H Hq s p Hl.
  destruct (decide (symbol = s)) as [<-|Hne].
  - rewrite lookup_insert_eq in Hl. now injection Hl as <-.
  - rewrite lookup_insert_ne in Hl by exact Hne. exact (H _ _ Hl).
Qed.

Lemma positions_positive_execute self signal timestamp :
  positions_positive self ->
  positions_positive (fst (_execute_signal self signal timestamp)).
Proof.
  intros H.
  destruct (execute_signal_cases self signal timestamp)
    as [Hsame | [(Ht & Hq & Hr) | (Ht & Hq & Hr)]].
  - now rewrite Hsame.
  - rewrite Hr. unfold execute_buy.
    destruct (Qlt_bool _ _); [exact H|].
    destruct (BacktestEngine.positions self !! Signal.symbol signal) as [p|] eqn:E.
    + destruct (Qeq_bool _ 0); [exact H|].
      intros s p' Hl. cbn in Hl.
      apply (positions_positive_insert self _ _ H) in Hl; [exact Hl|].
      cbn. pose proof (H _ _ E). lra.
    + intros s p' Hl. cbn in Hl.
      apply (positions_positive_insert self _ _ H) in Hl; [exact Hl|].
      cbn. exact Hq.
  - rewrite Hr. unfold execute_sell.
    destruct (BacktestEngine.positions self !! Signal.symbol signal) as [p|] eqn:E;
      [|exact H].
    destruct (BacktestPosition.getattr p "realized_pnl"); [|exact H].
    cbn [BacktestPosition.quantity BacktestPosition.set_quantity BacktestPosition.setattr].
    destruct (Qle_bool _ 0) eqn:Eq.
    + intros s p' Hl. cbn in Hl.
      destruct (decide (Signal.symbol signal = s)) as [<-|Hne].
      * now rewrite lookup_delete_eq in Hl.
      * rewrite lookup_delete_ne in Hl by exact Hne. exact (H _ _ Hl).
    + apply Qle_bool_false in Eq.
      intros s p' Hl. cbn in Hl.
      destruct (decide (Signal.symbol signal = s)) as [<-|Hne].
      * rewrite lookup_insert_eq in Hl. injection Hl as <-. cbn. exact Eq.
      * rewrite lookup_insert_ne in Hl by exact Hne. exact (H _ _ Hl).
Qed.

Lemma positions_positive_execute_signals self signals timestamp :
  positions_positive self ->
  positions_positive (fst (execute_signals self signals timestamp)).
Proof.
  revert self. induction signals as [|signal rest IH]; intros self H; cbn [execute_signals].
  - exact H.
  - pose proof (positions_positive_execute self signal timestamp H) as H1.
    destruct (_execute_signal self signal timestamp) as [self1 [e|]]; cbn [fst] in *.
    + exact H1.
    + now apply IH.
Qed.

Lemma positions_positive_record self timestamp :
  positions_positive self -> positions_positive (_record_portfolio_state self timestamp).
Proof. intros H. exact H. Qed.

Lemma positions_positive_process_bar strategy strategy_self self current_data ohlcv :
  positions_positive self ->
  positions_positive (fst (process_bar strategy strategy_self self current_data ohlcv)).
Proof.
  intros H. unfold process_bar.
  destruct (py_index current_data (-1)) as [last_bar|]; [|exact H].
  pose proof (positions_positive_mark self last_bar H) as H1.
  destruct (TradingStrategy.generate_signals _ _ _) as [signals|]; [|exact H1].
  pose proof (positions_positive_execute_signals _ signals (OHLCV.timestamp ohlcv) H1) as H2.
  destruct (execute_signals _ _ _) as [self2 [e|]]; cbn [fst] in *; exact H2.
Qed.

Lemma positions_positive_loop strategy strategy_self historical_data i remaining self :
  positions_positive self ->
  positions_positive
    (fst (backtest_loop strategy strategy_self historical_data i remaining self)).
Proof.
  revert i self. induction remaining as [|ohlcv rest IH]; intros i self H;
    cbn [backtest_loop].
  - exact H.
  - pose proof (positions_positive_process_bar strategy strategy_self self
                  (take (i + 1) historical_data) ohlcv H) as H1.
    destruct (process_bar _ _ _ _ _) as [self1 [e|]]; cbn [fst] in *.
    + exact H1.
    + now apply IH.
Qed.

(** No position is ever held at a zero or negative quantity: the engine
    starts without positions, and whatever the strategy signals and however
    the run ends (a report or an exception), every open position of the
    engine a run leaves behind has a positive quantity. *)
Theorem run_keeps_position_quantities_positive (self : BacktestEngine.t)
    (strategy : TradingStrategy.t) (now : datetime) :
  positions_positive self ->
  positions_positive (fst (run_backtest self strategy now)).
Proof.
  intros H. unfold run_backtest.
  destruct (is_empty _); [exact H|].
  destruct (TradingStrategy.initialize _ _ _) as [strategy_self|]; [|exact H].
  match goal with
  | |- context [backtest_loop ?s ?ss ?hd ?i ?rem ?e] =>
      pose proof (positions_positive_loop s ss hd i rem e H) as H1
  end.
  destruct (backtest_loop _ _ _ _ _ _) as [self1 [e|]]; cbn [fst] in *; exact H1.
Qed.

Lemma run_keeps_position_quantities_positive_witness :
  positions_positive (fst one_bar_run)
  /\ exists position,
       BacktestEngine.positions (fst one_bar_run) !! "TEST" = Some position
       /\ (BacktestPosition.quantity position == 100)%Q.
Proof.
  split.
  - apply (run_keeps_position_quantities_positive
             (BacktestEngine.__init__ default_config (series_provider one_bar_series))
             (SimpleMovingAverageStrategy sma_1_2_config (series_provider one_bar_series))
             (mk_datetime 2025 0)).
    intros symbol position H. cbn in H. rewrite lookup_empty in H. discriminate H.
  - eexists. split; [vm_compute; reflexivity|]. reflexivity.
Defined.

Lemma execute_signal_zero_price self signal timestamp :
  Signal.signal_type signal = BUY \/ Signal.signal_type signal = SELL ->
  (Signal.price signal == 0)%Q ->
  _execute_signal self signal timestamp = (self, Some DecimalDivisionByZero).
Proof.
  intros Ht Hp. unfold _execute_signal.
  rewrite bool_decide_eq_true_2.
  2:{ rewrite !elem_of_cons. destruct Ht as [-> | ->]; auto. }
  cbn [negb]. apply Qeq_bool_iff in Hp. now rewrite Hp.
Qed.

(** What the engine refuses, it refuses without a trace.  A HOLD or
    NO_SIGNAL signal returns the engine exactly as it was and raises
    nothing.  A BUY or SELL at price zero raises (the sizing divides by the
    price) and leaves the engine as it was.  A SELL for a symbol without
    open position leaves the engine as it was.  And a BUY either leaves the
    engine as it was or logs exactly one BUY trade, for the signal's symbol
    and stamped with the timestamp it was executed at. *)
Theorem refused_signals_leave_engine_unchanged (self : BacktestEngine.t)
    (signal : Signal.t) (timestamp : datetime) :
  let r := _execute_signal self signal timestamp in
  (Signal.signal_type signal = HOLD \/ Signal.signal_type signal = NO_SIGNAL ->
   r = (self, None))
  /\ (Signal.signal_type signal = BUY \/ Signal.signal_type signal = SELL ->
      (Signal.price signal == 0)%Q ->
      exists e, r = (self, Some e))
  /\ (Signal.signal_type signal = SELL ->
      BacktestEngine.positions self !! Signal.symbol signal = None ->
      fst r = self)
  /\ (Signal.signal_type signal = BUY ->
      fst r = self
      \/ exists trade,
           BacktestEngine.trades (fst r) = BacktestEngine.trades self ++ [trade]
           /\ Trade.side trade = OrderSide_BUY
           /\ Trade.symbol trade = Signal.symbol signal
           /\ Trade.timestamp trade = timestamp).
Proof.
  intros r. unfold r. split; [|split; [|split]].
  - intros [H|H]; apply execute_signal_ignored; rewrite H; discriminate.
  - intros Ht Hp. eexists. now apply execute_signal_zero_price.
  - intros Ht Hn.
    destruct (execute_signal_cases self signal timestamp)
      as [Hsame | [(Hb & _) | (_ & _ & Hr)]].
    + exact Hsame.
    + congruence.
    + rewrite Hr. now rewrite execute_sell_no_position.
  - intros Ht.
    destruct (execute_signal_cases self signal timestamp)
      as [Hsame | [(_ & _ & Hr) | (Hs & _)]].
    + now left.
    + rewrite Hr. unfold execute_buy.
      destruct (Qlt_bool _ _); [now left|].
      destruct (BacktestEngine.positions self !! Signal.symbol signal) as [p|].
      * destruct (Qeq_bool _ 0); [now left|].
        right. eexists. engine_simpl. repeat split; reflexivity.
      * right. eexists. engine_simpl. repeat split; reflexivity.
    + congruence.
Qed.

Lemma refused_signals_leave_engine_unchanged_witness :
  let engine := BacktestEngine.__init__ default_config (series_provider []) in
  fst (_execute_signal engine (mk_signal SELL (mk_datetime 2020 1) 100)
                       (mk_datetime 2020 1)) = engine
  /\ (exists e,
        _execute_signal engine (mk_signal BUY (mk_datetime 2020 1) 0)
                        (mk_datetime 2020 1) = (engine, Some e))
  /\ _execute_signal engine (mk_signal HOLD (mk_datetime 2020 1) 100)
                     (mk_datetime 2020 1) = (engine, None).
Proof.
  intros engine.
  destruct (refused_signals_leave_engine_unchanged engine
              (mk_signal SELL (mk_datetime 2020 1) 100) (mk_datetime 2020 1))
    as (_ & _ & Hsell & _).
  destruct (refused_signals_leave_engine_unchanged engine
              (mk_signal BUY (mk_datetime 2020 1) 0) (mk_datetime 2020 1))
    as (_ & Hzero & _).
  destruct (refused_signals_leave_engine_unchanged engine
              (mk_signal HOLD (mk_datetime 2020 1) 100) (mk_datetime 2020 1))
    as (Hhold & _).
  split; [|split].
  - apply Hsell; reflexivity.
  - apply Hzero; [now left | reflexivity].
  - apply Hhold. now left.
Defined.

(** *** The books of a run: trade log and history *)

Lemma extends_trades_refl n self : extends_trades n self self.
Proof.
  split; [reflexivity|]. exists []. split; [now rewrite app_nil_r | cbn; lia].
Qed.

Lemma extends_trades_trans n m a b c :
  extends_trades n a b -> extends_trades m b c -> extends_trades (n + m) a c.
Proof.
  intros (C1 & t1 & T1 & L1) (C2 & t2 & T2 & L2).
  split; [congruence|]. exists (t1 ++ t2).
  split; [now rewrite T2, T1, app_assoc | rewrite length_app; lia].
Qed.

Lemma extends_trades_weaken n m a b :
  (n <= m)%nat -> extends_trades n a b -> extends_trades m a b.
Proof. intros Hle (C & t & T & L). split; [exact C|]. exists t. split; [exact T|lia]. Qed.

(** One signal: the history and the total value are not touched, and at most
    one trade is logged. *)
Lemma execute_signal_books self signal timestamp :
  let after := fst (_execute_signal self signal timestamp) in
  BacktestEngine.portfolio_history after = BacktestEngine.portfolio_history self
  /\ BacktestEngine.total_value after = BacktestEngine.total_value self
  /\ extends_trades 1 self after.
Proof.
  intros after. unfold after.
  assert (Hsame : BacktestEngine.portfolio_history self
                  = BacktestEngine.portfolio_history self
                  /\ BacktestEngine.total_value self = BacktestEngine.total_value self
                  /\ extends_trades 1 self self).
  { split; [reflexivity|]. split; [reflexivity|]. apply extends_trades_refl. }
  destruct (execute_signal_cases self signal timestamp)
    as [Heq | [(Ht & Hq & Hr) | (Ht & Hq & Hr)]].
  - now rewrite Heq.
  - rewrite Hr. unfold execute_buy.
    destruct (Qlt_bool _ _); [exact Hsame|].
    destruct (BacktestEngine.positions self !! Signal.symbol signal) as [p|].
    + destruct (Qeq_bool _ 0); [exact Hsame|].
      engine_simpl. split; [reflexivity|]. split; [reflexivity|].
      split; [reflexivity|]. eexists [_]. engine_simpl. split; [reflexivity|]. cbn; lia.
    + engine_simpl. split; [reflexivity|]. split; [reflexivity|].
      split; [reflexivity|]. eexists [_]. engine_simpl. split; [reflexivity|]. cbn; lia.
  - rewrite Hr. unfold execute_sell.
    destruct (BacktestEngine.positions self !! Signal.symbol signal) as [p|];
      [|exact Hsame].
    destruct (BacktestPosition.getattr p "realized_pnl").
    + engine_simpl. split; [reflexivity|]. split; [reflexivity|].
      split; [reflexivity|]. eexists [_]. engine_simpl. split; [reflexivity|]. cbn; lia.
    + engine_simpl. split; [reflexivity|]. split; [reflexivity|].
      split; [reflexivity|]. exists []. engine_simpl.
      split; [now rewrite app_nil_r | cbn; lia].
Qed.

Lemma execute_signals_books self signals timestamp :
  let after := fst (execute_signals self signals timestamp) in
  BacktestEngine.portfolio_history after = BacktestEngine.portfolio_history self
  /\ BacktestEngine.total_value after = BacktestEngine.total_value self
  /\ extends_trades (length signals) self after.
Proof.
  revert self. induction signals as [|signal rest IH]; intros self;
    cbn [execute_signals length].
  - split; [reflexivity|]. split; [reflexivity|]. apply extends_trades_refl.
  - destruct (execute_signal_books self signal timestamp) as (H1 & V1 & T1).
    destruct (_execute_signal self signal timestamp) as [self1 [e|]]; cbn [fst] in *.
    + split; [exact H1|]. split; [exact V1|].
      eapply extends_trades_weaken; [|exact T1]. lia.
    + destruct (IH self1) as (H2 & V2 & T2).
      split; [congruence|]. split; [congruence|].
      exact (extends_trades_trans 1 (length rest) _ _ _ T1 T2).
Qed.

Lemma update_portfolio_values_books self current_ohlcv :
  let after := _update_portfolio_values self current_ohlcv in
  BacktestEngine.portfolio_history after = BacktestEngine.portfolio_history self
  /\ extends_trades 0 self after.
Proof.
  cbv zeta. split; [reflexivity|]. split; [reflexivity|].
  exists []. split; [cbn; now rewrite app_nil_r | cbn; lia].
Qed.

Lemma process_bar_trades k strategy strategy_self self current_data ohlcv :
  (forall s d signals,
      TradingStrategy.generate_signals strategy s d = Ok signals ->
      (length signals <= k)%nat) ->
  extends_trades k self
    (fst (process_bar strategy strategy_self self current_data ohlcv)).
Proof.
  intros Hk. unfold process_bar.
  destruct (py_index current_data (-1)) as [last_bar|];
    [|apply extends_trades_refl].
  destruct (update_portfolio_values_books self last_bar) as (_ & T0).
  destruct (TradingStrategy.generate_signals _ _ _) as [signals|] eqn:Eg;
    [|eapply extends_trades_weaken; [|exact T0]; lia].
  apply Hk in Eg.
  destruct (execute_signals_books (_update_portfolio_values self last_bar) signals
              (OHLCV.timestamp ohlcv)) as (_ & _ & T1).
  pose proof (extends_trades_trans _ _ _ _ _ T0 T1) as T.
  destruct (execute_signals _ _ _) as [self2 [e|]]; cbn [fst] in *;
    (eapply extends_trades_weaken; [|exact T]); cbn; lia.
Qed.

Lemma backtest_loop_trades k strategy strategy_self historical_data i remaining self :
  (forall s d signals,
      TradingStrategy.generate_signals strategy s d = Ok signals ->
      (length signals <= k)%nat) ->
  extends_trades (k * length remaining) self
    (fst (backtest_loop strategy strategy_self historical_data i remaining self)).
Proof.
  intros Hk. revert i self.
  induction remaining as [|ohlcv rest IH]; intros i self; cbn [backtest_loop length].
  - apply extends_trades_refl.
  - pose proof (process_bar_trades k strategy strategy_self self
                  (take (i + 1) historical_data) ohlcv Hk) as T1.
    destruct (process_bar _ _ _ _ _) as [self1 [e|]]; cbn [fst] in *.
    + eapply extends_trades_weaken; [|exact T1]. lia.
    + pose proof (extends_trades_trans _ _ _ _ _ T1 (IH (S i) self1)) as T.
      eapply extends_trades_weaken; [|exact T]. lia.
Qed.

Lemma process_bar_history strategy strategy_self self current_data ohlcv :
  let after := fst (process_bar strategy strategy_self self current_data ohlcv) in
  snd (process_bar strategy strategy_self self current_data ohlcv) = None ->
  exists state,
    BacktestEngine.portfolio_history after
    = BacktestEngine.portfolio_history self ++ [state]
    /\ PortfolioState.timestamp state = OHLCV.timestamp ohlcv
    /\ PortfolioState.total_value state = BacktestEngine.total_value after.
Proof.
  cbv zeta. unfold process_bar.
  destruct (py_index current_data (-1)) as [last_bar|]; [|discriminate].
  destruct (TradingStrategy.generate_signals _ _ _) as [signals|]; [|discriminate].
  destruct (execute_signals_books (_update_portfolio_values self last_bar) signals
              (OHLCV.timestamp ohlcv)) as (H1 & _ & _).
  destruct (execute_signals _ _ _) as [self2 [e|]]; cbn [fst snd] in *;
    [discriminate|].
  intros _. eexists. engine_simpl. unfold _record_portfolio_state. engine_simpl.
  rewrite H1. split; [reflexivity|]. split; reflexivity.
Qed.

Lemma backtest_loop_history strategy strategy_self historical_data i remaining self :
  let after :=
    fst (backtest_loop strategy strategy_self historical_data i remaining self) in
  snd (backtest_loop strategy strategy_self historical_data i remaining self) = None ->
  PortfolioState.timestamp <$> BacktestEngine.portfolio_history after
  = (PortfolioState.timestamp <$> BacktestEngine.portfolio_history self)
    ++ (OHLCV.timestamp <$> remaining)
  /\ (remaining <> [] ->
      exists state,
        last (BacktestEngine.portfolio_history after) = Some state
        /\ PortfolioState.total_value state = BacktestEngine.total_value after).
Proof.
  cbv zeta. revert i self.
  induction remaining as [|ohlcv rest IH]; intros i self; cbn [backtest_loop].
  - intros _. split; [cbn; now rewrite app_nil_r | congruence].
  - pose proof (process_bar_history strategy strategy_self self
                  (take (i + 1) historical_data) ohlcv) as H1. cbv zeta in H1.
    destruct (process_bar _ _ _ _ _) as [self1 [e|]]; cbn [fst snd] in *;
      [discriminate|].
    destruct (H1 eq_refl) as (state & Hh & Ht & Hv).
    intros Hloop. destruct (IH (S i) self1 Hloop) as (IHt & IHl).
    split.
    + rewrite IHt, Hh, fmap_app, <- app_assoc. cbn. now rewrite Ht.
    + intros _. destruct rest as [|next rest'].
      * cbn [backtest_loop fst]. exists state. rewrite Hh, last_snoc. now split.
      * apply IHl. discriminate.
Qed.

Lemma calculate_results_books self strategy_name symbol result :
  BacktestEngine.portfolio_history self <> [] ->
  _calculate_results self strategy_name symbol = Ok result ->
  BacktestResult.portfolio_values result = BacktestEngine.portfolio_history self
  /\ BacktestResult.trades result = BacktestEngine.trades self
  /\ BacktestResult.final_capital result = BacktestEngine.total_value self
  /\ BacktestResult.initial_capital result
     = BacktestConfig.initial_capital (BacktestEngine.config self)
  /\ BacktestResult.strategy_name result = strategy_name
  /\ BacktestResult.symbol result = symbol.
Proof.
  intros Hne. unfold _calculate_results.
  destruct (BacktestEngine.portfolio_history self) as [|state rest] eqn:Eh;
    [congruence|]. cbn [is_empty].
  destruct (py_div _ _) as [total_return|]; cbn [mbind res_bind]; [|discriminate].
  destruct (daily_returns_loop _ _) as [daily_returns|]; cbn [mbind res_bind];
    [|discriminate].
  destruct (max_drawdown_loop _ _ _) as [max_drawdown|]; cbn [mbind res_bind];
    [|discriminate].
  intros [= <-]. cbn. repeat split; reflexivity.
Qed.

(** A run that returns a report has recorded exactly one portfolio state per
    bar of the data it pulled, in the order of the bars and stamped with the
    bars' timestamps, after whatever the engine's history held before; the
    report carries that history and the engine's trade log, and its final
    capital is the total value of the last recorded state. *)
Theorem run_records_one_state_per_bar (self : BacktestEngine.t)
    (strategy : TradingStrategy.t) (now : datetime) (result : BacktestResult.t) :
  let after := fst (run_backtest self strategy now) in
  let bars :=
    BacktestEngine.data_provider self
      (StrategyConfig.symbol (StrategySelf.config (TradingStrategy.self strategy)))
      (BacktestConfig.start_date (BacktestEngine.config self))
      (BacktestConfig.end_date (BacktestEngine.config self)) in
  snd (run_backtest self strategy now) = Ok result ->
  PortfolioState.timestamp <$> BacktestResult.portfolio_values result
  = (PortfolioState.timestamp <$> BacktestEngine.portfolio_history self)
    ++ (OHLCV.timestamp <$> bars)
  /\ BacktestResult.portfolio_values result = BacktestEngine.portfolio_history after
  /\ BacktestResult.trades result = BacktestEngine.trades after
  /\ exists state,
       last (BacktestResult.portfolio_values result) = Some state
       /\ BacktestResult.final_capital result = PortfolioState.total_value state.
Proof.
  cbv zeta. unfold run_backtest.
  destruct (is_empty _) eqn:Eempty; [discriminate|].
  destruct (TradingStrategy.initialize _ _ _) as [strategy_self|]; [|discriminate].
  match goal with
  | |- context [backtest_loop ?s ?ss ?hd ?i ?rem ?e] =>
      pose proof (backtest_loop_history s ss hd i rem e) as H; cbv zeta in H
  end.
  destruct (backtest_loop _ _ _ _ _ _) as [self1 [e|]]; cbn [fst snd] in *;
    [discriminate|].
  destruct (H eq_refl) as (Ht & Hl). intros Hres.
  assert (Hbars : forall (l : list OHLCV.t), is_empty l = false -> l <> [])
    by (intros [|? ?]; [discriminate|congruence]).
  destruct (Hl (Hbars _ Eempty)) as (state & Hlast & Hv).
  assert (Hne : BacktestEngine.portfolio_history self1 <> []).
  { intros E. rewrite E in Hlast. discriminate. }
  destruct (calculate_results_books _ _ _ _ Hne Hres) as (Rp & Rt & Rf & _).
  rewrite Rp, Rt, Rf. split; [exact Ht|]. split; [reflexivity|].
  split; [reflexivity|]. exists state. split; [exact Hlast | now rewrite Hv].
Qed.

Lemma run_records_one_state_per_bar_witness :
  exists result,
    snd one_bar_run = Ok result
    /\ PortfolioState.timestamp <$> BacktestResult.portfolio_values result
       = [mk_datetime 2020 0].
Proof.
  assert (H : exists result, snd one_bar_run = Ok result).
  { eexists. vm_compute. reflexivity. }
  destruct H as (result & H). exists result. split; [exact H|].
  exact (proj1 (run_records_one_state_per_bar
                  (BacktestEngine.__init__ default_config
                     (series_provider one_bar_series))
                  (SimpleMovingAverageStrategy sma_1_2_config
                     (series_provider one_bar_series))
                  (mk_datetime 2025 0) result H)).
Defined.

Lemma registry_signals_at_most_one np_std strategy_name config data_provider strategy :
  create_strategy np_std strategy_name config data_provider = Ok strategy ->
  forall s d signals,
    TradingStrategy.generate_signals strategy s d = Ok signals ->
    (length signals <= 1)%nat.
Proof.
  unfold create_strategy. intros Hc s d signals Hg.
  repeat (destruct (bool_decide _) in Hc; [injection Hc as <-; cbn in Hg|]).
  - exact (proj1 (sma_strategy_step_signals _ _ _ Hg)).
  - exact (proj1 (rsi_strategy_step_signals _ _ _ Hg)).
  - exact (proj1 (macd_strategy_step_signals _ _ _ Hg)).
  - exact (proj1 (proj1 (multi_strategy_step_signals np_std _ _ _ Hg))).
  - discriminate Hc.
Qed.

(** A run of one of the four registered strategies logs at most one trade
    per bar: however the run ends, the engine's trade log afterwards is the
    log it started with followed by no more new trades than the data has
    bars, and the configuration is the same. *)
Theorem registry_run_trades_at_most_one_per_bar (np_std : list Q -> Q)
    (strategy_name : string) (config : StrategyConfig.t)
    (data_provider : DataProvider) (strategy : TradingStrategy.t)
    (self : BacktestEngine.t) (now : datetime) :
  let bars :=
    BacktestEngine.data_provider self (StrategyConfig.symbol config)
      (BacktestConfig.start_date (BacktestEngine.config self))
      (BacktestConfig.end_date (BacktestEngine.config self)) in
  create_strategy np_std strategy_name config data_provider = Ok strategy ->
  extends_trades (length bars) self (fst (run_backtest self strategy now)).
Proof.
  intros bars Hc.
  assert (Hsym : StrategyConfig.symbol
                   (StrategySelf.config (TradingStrategy.self strategy))
                 = StrategyConfig.symbol config).
  { unfold create_strategy in Hc.
    repeat (destruct (bool_decide _) in Hc; [injection Hc as <-; reflexivity|]).
    discriminate Hc. }
  pose proof (registry_signals_at_most_one _ _ _ _ _ Hc) as Hk.
  unfold run_backtest. rewrite Hsym. fold bars.
  destruct (is_empty bars);
    [apply extends_trades_refl|].
  destruct (TradingStrategy.initialize _ _ _) as [strategy_self|];
    [|apply extends_trades_refl].
  pose proof (backtest_loop_trades 1 strategy strategy_self bars 0 bars self Hk) as T.
  destruct (backtest_loop _ _ _ _ _ _) as [self1 [e|]]; cbn [fst] in *;
    (eapply extends_trades_weaken; [|exact T]); lia.
Qed.

Lemma registry_run_trades_at_most_one_per_bar_witness :
  extends_trades 1
    (BacktestEngine.__init__ default_config (series_provider one_bar_series))
    (fst one_bar_run)
  /\ length (BacktestEngine.trades (fst one_bar_run)) = 1%nat.
Proof.
  split; [|vm_compute; reflexivity].
  apply (registry_run_trades_at_most_one_per_bar np_std_6 "sma_crossover"
           sma_1_2_config (series_provider one_bar_series)
           (SimpleMovingAverageStrategy sma_1_2_config
              (series_provider one_bar_series))
           (BacktestEngine.__init__ default_config (series_provider one_bar_series))
           (mk_datetime 2025 0)).
  reflexivity.
Defined.

(** *** The report *)

Lemma daily_returns_loop_Ok (history : list PortfolioState.t) :
  forall prev_value,
    ~ (prev_value == 0)%Q ->
    Forall (fun state => ~ (PortfolioState.total_value state == 0)%Q) history ->
    exists daily_returns,
      daily_returns_loop prev_value history = Ok daily_returns
      /\ length daily_returns = length history.
Proof.
  induction history as [|state rest IH]; intros prev_value Hp Hall;
    cbn [daily_returns_loop].
  - now exists [].
  - apply Forall_cons in Hall as [Hs Hrest].
    rewrite (py_div_Ok _ _ Hp). cbn [mbind res_bind].
    destruct (IH _ Hs Hrest) as (more & -> & Hlen). cbn [mbind res_bind].
    eexists. split; [reflexivity|]. cbn. now rewrite Hlen.
Qed.

Lemma daily_returns_loop_raises (history : list PortfolioState.t) :
  forall prev_value i state,
    history !! i = Some state ->
    (PortfolioState.total_value state == 0)%Q ->
    (S i < length history)%nat ->
    daily_returns_loop prev_value history = Raise ZeroDivisionError.
Proof.
  induction history as [|first rest IH]; intros prev_value i state Hl Hz Hlen;
    [discriminate Hl|].
  cbn [daily_returns_loop]. unfold py_div at 1.
  destruct (Qeq_bool prev_value 0); [reflexivity|]. cbn [mbind res_bind].
  destruct i as [|j].
  - injection Hl as ->. destruct rest as [|second rest']; [cbn in Hlen; lia|].
    cbn [daily_returns_loop]. unfold py_div at 1.
    apply Qeq_bool_iff in Hz. rewrite Hz. reflexivity.
  - cbn [length] in Hlen.
    rewrite (IH (PortfolioState.total_value first) j state Hl Hz); [reflexivity|lia].
Qed.

Lemma max_drawdown_loop_spec (history : list PortfolioState.t) :
  forall max_drawdown peak,
    (0 <= max_drawdown)%Q -> (max_drawdown < 1)%Q -> (0 < peak)%Q ->
    Forall (fun state => (0 < PortfolioState.total_value state)%Q) history ->
    exists drawdown,
      max_drawdown_loop max_drawdown peak history = Ok drawdown
      /\ (max_drawdown <= drawdown)%Q /\ (drawdown < 1)%Q
      /\ Forall (fun state =>
                   ((1 - drawdown) * peak <= PortfolioState.total_value state)%Q)
                history.
Proof.
  induction history as [|state rest IH]; intros md peak Hmd0 Hmd1 Hpeak Hall;
    cbn [max_drawdown_loop].
  - exists md. split; [reflexivity|]. split; [lra|]. split; [exact Hmd1|constructor].
  - apply Forall_cons in Hall as [Hv Hrest].
    set (v := PortfolioState.total_value state) in *.
    set (peak' := if Qlt_bool peak v then v else peak).
    assert (Hp' : (peak <= peak')%Q /\ (v <= peak')%Q /\ (0 < peak')%Q).
    { unfold peak'. destruct (Qlt_bool peak v) eqn:E.
      - apply Qlt_bool_true in E. repeat split; lra.
      - apply Qlt_bool_false in E. repeat split; lra. }
    destruct Hp' as (P1 & P2 & P3).
    rewrite py_div_Ok by lra. cbn [mbind res_bind].
    set (dd := ((peak' - v) / peak')%Q).
    assert (Hdd : (dd * peak' == peak' - v)%Q) by (unfold dd; field; lra).
    assert (Hdd0 : (0 <= dd)%Q).
    { unfold dd. apply Qle_shift_div_l; [exact P3|]. lra. }
    assert (Hdd1 : (dd < 1)%Q).
    { unfold dd. apply Qlt_shift_div_r; [exact P3|]. lra. }
    assert (M0 : (0 <= Qmax md dd)%Q).
    { eapply Qle_trans; [exact Hmd0 | apply Q.le_max_l]. }
    assert (M1 : (Qmax md dd < 1)%Q) by (apply Q.max_lub_lt; assumption).
    destruct (IH (Qmax md dd) peak' M0 M1 P3 Hrest) as (d & Hd & D0 & D1 & Dall).
    exists d. split; [exact Hd|].
    assert (Dmd : (md <= d)%Q).
    { eapply Qle_trans; [apply Q.le_max_l | exact D0]. }
    assert (Ddd : (dd <= d)%Q).
    { eapply Qle_trans; [apply Q.le_max_r | exact D0]. }
    assert (Hscale : ((1 - d) * peak <= (1 - d) * peak')%Q).
    { apply Qmult_le_l; [lra | exact P1]. }
    split; [exact Dmd|]. split; [exact D1|].
    constructor.
    + fold v. assert (X : (dd * peak' <= d * peak')%Q).
      { apply Qmult_le_compat_r; [exact Ddd | lra]. }
      rewrite Hdd in X.
      eapply Qle_trans; [exact Hscale|].
      setoid_replace ((1 - d) * peak')%Q with (peak' - d * peak')%Q
        using relation Qeq by ring.
      lra.
    + eapply Forall_impl; [exact Dall|]. cbn beta. intros s Hs.
      eapply Qle_trans; [exact Hscale | exact Hs].
Qed.

Lemma calculate_results_positive (self : BacktestEngine.t)
    (strategy_name symbol : string) :
  let initial_capital :=
    BacktestConfig.initial_capital (BacktestEngine.config self) in
  BacktestEngine.portfolio_history self <> [] ->
  (0 < initial_capital)%Q ->
  Forall (fun state => (0 < PortfolioState.total_value state)%Q)
         (BacktestEngine.portfolio_history self) ->
  exists result,
    _calculate_results self strategy_name symbol = Ok result
    /\ (0 <= BacktestResult.max_drawdown result)%Q
    /\ (BacktestResult.max_drawdown result <= 1)%Q
    /\ Forall (fun state =>
                 ((1 - BacktestResult.max_drawdown result) * initial_capital
                  <= PortfolioState.total_value state)%Q)
              (BacktestResult.portfolio_values result)
    /\ (BacktestResult.total_return result * initial_capital
        == BacktestEngine.total_value self - initial_capital)%Q.
Proof.
  intros initial_capital Hne Hcap Hall. unfold _calculate_results.
  fold initial_capital.
  destruct (BacktestEngine.portfolio_history self) as [|state rest] eqn:Eh;
    [congruence|]. cbn [is_empty].
  rewrite py_div_Ok by lra. cbn [mbind res_bind].
  destruct (daily_returns_loop_Ok (state :: rest) initial_capital) as (rs & -> & _).
  { lra. }
  { eapply Forall_impl; [exact Hall|]. cbn beta. intros s Hs. lra. }
  cbn [mbind res_bind].
  destruct (max_drawdown_loop_spec (state :: rest) 0 initial_capital)
    as (d & -> & D0 & D1 & Dall); [lra | lra | exact Hcap | exact Hall |].
  cbn [mbind res_bind]. eexists. split; [reflexivity|].
  cbn [BacktestResult.max_drawdown BacktestResult.portfolio_values
       BacktestResult.total_return].
  split; [exact D0|]. split; [apply Qlt_le_weak; exact D1|]. split; [exact Dall|].
  field. lra.
Qed.

(** A report over positive amounts.  When [_calculate_results] returns a
    report whose initial capital and recorded total values are positive and
    of a magnitude the floats hold, the maximum drawdown lies between 0 and
    1, and it is positive as soon as one recorded total value is below the
    initial capital; the total return is not negative when the final capital
    is at least the initial one, not positive when it is at most the initial
    one, and at least -1 when the final capital is not negative. *)
Theorem report_drawdown_bounds (self : BacktestEngine.t)
    (strategy_name symbol : string) (result : BacktestResult.t) :
  _calculate_results self strategy_name symbol = Ok result ->
  let initial := BacktestResult.initial_capital result in
  let final := BacktestResult.final_capital result in
  (0 < initial)%Q -> float_safe initial ->
  Forall (fun state => (0 < PortfolioState.total_value state)%Q
                       /\ float_safe (PortfolioState.total_value state))
         (BacktestEngine.portfolio_history self) ->
  (0 <= BacktestResult.max_drawdown result)%Q
  /\ (BacktestResult.max_drawdown result <= 1)%Q
  /\ ((exists state,
         state ∈ BacktestEngine.portfolio_history self
         /\ (PortfolioState.total_value state < initial)%Q) ->
      (0 < BacktestResult.max_drawdown result)%Q)
  /\ ((initial <= final)%Q -> (0 <= BacktestResult.total_return result)%Q)
  /\ ((final <= initial)%Q -> (BacktestResult.total_return result <= 0)%Q)
  /\ ((0 <= final)%Q -> (-1 <= BacktestResult.total_return result)%Q).
Proof.
  intros H initial final Hpos _ Hall.
  destruct (BacktestEngine.portfolio_history self) as [|state rest] eqn:Eh.
  { unfold _calculate_results in H. rewrite Eh in H. cbn [is_empty] in H.
    injection H as <-. cbn. repeat split; try lra.
    intros (s & Hin & _). now apply elem_of_nil in Hin. }
  assert (Hpositive : Forall (fun s => (0 < PortfolioState.total_value s)%Q)
                             (BacktestEngine.portfolio_history self)).
  { rewrite Eh. eapply Forall_impl; [exact Hall|]. cbn beta. now intros s [H0 _]. }
  assert (Hne : BacktestEngine.portfolio_history self <> [])
    by (rewrite Eh; discriminate).
  assert (Hcap : (0 < BacktestConfig.initial_capital (BacktestEngine.config self))%Q).
  { destruct (calculate_results_books _ _ _ _ Hne H) as (_ & _ & _ & Hi & _).
    unfold initial in Hpos. now rewrite Hi in Hpos. }
  destruct (calculate_results_positive self strategy_name symbol Hne Hcap Hpositive)
    as (result' & H' & D0 & D1 & Dall & Htr).
  rewrite H in H'. injection H' as <-.
  destruct (calculate_results_books _ _ _ _ Hne H) as (Hpv & _ & Hf & Hi & _).
  unfold initial, final in *. rewrite Hi, Hf in *. rewrite Hpv in Dall.
  set (c := BacktestConfig.initial_capital (BacktestEngine.config self)) in *.
  set (f := BacktestEngine.total_value self) in *.
  set (tr := BacktestResult.total_return result) in *.
  set (d := BacktestResult.max_drawdown result) in *.
  assert (Etr : (tr == (f - c) / c)%Q).
  { rewrite <- Htr. field. lra. }
  split; [exact D0|]. split; [exact D1|]. split; [|split; [|split]].
  - intros (s & Hin & Hlow).
    rewrite Forall_forall in Dall. rewrite Eh in Dall.
    specialize (Dall s Hin). cbn beta in Dall.
    destruct (Qlt_le_dec 0 d) as [Hd|Hd]; [exact Hd|].
    exfalso.
    assert (X : (0 <= (- d) * c)%Q) by (apply Qmult_le_0_compat; lra).
    assert (Y : ((1 - d) * c == c + (- d) * c)%Q) by ring.
    rewrite Y in Dall. lra.
  - intros Hge. rewrite Etr. apply Qle_shift_div_l; [exact Hcap | lra].
  - intros Hle. rewrite Etr. apply Qle_shift_div_r; [exact Hcap | lra].
  - intros Hf0. rewrite Etr. apply Qle_shift_div_l; [exact Hcap | lra].
Qed.

Lemma report_drawdown_bounds_witness :
  exists result,
    _calculate_results (fst one_bar_run) "sma_crossover" "TEST" = Ok result
    /\ (0 <= BacktestResult.max_drawdown result)%Q
    /\ (BacktestResult.max_drawdown result <= 1)%Q
    /\ (0 <= BacktestResult.total_return result)%Q.
Proof.
  assert (H : exists result,
             _calculate_results (fst one_bar_run) "sma_crossover" "TEST"
             = Ok result
             /\ (0 < BacktestResult.initial_capital result)%Q
             /\ float_safe (BacktestResult.initial_capital result)
             /\ (BacktestResult.initial_capital result
                 <= BacktestResult.final_capital result)%Q).
  { eexists. split; [vm_compute; reflexivity|].
    split; [reflexivity|]. split; [split|]; vm_compute; discriminate. }
  destruct H as (result & H & Hpos & Hsafe & Hge).
  destruct (report_drawdown_bounds (fst one_bar_run) "sma_crossover" "TEST"
              result H Hpos Hsafe)
    as (D0 & D1 & _ & Tr & _).
  - match goal with
    | |- Forall ?P ?l => let l' := eval vm_compute in l in change (Forall P l')
    end.
    constructor; [|constructor].
    split; [reflexivity|]. split; vm_compute; discriminate.
  - exists result. split; [exact H|]. split; [exact D0|]. split; [exact D1|].
    exact (Tr Hge).
Defined.

(** A recorded total value of zero that is not the last one makes the report
    fail: the daily return of the next state divides by it, and
    [_calculate_results] raises [ZeroDivisionError]. *)
Theorem report_raises_after_zero_value (self : BacktestEngine.t)
    (strategy_name symbol : string) (i : nat) (state : PortfolioState.t) :
  BacktestEngine.portfolio_history self !! i = Some state ->
  (PortfolioState.total_value state == 0)%Q ->
  (S i < length (BacktestEngine.portfolio_history self))%nat ->
  _calculate_results self strategy_name symbol = Raise ZeroDivisionError.
Proof.
  intros Hl Hz Hlen. unfold _calculate_results.
  destruct (BacktestEngine.portfolio_history self) as [|first rest] eqn:Eh;
    [discriminate Hl|]. cbn [is_empty].
  unfold py_div at 1. destruct (Qeq_bool _ 0); [reflexivity|].
  cbn [mbind res_bind].
  now rewrite (daily_returns_loop_raises (first :: rest) _ i state Hl Hz Hlen).
Qed.

Lemma report_raises_after_zero_value_witness :
  _calculate_results (fst wipe_out_run) "buy_first_bar" "TEST"
  = Raise ZeroDivisionError.
Proof.
  eapply (report_raises_after_zero_value (fst wipe_out_run) _ _ 1).
  - vm_compute. reflexivity.
  - reflexivity.
  - vm_compute. lia.
Defined.

Lemma process_bar_config strategy strategy_self self current_data ohlcv :
  BacktestEngine.config (fst (process_bar strategy strategy_self self current_data ohlcv))
  = BacktestEngine.config self.
Proof.
  unfold process_bar.
  destruct (py_index current_data (-1)) as [last_bar|]; [|reflexivity].
  destruct (TradingStrategy.generate_signals _ _ _) as [signals|]; [|reflexivity].
  destruct (execute_signals_books (_update_portfolio_values self last_bar) signals
              (OHLCV.timestamp ohlcv)) as (_ & _ & C & _).
  destruct (execute_signals _ _ _) as [self2 [e|]]; cbn [fst] in *; exact C.
Qed.

Lemma backtest_loop_config strategy strategy_self historical_data i remaining self :
  BacktestEngine.config
    (fst (backtest_loop strategy strategy_self historical_data i remaining self))
  = BacktestEngine.config self.
Proof.
  revert i self. induction remaining as [|ohlcv rest IH]; intros i self;
    cbn [backtest_loop]; [reflexivity|].
  pose proof (process_bar_config strategy strategy_self self
                (take (i + 1) historical_data) ohlcv) as C.
  destruct (process_bar _ _ _ _ _) as [self1 [e|]]; cbn [fst] in *; [exact C|].
  now rewrite IH.
Qed.

(** With an initial capital of zero no backtest returns a report: either the
    run fails before the report, or the report's total return divides by the
    initial capital. *)
Theorem zero_capital_run_never_reports (self : BacktestEngine.t)
    (strategy : TradingStrategy.t) (now : datetime) :
  (BacktestConfig.initial_capital (BacktestEngine.config self) == 0)%Q ->
  exists e, snd (run_backtest self strategy now) = Raise e.
Proof.
  intros Hzero. unfold run_backtest.
  destruct (is_empty _) eqn:Eempty; [now eexists|].
  destruct (TradingStrategy.initialize _ _ _) as [strategy_self|]; [|now eexists].
  match goal with
  | |- context [backtest_loop ?s ?ss ?hd ?i ?rem ?e] =>
      pose proof (backtest_loop_history s ss hd i rem e) as H; cbv zeta in H;
      pose proof (backtest_loop_config s ss hd i rem e) as C
  end.
  destruct (backtest_loop _ _ _ _ _ _) as [self1 [e|]]; cbn [fst snd] in *;
    [now eexists|].
  destruct (H eq_refl) as (_ & Hl).
  destruct Hl as (state & Hlast & _).
  { intros E. rewrite E in Eempty. discriminate. }
  exists ZeroDivisionError. unfold _calculate_results.
  destruct (BacktestEngine.portfolio_history self1); [discriminate Hlast|].
  cbn [is_empty]. rewrite C. unfold py_div at 1.
  apply Qeq_bool_iff in Hzero. now rewrite Hzero.
Qed.

Lemma zero_capital_run_never_reports_witness :
  exists e,
    snd (run_backtest
           (BacktestEngine.__init__ zero_capital_config
              (series_provider one_bar_series))
           buy_then_sell_strategy (mk_datetime 2025 0))
    = Raise e.
Proof.
  apply (zero_capital_run_never_reports
           (BacktestEngine.__init__ zero_capital_config
              (series_provider one_bar_series))
           buy_then_sell_strategy (mk_datetime 2025 0)).
  reflexivity.
Defined.

(** *** A run without signals *)

Lemma py_index_last_of_take {A} (l : list A) (i : nat) :
  l <> [] -> exists x, py_index (take (i + 1) l) (-1) = Ok x.
Proof.
  intros Hne. apply py_index_last. destruct l; [congruence|].
  rewrite Nat.add_1_r. discriminate.
Qed.

Lemma silent_process_bar strategy strategy_self self current_data ohlcv c :
  silent strategy ->
  current_data <> [] ->
  BacktestEngine.positions self = ∅ ->
  BacktestEngine.cash self = c ->
  exists state,
    all_cash c state
    /\ process_bar strategy strategy_self self current_data ohlcv
       = (BacktestEngine.append_history
            (BacktestEngine.set_total_value self c) state, None).
Proof.
  intros Hsilent Hne Hpos Hcash.
  destruct self as [cfg dp pf ps ts hist]. cbn in Hpos, Hcash. subst ps c.
  unfold process_bar.
  destruct (py_index_last current_data Hne) as (last_bar & ->).
  rewrite Hsilent. cbn [execute_signals].
  unfold _record_portfolio_state, _update_portfolio_values, add_position_values.
  engine_simpl. rewrite !fmap_empty, map_fold_empty.
  eexists. split; [|reflexivity]. repeat split.
Qed.

Lemma silent_loop strategy strategy_self historical_data c remaining :
  silent strategy ->
  historical_data <> [] ->
  forall i self,
    BacktestEngine.positions self = ∅ ->
    BacktestEngine.cash self = c ->
    BacktestEngine.total_value self = c ->
    Forall (all_cash c) (BacktestEngine.portfolio_history self) ->
    exists after,
      backtest_loop strategy strategy_self historical_data i remaining self
      = (after, None)
      /\ BacktestEngine.positions after = ∅
      /\ BacktestEngine.cash after = c
      /\ BacktestEngine.total_value after = c
      /\ BacktestEngine.trades after = BacktestEngine.trades self
      /\ BacktestEngine.config after = BacktestEngine.config self
      /\ Forall (all_cash c) (BacktestEngine.portfolio_history after)
      /\ length (BacktestEngine.portfolio_history after)
         = (length (BacktestEngine.portfolio_history self) + length remaining)%nat.
Proof.
  intros Hsilent Hne. induction remaining as [|ohlcv rest IH];
    intros i self Hpos Hcash Hvalue Hhist; cbn [backtest_loop].
  - exists self. cbn [length]. rewrite Nat.add_0_r. repeat split; assumption.
  - assert (Htake : take (i + 1) historical_data <> []).
    { destruct historical_data; [congruence|]. rewrite Nat.add_1_r. discriminate. }
    destruct (silent_process_bar strategy strategy_self self _ ohlcv c
                Hsilent Htake Hpos Hcash) as (state & Hstate & ->).
    destruct (IH (S i)
                (BacktestEngine.append_history
                   (BacktestEngine.set_total_value self c) state))
      as (after & -> & A1 & A2 & A3 & A4 & A5 & A6 & A7).
    + exact Hpos.
    + exact Hcash.
    + reflexivity.
    + engine_simpl. apply Forall_app. split; [exact Hhist|].
      constructor; [exact Hstate|constructor].
    + exists after. engine_simpl. rewrite length_app in A7. cbn [length] in *.
      repeat split; try assumption. lia.
Qed.

Lemma max_drawdown_loop_flat (c : Q) (history : list PortfolioState.t) :
  ~ (c == 0)%Q ->
  Forall (all_cash c) history ->
  forall max_drawdown,
    (max_drawdown == 0)%Q ->
    exists drawdown,
      max_drawdown_loop max_drawdown c history = Ok drawdown /\ (drawdown == 0)%Q.
Proof.
  intros Hc. induction history as [|state rest IH]; intros Hall md Hmd;
    cbn [max_drawdown_loop].
  - now exists md.
  - apply Forall_cons in Hall as [(Hv & _) Hrest]. rewrite Hv.
    assert (E : Qlt_bool c c = false) by (apply Qlt_bool_false; lra).
    rewrite E. rewrite (py_div_Ok _ _ Hc). cbn [mbind res_bind].
    apply (IH Hrest).
    assert (Hdd : ((c - c) / c == 0)%Q) by (field; exact Hc).
    apply Qle_antisym.
    + apply Q.max_lub; lra.
    + eapply Qle_trans; [|apply Q.le_max_l]. lra.
Qed.

Lemma silent_run_report (config : BacktestConfig.t)
    (data_provider : DataProvider) (strategy : TradingStrategy.t) (now : datetime) :
  let capital := BacktestConfig.initial_capital config in
  let bars :=
    data_provider
      (StrategyConfig.symbol (StrategySelf.config (TradingStrategy.self strategy)))
      (BacktestConfig.start_date config) (BacktestConfig.end_date config) in
  silent strategy ->
  is_Ok (TradingStrategy.initialize strategy now (TradingStrategy.self strategy)) ->
  bars <> [] ->
  ~ (capital == 0)%Q ->
  exists result,
    snd (run_backtest (BacktestEngine.__init__ config data_provider) strategy now)
    = Ok result
    /\ BacktestResult.final_capital result = capital
    /\ (BacktestResult.total_return result == 0)%Q
    /\ (BacktestResult.max_drawdown result == 0)%Q
    /\ BacktestResult.trades result = []
    /\ length (BacktestResult.portfolio_values result) = length bars
    /\ Forall (all_cash capital) (BacktestResult.portfolio_values result)
    /\ BacktestResult.initial_capital result = capital.
Proof.
  intros capital bars Hsilent Hinit Hbars Hcap. unfold run_backtest.
  cbn [BacktestEngine.data_provider BacktestEngine.config BacktestEngine.__init__].
  fold bars.
  destruct bars as [|bar rest] eqn:Ebars; [congruence|]. cbn [is_empty].
  destruct (TradingStrategy.initialize _ _ _) as [strategy_self|];
    [|contradiction].
  destruct (silent_loop strategy strategy_self (bar :: rest) capital (bar :: rest)
              Hsilent Hbars 0 (BacktestEngine.__init__ config data_provider))
    as (after & -> & A1 & A2 & A3 & A4 & A5 & A6 & A7);
    try reflexivity; [constructor|].
  cbn [fst snd]. unfold _calculate_results. rewrite A5, A3, A4.
  cbn [BacktestEngine.config BacktestEngine.trades BacktestEngine.__init__
       BacktestEngine.portfolio_history] in *.
  fold capital.
  destruct (BacktestEngine.portfolio_history after) as [|state more] eqn:Eh;
    [cbn in A7; lia|]. cbn [is_empty].
  rewrite (py_div_Ok _ _ Hcap). cbn [mbind res_bind].
  destruct (daily_returns_loop_Ok (state :: more) capital Hcap) as (rs & -> & _).
  { eapply Forall_impl; [exact A6|]. cbn beta. intros s (Hv & _). now rewrite Hv. }
  cbn [mbind res_bind].
  destruct (max_drawdown_loop_flat capital (state :: more) Hcap A6 0)
    as (d & -> & Hd); [reflexivity|].
  cbn [mbind res_bind]. eexists. split; [reflexivity|].
  cbn [BacktestResult.final_capital BacktestResult.total_return
       BacktestResult.max_drawdown BacktestResult.trades
       BacktestResult.portfolio_values BacktestResult.initial_capital].
  split; [reflexivity|]. split; [field; exact Hcap|]. split; [exact Hd|].
  split; [reflexivity|]. split; [exact A7|]. split; [exact A6 | reflexivity].
Qed.

(** A strategy that never signals leaves the capital alone: on a fresh
    engine with some data and an initial capital that is a positive float
    (neither too small nor too large), the run returns a report without
    trades, with one state per bar that holds the initial capital in cash
    and no position, a final capital equal to the initial one, and a total
    return and a maximum drawdown of zero.  (The annualized return of such a
    run is a power of 1 and its daily returns are all zero, so the metrics
    the report record leaves out cannot fail here.) *)
Theorem silent_run_keeps_capital (config : BacktestConfig.t)
    (data_provider : DataProvider) (strategy : TradingStrategy.t) (now : datetime) :
  let bars :=
    data_provider
      (StrategyConfig.symbol (StrategySelf.config (TradingStrategy.self strategy)))
      (BacktestConfig.start_date config) (BacktestConfig.end_date config) in
  silent strategy ->
  is_Ok (TradingStrategy.initialize strategy now (TradingStrategy.self strategy)) ->
  bars <> [] ->
  float_safe_positive (BacktestConfig.initial_capital config) ->
  exists result,
    snd (run_backtest (BacktestEngine.__init__ config data_provider) strategy now)
    = Ok result
    /\ BacktestResult.final_capital result = BacktestResult.initial_capital result
    /\ (BacktestResult.total_return result == 0)%Q
    /\ (BacktestResult.max_drawdown result == 0)%Q
    /\ BacktestResult.trades result = []
    /\ length (BacktestResult.portfolio_values result) = length bars
    /\ Forall (all_cash (BacktestResult.initial_capital result))
              (BacktestResult.portfolio_values result).
Proof.
  intros bars Hsilent Hinit Hbars [Hlow _].
  assert (Hcap : ~ (BacktestConfig.initial_capital config == 0)%Q).
  { intros E. rewrite E in Hlow. revert Hlow. vm_compute. congruence. }
  destruct (silent_run_report config data_provider strategy now
              Hsilent Hinit Hbars Hcap)
    as (result & H & F & Tr & D & T & L & A & I).
  exists result. rewrite I. repeat split; assumption.
Qed.

Lemma silent_run_keeps_capital_witness :
  exists result,
    snd (run_backtest
           (BacktestEngine.__init__ default_config (series_provider wipe_out_series))
           do_nothing_strategy (mk_datetime 2025 0))
    = Ok result
    /\ BacktestResult.final_capital result = BacktestResult.initial_capital result
    /\ length (BacktestResult.portfolio_values result) = 3%nat.
Proof.
  destruct (silent_run_keeps_capital default_config (series_provider wipe_out_series)
              do_nothing_strategy (mk_datetime 2025 0))
    as (result & H & F & _ & _ & _ & L & _).
  - intros strategy_self current_data. reflexivity.
  - exact I.
  - vm_compute. discriminate.
  - split; vm_compute; discriminate.
  - exists result. split; [exact H|]. split; [exact F | exact L].
Defined.

(** *** [BacktestRunner] *)

Lemma create_strategy_cases np_std strategy_name config data_provider :
  ((strategy_name ∉ ["sma_crossover"; "rsi"; "macd"; "multi_indicator"])
   /\ create_strategy np_std strategy_name config data_provider = Raise ValueError)
  \/ ((strategy_name ∈ ["sma_crossover"; "rsi"; "macd"; "multi_indicator"])
      /\ exists strategy,
           create_strategy np_std strategy_name config data_provider = Ok strategy
           /\ TradingStrategy.self strategy
              = StrategySelf.__init__ config data_provider).
Proof.
  unfold create_strategy.
  repeat match goal with
  | |- context [bool_decide (strategy_name = ?s)] =>
      destruct (decide (strategy_name = s)) as [->|?];
      [right; split;
       [rewrite !elem_of_cons; repeat first [left; reflexivity | right]
       | eexists; split; reflexivity]
      | rewrite (bool_decide_eq_false_2 (strategy_name = s)) by assumption]
  end.
  left. split; [|reflexivity]. rewrite !not_elem_of_cons.
  repeat split; try assumption. apply not_elem_of_nil.
Qed.

Lemma calculate_results_identity self strategy_name symbol result :
  _calculate_results self strategy_name symbol = Ok result ->
  BacktestResult.strategy_name result = strategy_name
  /\ BacktestResult.symbol result = symbol
  /\ BacktestResult.initial_capital result
     = BacktestConfig.initial_capital (BacktestEngine.config self)
  /\ BacktestResult.start_date result
     = BacktestConfig.start_date (BacktestEngine.config self)
  /\ BacktestResult.end_date result
     = BacktestConfig.end_date (BacktestEngine.config self).
Proof.
  unfold _calculate_results. destruct (is_empty _).
  - intros [= <-]. cbn. repeat split; reflexivity.
  - destruct (py_div _ _) as [total_return|]; cbn [mbind res_bind]; [|discriminate].
    destruct (daily_returns_loop _ _) as [daily_returns|]; cbn [mbind res_bind];
      [|discriminate].
    destruct (max_drawdown_loop _ _ _) as [max_drawdown|]; cbn [mbind res_bind];
      [|discriminate].
    intros [= <-]. cbn. repeat split; reflexivity.
Qed.

Lemma run_backtest_identity self strategy now result :
  snd (run_backtest self strategy now) = Ok result ->
  let strategy_config := StrategySelf.config (TradingStrategy.self strategy) in
  BacktestResult.strategy_name result = StrategyConfig.name strategy_config
  /\ BacktestResult.symbol result = StrategyConfig.symbol strategy_config
  /\ BacktestResult.initial_capital result
     = BacktestConfig.initial_capital (BacktestEngine.config self)
  /\ BacktestResult.start_date result
     = BacktestConfig.start_date (BacktestEngine.config self)
  /\ BacktestResult.end_date result
     = BacktestConfig.end_date (BacktestEngine.config self).
Proof.
  unfold run_backtest. destruct (is_empty _); [discriminate|].
  destruct (TradingStrategy.initialize _ _ _) as [strategy_self|]; [|discriminate].
  match goal with
  | |- context [backtest_loop ?s ?ss ?hd ?i ?rem ?e] =>
      pose proof (backtest_loop_config s ss hd i rem e) as C
  end.
  destruct (backtest_loop _ _ _ _ _ _) as [self1 [e|]]; cbn [fst snd] in *;
    [discriminate|].
  intros H. apply calculate_results_identity in H. rewrite C in H. exact H.
Qed.

Lemma run_strategy_backtest_ValueError np_std self now strategy_name symbol
    start_date end_date initial_capital strategy_params :
  (strategy_name ∉ ["sma_crossover"; "rsi"; "macd"; "multi_indicator"])
  \/ self symbol start_date end_date = [] ->
  run_strategy_backtest np_std self now strategy_name symbol start_date end_date
                        initial_capital strategy_params
  = Raise ValueError.
Proof.
  intros Hcase. unfold run_strategy_backtest.
  match goal with
  | |- context [create_strategy np_std strategy_name ?config self] =>
      destruct (create_strategy_cases np_std strategy_name config self)
        as [(Hnot & ->) | (Hin & strategy & -> & Hself)]
  end; [reflexivity|].
  destruct Hcase as [Hnot | Hempty]; [contradiction|].
  cbn [mbind res_bind]. unfold run_backtest. rewrite Hself.
  cbn [StrategySelf.config StrategySelf.__init__ StrategyConfig.symbol
       BacktestEngine.data_provider BacktestEngine.config BacktestEngine.__init__
       BacktestConfig.start_date BacktestConfig.end_date].
  rewrite Hempty. reflexivity.
Qed.

(** [run_strategy_backtest] fails with [ValueError] both for a strategy name
    the factory does not know and for a range in which the provider has no
    bars for the symbol: the caller cannot tell the two apart by the
    exception type. *)
Theorem run_strategy_backtest_value_errors (np_std : list Q -> Q)
    (self : DataProvider) (now : datetime) (strategy_name symbol : string)
    (start_date end_date : datetime) (initial_capital : Q)
    (strategy_params : option (gmap string py_value)) :
  (strategy_name ∉ ["sma_crossover"; "rsi"; "macd"; "multi_indicator"])
  \/ self symbol start_date end_date = [] ->
  run_strategy_backtest np_std self now strategy_name symbol start_date end_date
                        initial_capital strategy_params
  = Raise ValueError.
Proof. apply run_strategy_backtest_ValueError. Qed.

Lemma run_strategy_backtest_value_errors_witness :
  run_strategy_backtest np_std_6 (series_provider one_bar_series) (mk_datetime 2025 0)
    "momentum" "TEST" (mk_datetime 2020 0) (mk_datetime 2020 1000) 100000 None
  = Raise ValueError
  /\ run_strategy_backtest np_std_6 (series_provider one_bar_series)
       (mk_datetime 2025 0)
       "rsi" "TEST" (mk_datetime 2021 0) (mk_datetime 2021 1000) 100000 None
     = Raise ValueError.
Proof.
  split.
  - apply (run_strategy_backtest_value_errors np_std_6
             (series_provider one_bar_series) (mk_datetime 2025 0) "momentum").
    left. rewrite !not_elem_of_cons. repeat split; try discriminate.
    apply not_elem_of_nil.
  - apply (run_strategy_backtest_value_errors np_std_6
             (series_provider one_bar_series) (mk_datetime 2025 0) "rsi").
    right. vm_compute. reflexivity.
Defined.

Lemma run_strategy_backtest_identity np_std self now strategy_name symbol
    start_date end_date initial_capital strategy_params result :
  run_strategy_backtest np_std self now strategy_name symbol start_date end_date
                        initial_capital strategy_params = Ok result ->
  (strategy_name ∈ ["sma_crossover"; "rsi"; "macd"; "multi_indicator"])
  /\ self symbol start_date end_date <> []
  /\ BacktestResult.strategy_name result = strategy_name
  /\ BacktestResult.symbol result = symbol
  /\ BacktestResult.initial_capital result = initial_capital
  /\ BacktestResult.start_date result = start_date
  /\ BacktestResult.end_date result = end_date.
Proof.
  intros H.
  assert (Hdata : self symbol start_date end_date = []
                  \/ self symbol start_date end_date <> []).
  { destruct (self symbol start_date end_date); [now left | now right]. }
  destruct Hdata as [Hempty|Hdata].
  { rewrite (run_strategy_backtest_ValueError np_std self now strategy_name symbol
               start_date end_date initial_capital strategy_params
               (or_intror Hempty)) in H. discriminate H. }
  revert H. unfold run_strategy_backtest.
  match goal with
  | |- context [create_strategy np_std strategy_name ?config self] =>
      destruct (create_strategy_cases np_std strategy_name config self)
        as [(Hnot & ->) | (Hin & strategy & -> & Hself)]
  end; [discriminate|].
  cbn [mbind res_bind]. intros H. apply run_backtest_identity in H.
  cbv zeta in H. rewrite Hself in H. cbn in H.
  destruct H as (H1 & H2 & H3 & H4 & H5).
  repeat split; assumption.
Qed.

Lemma compare_loop_origin np_std self now symbol start_date end_date initial_capital
    name result strategies :
  forall i results,
    compare_loop np_std self now symbol start_date end_date initial_capital
                 i strategies results !! name = Some result ->
    results !! name = Some result
    \/ exists j,
         strategies !! j = Some name
         /\ run_strategy_backtest np_std self (now (i + j)%nat) name symbol
              start_date end_date initial_capital None = Ok result.
Proof.
  induction strategies as [|strategy_name rest IH]; intros i results;
    cbn [compare_loop]; [now left|].
  intros H. apply IH in H. destruct H as [H | (j & Hj & Hrun)].
  - destruct (run_strategy_backtest np_std self (now i) strategy_name symbol
                start_date end_date initial_capital None) as [r|] eqn:Er;
      [|now left].
    destruct (decide (strategy_name = name)) as [->|Hne].
    + rewrite lookup_insert_eq in H. injection H as ->.
      right. exists 0%nat. rewrite Nat.add_0_r. now split.
    + rewrite lookup_insert_ne in H by exact Hne. now left.
  - right. exists (S j). split; [exact Hj|].
    now replace (i + S j)%nat with (S i + j)%nat by lia.
Qed.

Lemma compare_loop_keeps np_std self now symbol start_date end_date initial_capital
    name strategies :
  forall i results,
    is_Some (results !! name)
    \/ (exists j result,
          strategies !! j = Some name
          /\ run_strategy_backtest np_std self (now (i + j)%nat) name symbol
               start_date end_date initial_capital None = Ok result) ->
    is_Some (compare_loop np_std self now symbol start_date end_date
                          initial_capital i strategies results !! name).
Proof.
  induction strategies as [|strategy_name rest IH]; intros i results H;
    cbn [compare_loop].
  - destruct H as [H | (j & result & Hj & _)]; [exact H|discriminate Hj].
  - apply IH. destruct H as [H | (j & result & Hj & Hrun)].
    + left. destruct (run_strategy_backtest _ _ _ _ _ _ _ _ _); [|exact H].
      destruct (decide (strategy_name = name)) as [->|Hne].
      * rewrite lookup_insert_eq. now eexists.
      * now rewrite lookup_insert_ne by exact Hne.
    + destruct j as [|j].
      * injection Hj as ->. rewrite Nat.add_0_r in Hrun. rewrite Hrun.
        left. rewrite lookup_insert_eq. now eexists.
      * right. exists j, result. split; [exact Hj|].
        now replace (S i + j)%nat with (i + S j)%nat by lia.
Qed.

(** Every entry of the table [compare_strategies] returns is the report of a
    run that succeeded: it is stored under the name of a registered strategy
    that occurs in the list, it is the report [run_strategy_backtest] gave
    for that name at one of its occurrences, and it names that strategy, the
    symbol, the capital and the dates the comparison was asked for. *)
Theorem compare_strategies_entries_are_reports (np_std : list Q -> Q)
    (self : DataProvider) (now : nat -> datetime) (strategies : list string)
    (symbol : string) (start_date end_date : datetime) (initial_capital : Q)
    (name : string) (result : BacktestResult.t) :
  compare_strategies np_std self now strategies symbol start_date end_date
                     initial_capital !! name = Some result ->
  (exists j,
      strategies !! j = Some name
      /\ run_strategy_backtest np_std self (now j) name symbol start_date end_date
           initial_capital None = Ok result)
  /\ (name ∈ ["sma_crossover"; "rsi"; "macd"; "multi_indicator"])
  /\ self symbol start_date end_date <> []
  /\ BacktestResult.strategy_name result = name
  /\ BacktestResult.symbol result = symbol
  /\ BacktestResult.initial_capital result = initial_capital
  /\ BacktestResult.start_date result = start_date
  /\ BacktestResult.end_date result = end_date.
Proof.
  unfold compare_strategies. intros H.
  apply compare_loop_origin in H. destruct H as [H | (j & Hj & Hrun)].
  - rewrite lookup_empty in H. discriminate H.
  - cbn [Nat.add] in Hrun. split; [exists j; now split|].
    exact (run_strategy_backtest_identity _ _ _ _ _ _ _ _ _ _ Hrun).
Qed.

Lemma compare_strategies_entries_are_reports_witness :
  exists result,
    compare_strategies np_std_6 (series_provider one_bar_series)
      (fun _ => mk_datetime 2025 0) ["momentum"; "sma_crossover"] "TEST"
      (mk_datetime 2020 0) (mk_datetime 2020 1000) 100000
    !! "sma_crossover" = Some result
    /\ BacktestResult.strategy_name result = "sma_crossover".
Proof.
  assert (H : exists result,
             compare_strategies np_std_6 (series_provider one_bar_series)
               (fun _ => mk_datetime 2025 0) ["momentum"; "sma_crossover"] "TEST"
               (mk_datetime 2020 0) (mk_datetime 2020 1000) 100000
             !! "sma_crossover" = Some result).
  { eexists. vm_compute. reflexivity. }
  destruct H as (result & H). exists result. split; [exact H|].
  destruct (compare_strategies_entries_are_reports _ _ _ _ _ _ _ _ _ _ H)
    as (_ & _ & _ & Hname & _).
  exact Hname.
Defined.

(** A failing strategy does not abort the comparison: whatever happens to the
    other names of the list, a name for which [run_strategy_backtest]
    succeeds at one of its occurrences has an entry in the table that
    [compare_strategies] returns. *)
Theorem compare_strategies_keeps_successes (np_std : list Q -> Q)
    (self : DataProvider) (now : nat -> datetime) (strategies : list string)
    (symbol : string) (start_date end_date : datetime) (initial_capital : Q)
    (name : string) (j : nat) (result : BacktestResult.t) :
  strategies !! j = Some name ->
  run_strategy_backtest np_std self (now j) name symbol start_date end_date
                        initial_capital None = Ok result ->
  is_Some (compare_strategies np_std self now strategies symbol start_date end_date
                              initial_capital !! name).
Proof.
  intros Hj Hrun. unfold compare_strategies. apply compare_loop_keeps.
  right. exists j, result. now split.
Qed.

Lemma compare_strategies_keeps_successes_witness :
  is_Some (compare_strategies np_std_6 (series_provider one_bar_series)
             (fun _ => mk_datetime 2025 0) ["momentum"; "sma_crossover"] "TEST"
             (mk_datetime 2020 0) (mk_datetime 2020 1000) 100000
           !! "sma_crossover").
Proof.
  eapply (compare_strategies_keeps_successes np_std_6
            (series_provider one_bar_series) (fun _ => mk_datetime 2025 0)
            ["momentum"; "sma_crossover"] "TEST" (mk_datetime 2020 0)
            (mk_datetime 2020 1000) 100000 "sma_crossover" 1).
  - reflexivity.
  - vm_compute. reflexivity.
Defined.
